(** * Pantheon: the OCR batch pipeline and the document stitcher

    A shallow embedding of [src/main.py]: the stitcher [_stitch_ocr_data]
    and the batch orchestrator [_perform_ocr_workflow_for_list], with the
    Python primitives they rely on; then the stitch worker, the button
    states and click handlers of the frame, the folder tree and the
    deletion of the selection; followed by the properties of the
    specification that concern the first two and by further properties of
    all of them.

    Conventions of the model.
    - A Python [str] is a [string]; a character is a code point below 256,
      so that [isalnum] is Python's on that range.
    - A parsed JSON document is a [json] value; every dynamic type error
      Python would raise on it is an explicit outcome of the statement.
    - [wx.CallAfter] posts are recorded, in posting order, as [event]s.
    - Progress arithmetic is Python's: binary64 floats and [int()]. *)

From stdpp Require Import base option list gmap strings sorting.
From Stdlib Require Import Ascii ZArith Lia DecimalString.
From Stdlib Require Floats Uint63 DecimalNat DecimalFacts.

Set Warnings "-register-all".
Local Open Scope nat_scope.

(** ** Python primitives on strings *)
Module Py.

(** [c in s] for a one-character [c]. *)
Fixpoint has_char (c : ascii) (s : string) : bool :=
  match s with
  | EmptyString => false
  | String a s' => if Ascii.eqb a c then true else has_char c s'
  end.

(** [s.startswith(p)]. *)
Definition startswith (s p : string) : bool := String.prefix p s.

(** [sub in s]: some suffix of [s] starts with [sub]. *)
Fixpoint contains (sub s : string) : bool :=
  String.prefix sub s ||
  match s with
  | EmptyString => false
  | String _ s' => contains sub s'
  end.

(** [s.split(c, 1)[1]] when [c in s]: the text after the first [c]. *)
Fixpoint after_first (c : ascii) (s : string) : string :=
  match s with
  | EmptyString => EmptyString
  | String a s' => if Ascii.eqb a c then s' else after_first c s'
  end.

(** [s.split(c)[0]], which is also [s.split(c, 1)[0]]: the text before the
    first [c], all of [s] without one. *)
Fixpoint split_first (c : ascii) (s : string) : string :=
  match s with
  | EmptyString => EmptyString
  | String a s' => if Ascii.eqb a c then EmptyString else String a (split_first c s')
  end.

(** [s.split(c)[-1]]: the text after the last [c], all of [s] without one. *)
Fixpoint split_last (c : ascii) (s : string) : string :=
  match s with
  | EmptyString => EmptyString
  | String a s' =>
      if has_char c s' then split_last c s'
      else if Ascii.eqb a c then s' else String a s'
  end.

(** [c.isalnum()] for a code point below 256: the ASCII digits and letters
    and the Latin-1 letters and numeric characters. *)
Definition isalnum_char (c : ascii) : bool :=
  let n := nat_of_ascii c in
  ((48 <=? n) && (n <=? 57)) || ((65 <=? n) && (n <=? 90)) ||
  ((97 <=? n) && (n <=? 122)) ||
  (n =? 170) || (n =? 178) || (n =? 179) || (n =? 181) || (n =? 185) ||
  (n =? 186) || ((188 <=? n) && (n <=? 190)) ||
  ((192 <=? n) && (n <=? 214)) || ((216 <=? n) && (n <=? 246)) ||
  ((248 <=? n) && (n <=? 255)).

Fixpoint all_chars (p : ascii -> bool) (s : string) : bool :=
  match s with
  | EmptyString => true
  | String a s' => p a && all_chars p s'
  end.

(** [s.isalnum()]: at least one character, and all alphanumeric. *)
Definition isalnum (s : string) : bool :=
  match s with
  | EmptyString => false
  | _ => all_chars isalnum_char s
  end.

(** [s[n:]]. *)
Fixpoint drop_chars (n : nat) (s : string) : string :=
  match n, s with
  | 0, _ => s
  | S n', String _ s' => drop_chars n' s'
  | S _, EmptyString => EmptyString
  end.

(** The scan of [str.replace] for a non-empty pattern: left to right, at
    every position outside a match already replaced, a match of [old] is
    replaced by [new] and the scan resumes after it. [skip] counts the
    characters of the current match still to be passed over. *)
Fixpoint replace_scan (old new : string) (skip : nat) (s : string) : string :=
  match s with
  | EmptyString => EmptyString
  | String c s' =>
      match skip with
      | S k => replace_scan old new k s'
      | 0 =>
          if String.prefix old s
          then new +:+ replace_scan old new (String.length old - 1) s'
          else String c (replace_scan old new 0 s')
      end
  end.

(** [str.replace] with an empty pattern puts [new] before every character
    and at the end. *)
Fixpoint replace_empty (new s : string) : string :=
  match s with
  | EmptyString => new
  | String c s' => new +:+ String c (replace_empty new s')
  end.

(** [s.replace(old, new)]. *)
Definition replace (s old new : string) : string :=
  match old with
  | EmptyString => replace_empty new s
  | _ => replace_scan old new 0 s
  end.

(** [str(n)] for a non-negative [int]. *)
Definition str_of_nat (n : nat) : string :=
  NilEmpty.string_of_uint (Nat.to_uint n).

Fixpoint zeros (n : nat) : string :=
  match n with
  | 0 => EmptyString
  | S n' => String "0" (zeros n')
  end.

(** [f"{n:010d}"]: decimal, padded with zeros on the left to width ten. *)
Definition format_010d (n : nat) : string :=
  let d := str_of_nat n in zeros (10 - String.length d) +:+ d.

End Py.

(** ** Parsed JSON, as [json.load] returns it *)

(** [JNull] is [None]; [JObj] lists the items of a [dict] in insertion
    order (its keys are distinct). Numbers are the integers; a float
    supports none of the operations used here either, and is false exactly
    when it is zero. *)
Inductive json : Type :=
  | JNull
  | JBool (b : bool)
  | JNum (z : Z)
  | JStr (s : string)
  | JArr (l : list json)
  | JObj (items : list (string * json)).

Module Json.

(** [bool(v)]: [None], [False], [0], [""], [[]] and [{}] are false. *)
Definition truthy (v : json) : bool :=
  match v with
  | JNull => false
  | JBool b => b
  | JNum z => negb (Z.eqb z 0)
  | JStr s => negb (String.eqb s "")
  | JArr l => match l with [] => false | _ => true end
  | JObj m => match m with [] => false | _ => true end
  end.

Fixpoint assoc (k : string) (m : list (string * json)) : option json :=
  match m with
  | [] => None
  | (k', v) :: m' => if String.eqb k' k then Some v else assoc k m'
  end.

(** [isinstance(v, dict)]. *)
Definition is_dict (v : json) : bool :=
  match v with JObj _ => true | _ => false end.

(** [v.get(k, default)]; [None]: [v] has no attribute [get]
    ([AttributeError]). *)
Definition get (v : json) (k : string) (default : json) : option json :=
  match v with
  | JObj m => Some (match assoc k m with Some x => x | None => default end)
  | _ => None
  end.

Fixpoint chars (s : string) : list json :=
  match s with
  | EmptyString => []
  | String c s' => JStr (String c EmptyString) :: chars s'
  end.

(** The items [enumerate(v)] yields: the elements of a list, the
    characters of a string, the keys of a dict; [None]: [v] is not iterable
    ([TypeError]). *)
Definition iter (v : json) : option (list json) :=
  match v with
  | JArr l => Some l
  | JStr s => Some (chars s)
  | JObj m => Some (map (fun kv => JStr (fst kv)) m)
  | _ => None
  end.

End Json.

(** ** What both workers post to the GUI thread *)

(** A [wx.CallAfter] post: a status text for a field of the status bar, a
    progress value for the gauge, or a [wx.LogWarning] / [wx.LogError]
    message. The text of a caught exception, which ends the error messages
    of the source, is not part of the model: a [LogError] carries the
    message up to it. *)
Inductive event : Type :=
  | Status (field : nat) (msg : string)
  | Progress (value : Z)
  | LogWarning (msg : string)
  | LogError (msg : string).

(** The content of a file opened in binary mode. *)
Definition bytes : Type := list Init.Byte.byte.

(** ** The stitcher: [_stitch_ocr_data] *)
Module Stitch.

(** The state one run of the stitcher owns: the local [image_file_counter],
    the text written so far to [stitched_md_file], the image files written
    so far, oldest first, and the posts made so far. *)
Record run : Type := Run {
  image_file_counter : nat;
  stitched_md_file : string;
  written : list (string * bytes);
  posted : list event
}.

(** A statement of the function body: it changes the run and either ends
    normally with a value or raises ([None]); what it did before raising
    stays done. *)
Definition M (A : Type) : Type := run -> option A * run.

Definition ret {A} (a : A) : M A := fun st => (Some a, st).

Definition raise {A} : M A := fun st => (None, st).

Definition bind {A B} (c : M A) (k : A -> M B) : M B :=
  fun st => match c st with
            | (Some a, st') => k a st'
            | (None, st') => (None, st')
            end.

(** [try: c  except Exception: h]. *)
Definition try_except {A} (c h : M A) : M A :=
  fun st => match c st with
            | (Some a, st') => (Some a, st')
            | (None, st') => h st'
            end.

Definition lift {A} (o : option A) : M A :=
  match o with Some a => ret a | None => raise end.

Notation "x <- c ;; k" := (bind c (fun x => k))
  (at level 100, c at next level, right associativity).
Notation "c ;;; k" := (bind c (fun _ => k))
  (at level 100, right associativity).

(** [wx.CallAfter(...)]. *)
Definition post (e : event) : M unit :=
  fun st => (Some tt, Run (image_file_counter st) (stitched_md_file st)
                          (written st) (posted st ++ [e])).

(** [with open(path, "wb") as img_f: img_f.write(image_bytes)]. *)
Definition write_image (name : string) (b : bytes) : M unit :=
  fun st => (Some tt, Run (image_file_counter st) (stitched_md_file st)
                          (written st ++ [(name, b)]) (posted st)).

(** [image_file_counter += 1]. *)
Definition incr_counter : M unit :=
  fun st => (Some tt, Run (S (image_file_counter st)) (stitched_md_file st)
                          (written st) (posted st)).

Definition read_counter : M nat :=
  fun st => (Some (image_file_counter st), st).

Definition newlines : string := String "010" (String "010" EmptyString).

(** [stitched_md_file.write(markdown_content + "\n\n")]: the sum raises
    [TypeError] unless [markdown_content] is a [str]. *)
Definition write_markdown (markdown_content : json) : M unit :=
  match markdown_content with
  | JStr m =>
      fun st => (Some tt, Run (image_file_counter st)
                              (stitched_md_file st +:+ m +:+ newlines)
                              (written st) (posted st))
  | _ => raise
  end.

(** [v.replace(old, new)]: only a [str] has the method
    ([AttributeError]). *)
Definition str_replace (v : json) (old new : string) : M json :=
  match v with
  | JStr m => ret (JStr (Py.replace m old new))
  | _ => raise
  end.

(** A text enclosed by ["!"] and [")"] with neither inside, as both forms
    of a placeholder and the link are when the id and the path have
    neither; and a text that starts with ["!"]. *)
Definition enclosed (x : string) : Prop :=
  exists b, x = String "!" (b +:+ ")") /\
            Py.has_char "!" b = false /\ Py.has_char ")" b = false.

Definition banged (x : string) : Prop := exists b, x = String "!" b.

Section Stitcher.

(** [base64.b64decode] on a [str]: the decoded bytes, or [None] when it
    raises. *)
Variable b64decode : string -> option bytes.

(** [str(v)] for a value that is not a [str], as an f-string formats it. *)
Variable str : json -> string.

(** The relative path from the directory of the merged document to the
    image directory, in POSIX form: empty when they are the same directory,
    and ending in a slash otherwise. [os.path.relpath] of an image file is
    this prefix followed by the file's name. *)
Variable rel_dir : string.

(** [str(stitched_md_path)], for the closing status text. *)
Variable stitched_md_path : string.

(** Whether a [status_callback] was passed. *)
Variable status_callback : bool.

(** [f"{v}"]. *)
Definition fmt (v : json) : string :=
  match v with JStr s => s | _ => str v end.

(** Lines 160-170 on a [str] payload: the image type and the text to
    decode. *)
Definition split_data_uri (base64_data_uri : string) : string * string :=
  if Py.has_char "," base64_data_uri then
    let header := Py.split_first "," base64_data_uri in
    let b64_data := Py.after_first "," base64_data_uri in
    let image_type :=
      if Py.startswith header "data:image/" then
        let potential_type := Py.split_last "/" (Py.split_first ";" header) in
        if Py.isalnum potential_type then potential_type else "jpeg"
      else "jpeg" in
    (image_type, b64_data)
  else ("jpeg", base64_data_uri).

(** Lines 160-171: the image type and the decoded bytes. A payload that is
    not a [str] raises on the way: a number or [True] at [","  in ...], a
    list or dict at [.split] or inside [b64decode]. *)
Definition decode_image (base64_data_uri : json) : option (string * bytes) :=
  match base64_data_uri with
  | JStr uri =>
      let (image_type, actual_encoded_data) := split_data_uri uri in
      match b64decode actual_encoded_data with
      | Some image_bytes => Some (image_type, image_bytes)
      | None => None
      end
  | _ => None
  end.

Definition new_image_filename (counter : nat) (image_type : string) : string :=
  "image_" +:+ Py.format_010d counter +:+ "." +:+ image_type.

Definition relative_image_path (filename : string) : string :=
  rel_dir +:+ filename.

(** The two surface forms of a placeholder and the link that replaces
    them. *)
Definition bare_ref (id : string) : string := "![](" +:+ id +:+ ")".

Definition titled_ref (id : string) : string :=
  "![" +:+ id +:+ "](" +:+ id +:+ ")".

(** The body of the inner [try] (lines 160-193). *)
Definition process_image (original_image_id base64_data_uri : json)
    (markdown_content : json) : M json :=
  decoded <- lift (decode_image base64_data_uri) ;;
  counter <- read_counter ;;
  let filename := new_image_filename counter (fst decoded) in
  write_image filename (snd decoded) ;;;
  let link := bare_ref (relative_image_path filename) in
  m1 <- str_replace markdown_content (bare_ref (fmt original_image_id)) link ;;
  m2 <- str_replace m1 (titled_ref (fmt original_image_id)) link ;;
  incr_counter ;;;
  ret m2.

(** One turn of the loop over a page's images (lines 154-198): the new
    value of [markdown_content]. *)
Definition stitch_image (json_name : string) (markdown_content : json)
    (image_info : json) : M json :=
  original_image_id <- lift (Json.get image_info "id" JNull) ;;
  base64_data_uri <- lift (Json.get image_info "image_base64" JNull) ;;
  if negb (Json.truthy original_image_id) || negb (Json.truthy base64_data_uri)
  then ret markdown_content
  else
    try_except
      (process_image original_image_id base64_data_uri markdown_content)
      (post (LogError ("Img proc. error " +:+ fmt original_image_id +:+
                       " in " +:+ json_name +:+ ": ")) ;;;
       ret markdown_content).

Fixpoint stitch_images (json_name : string) (image_infos : list json)
    (markdown_content : json) : M json :=
  match image_infos with
  | [] => ret markdown_content
  | image_info :: rest =>
      m <- stitch_image json_name markdown_content image_info ;;
      stitch_images json_name rest m
  end.

(** One turn of the loop over a record's pages (lines 150-199). *)
Definition stitch_page (json_name : string) (page_data : json) : M unit :=
  markdown_content <- lift (Json.get page_data "markdown" JNull) ;;
  if negb (Json.truthy markdown_content) then ret tt
  else
    images <- lift (Json.get page_data "images" (JArr [])) ;;
    image_infos <- lift (Json.iter images) ;;
    m <- stitch_images json_name image_infos markdown_content ;;
    write_markdown m.

Fixpoint stitch_pages (json_name : string) (pages : list json) : M unit :=
  match pages with
  | [] => ret tt
  | page_data :: rest =>
      stitch_page json_name page_data ;;; stitch_pages json_name rest
  end.

(** A file of [json_files]: its name and what [json.load] returns for it,
    [None] when opening or parsing it raises. *)
Definition json_file : Type := (string * option json)%type.

(** The body of the outer [try] (lines 143-199). *)
Definition stitch_record (f : json_file) : M unit :=
  ocr_data_obj <- lift (snd f) ;;
  if negb (Json.is_dict ocr_data_obj)
  then post (LogWarning ("Skipping non-dict JSON: " +:+ fst f))
  else
    pages <- lift (Json.get ocr_data_obj "pages" (JArr [])) ;;
    page_list <- lift (Json.iter pages) ;;
    stitch_pages (fst f) page_list.

(** One turn of the loop over [json_files] (lines 136-203); [i] is the
    index of [f] and [total] is [len(json_files)]. *)
Definition stitch_file (total i : nat) (f : json_file) : M unit :=
  (if status_callback
   then post (Status 0 ("Stitching " +:+ fst f +:+ " (" +:+
                        Py.str_of_nat (i + 1) +:+ "/" +:+
                        Py.str_of_nat total +:+ ")..."))
   else ret tt) ;;;
  try_except (stitch_record f)
    (post (LogError ("Stitching error for " +:+ fst f +:+ ": "))).

Fixpoint stitch_files (total i : nat) (fs : list json_file) : M unit :=
  match fs with
  | [] => ret tt
  | f :: rest => stitch_file total i f ;;; stitch_files total (S i) rest
  end.

(** The whole run, from its own initial state (lines 134-205). *)
Definition stitch_run (json_files : list json_file) : run :=
  snd ((stitch_files (length json_files) 0 json_files ;;;
        (if status_callback
         then post (Status 0 ("Stitched markdown: " +:+ stitched_md_path))
         else ret tt))
       (Run 0 EmptyString [] [])).

(** What the run leaves on disk: the merged document, opened with mode
    ["w"] and so replaced, and the image directory with every written file
    created or overwritten in order. *)
Record disk : Type := Disk {
  stitched_md : option string;
  images_dir : gmap string bytes
}.

Definition write_all (ws : list (string * bytes)) (d : gmap string bytes)
    : gmap string bytes :=
  foldl (fun m w => <[fst w := snd w]> m) d ws.

Definition _stitch_ocr_data (json_files : list json_file) (d : disk)
    : disk * list event :=
  let st := stitch_run json_files in
  (Disk (Some (stitched_md_file st)) (write_all (written st) (images_dir d)),
   posted st).

(** *** Notions the properties of the stitcher are stated with *)

(** An image entry whose [id] or [image_base64] is missing or empty. *)
Definition incomplete (image_info : json) : Prop :=
  exists id uri,
    Json.get image_info "id" JNull = Some id /\
    Json.get image_info "image_base64" JNull = Some uri /\
    Json.truthy id && Json.truthy uri = false.

(** A page whose [markdown] is missing or empty. *)
Definition blank_page (page_data : json) : Prop :=
  exists v, Json.get page_data "markdown" JNull = Some v /\ Json.truthy v = false.

(** A page with the text [m] and the image entries [l]. *)
Definition text_page (page_data : json) (m : string) (l : list json) : Prop :=
  Json.get page_data "markdown" JNull = Some (JStr m) /\ m <> EmptyString /\
  exists images, Json.get page_data "images" (JArr []) = Some images /\
                 Json.iter images = Some l.

(** The [markdown] of a page is a text, when it is not missing or empty:
    the shape the persisted record format gives it. *)
Definition markdown_is_text (page_data : json) : bool :=
  match Json.get page_data "markdown" JNull with
  | Some (JStr _) => true
  | Some v => negb (Json.truthy v)
  | None => true
  end.

Definition pages_are_text (f : json_file) : bool :=
  match snd f with
  | Some ocr_data_obj =>
      match Json.get ocr_data_obj "pages" (JArr []) with
      | Some pages =>
          match Json.iter pages with
          | Some l => forallb markdown_is_text l
          | None => true
          end
      | None => true
      end
  | None => true
  end.

(** The run after an image was written and counted, and after a post. *)
Definition add_written (w : string * bytes) (st : run) : run :=
  Run (S (image_file_counter st)) (stitched_md_file st) (written st ++ [w]) (posted st).

Definition add_posted (e : event) (st : run) : run :=
  Run (image_file_counter st) (stitched_md_file st) (written st) (posted st ++ [e]).

(** The link to the next asset, and a text with both forms of a
    placeholder replaced by a link. *)
Definition link (st : run) (ty : string) : string :=
  bare_ref (relative_image_path (new_image_filename (image_file_counter st) ty)).

Definition rewrite_refs (m id lnk : string) : string :=
  Py.replace (Py.replace m (bare_ref id) lnk) (titled_ref id) lnk.

(** The counter is the number of files written, and the file written at
    count [k] is named after [k], with an alphanumeric extension. *)
Definition numbered (st : run) : Prop :=
  image_file_counter st = length (written st) /\
  forall k w, written st !! k = Some w ->
    exists ty, fst w = new_image_filename k ty /\
               Py.all_chars Py.isalnum_char ty = true.

(** An id without the characters that delimit a reference. *)
Definition plain_id (id : string) : Prop :=
  Py.has_char "!" id = false /\ Py.has_char ")" id = false /\
  Py.has_char "]" id = false.

(** An id that is not itself the relative path of an asset. *)
Definition not_asset_path (id : string) : Prop :=
  forall k ty, id <> relative_image_path (new_image_filename k ty).

(** An image entry whose payload decodes, and so is written: [id] is the
    text of its placeholder. *)
Definition resolved (image_info : json) (id : string) : Prop :=
  exists idv uri d,
    Json.get image_info "id" JNull = Some idv /\
    Json.get image_info "image_base64" JNull = Some uri /\
    Json.truthy idv && Json.truthy uri = true /\
    decode_image uri = Some d /\
    id = fmt idv.

(** Neither form of the placeholder of [id] occurs in [t]. *)
Definition free_of (id t : string) : Prop :=
  Py.contains (bare_ref id) t = false /\ Py.contains (titled_ref id) t = false.

(** [c] preserves [P], whether it raises or not. *)
Definition keeps {A} (P : run -> Prop) (c : M A) : Prop :=
  forall st, P st -> P (snd (c st)).

(** [P] survives a post, an image write and a counter increment. *)
Definition stable (P : run -> Prop) : Prop :=
  (forall e, keeps P (post e)) /\
  (forall n b, keeps P (write_image n b)) /\
  keeps P incr_counter.

(** Two runs that differ at most in their posts, and two statements that
    take such runs to such runs with the same outcome. *)
Definition agree (st st' : run) : Prop :=
  image_file_counter st = image_file_counter st' /\
  stitched_md_file st = stitched_md_file st' /\
  written st = written st'.

Definition sim {A} (c c' : M A) : Prop :=
  forall st st', agree st st' ->
    fst (c st) = fst (c' st') /\ agree (snd (c st)) (snd (c' st')).

End Stitcher.

End Stitch.

(** ** Python's float arithmetic, for the progress values *)
Module PyFloat.

(** [float(n)] for an [int] below [2^53], which converts exactly. *)
Definition of_nat (n : nat) : PrimFloat.float :=
  PrimFloat.of_uint63 (Uint63.of_Z (Z.of_nat n)).

(** [int(x)] for a finite float: truncation towards zero. A batch is never
    empty where the values are computed, so no infinity or NaN reaches it. *)
Definition to_int (x : PrimFloat.float) : Z :=
  match FloatOps.Prim2SF x with
  | SpecFloat.S754_finite s m e =>
      let v := if (0 <=? e)%Z then (Z.pos m * 2 ^ e)%Z
               else (Z.pos m / 2 ^ (- e))%Z in
      if s then (- v)%Z else v
  | _ => 0%Z
  end.

End PyFloat.

(** ** The batch orchestrator: [_perform_ocr_workflow_for_list] *)
Module Ocr.

(** A file of the [json] directory: a complete record, or what an
    interrupted [json.dump] leaves behind, which is not parseable JSON. *)
Inductive stored : Type :=
  | Saved (record : json)
  | Truncated.

(** A truthy-or-not object returned by the OCR service, seen through lines
    788-803: [as_dict] is the outcome of the conversion attempt, either the
    text of the exception it raises or the value bound to [ocr_data_dict];
    that value is [Some j] when [json.dump] writes it as [j] and [None] when
    [json.dump] raises on it. *)
Record response : Type := Response {
  is_true : bool;
  as_dict : string + option json
}.

(** A selected image with what happens to it in the outside world: [stem]
    and [suffix] split its file name as [pathlib] does; [pdf_saved] tells
    whether Pillow opens it and saves the PDF; [base64_pdf] is the encoded
    PDF, [None] when reading it raises; [ocr] is what the service call
    returns, [None] when it raises; [json_opens] tells whether the record
    file can be opened for writing. *)
Record item : Type := Item {
  stem : string;
  suffix : string;
  pdf_saved : bool;
  base64_pdf : option string;
  ocr : option response;
  json_opens : bool
}.

(** [image_path.name]. *)
Definition name (it : item) : string := stem it +:+ suffix it.

(** [image_path.with_suffix(".pdf").name]. *)
Definition pdf_name (it : item) : string := stem it +:+ ".pdf".

(** [image_path.with_suffix(".json").name]. *)
Definition json_name (it : item) : string := stem it +:+ ".json".

(** The state of the worker: the [json] directory and the posts so far. *)
Record job : Type := Job {
  store : gmap string stored;
  posted : list event
}.

Definition M (A : Type) : Type := job -> A * job.

Definition ret {A} (a : A) : M A := fun st => (a, st).

Definition bind {A B} (c : M A) (k : A -> M B) : M B :=
  fun st => let (a, st') := c st in k a st'.

Notation "x <- c ;; k" := (bind c (fun x => k))
  (at level 100, c at next level, right associativity).
Notation "c ;;; k" := (bind c (fun _ => k))
  (at level 100, right associativity).

Definition post (e : event) : M unit :=
  fun st => (tt, Job (store st) (posted st ++ [e])).

(** What [open(path, "w")] followed by [json.dump] leaves under [key]. *)
Definition put (key : string) (f : stored) : M unit :=
  fun st => (tt, Job (<[key := f]> (store st)) (posted st)).

(** [self.update_progress] shows its argument clamped to the gauge's range. *)
Definition update_progress (value : Z) : Z := Z.min (Z.max 0 value) 100.

(** [int((i / total_files) * 100)]. *)
Definition share_start (i total_files : nat) : Z :=
  PyFloat.to_int
    (PrimFloat.mul (PrimFloat.div (PyFloat.of_nat i) (PyFloat.of_nat total_files))
                   (PyFloat.of_nat 100)).

(** [int(k * (100 / total_files) / 4)]. *)
Definition quarter (k total_files : nat) : Z :=
  PyFloat.to_int
    (PrimFloat.div
       (PrimFloat.mul (PyFloat.of_nat k)
          (PrimFloat.div (PyFloat.of_nat 100) (PyFloat.of_nat total_files)))
       (PyFloat.of_nat 4)).

Section Orchestrator.

(** Whether Pillow was imported, and whether the Mistral client exists. *)
Variable PILImage : bool.
Variable mistral_client : bool.

(** [_image_to_pdf], called with a callback that posts to field 1: whether
    it returns the path of the PDF. *)
Definition _image_to_pdf (it : item) : M bool :=
  post (Status 1 ("Converting " +:+ name it +:+ " to PDF...")) ;;;
  if negb PILImage then
    post (LogError "Pillow library is not available to convert image to PDF.") ;;;
    ret false
  else if pdf_saved it then
    post (Status 1 ("Converted " +:+ name it +:+ " to PDF: " +:+ pdf_name it)) ;;;
    ret true
  else
    post (LogError ("Error converting " +:+ name it +:+ " to PDF: ")) ;;;
    post (Status 1 ("Failed to convert " +:+ name it +:+ " to PDF.")) ;;;
    ret false.

(** [_encode_pdf_to_base64], with the same callback. *)
Definition _encode_pdf_to_base64 (it : item) : M (option string) :=
  post (Status 1 ("Encoding " +:+ pdf_name it +:+ " to base64...")) ;;;
  match base64_pdf it with
  | Some encoded =>
      post (Status 1 ("Encoded " +:+ pdf_name it +:+ ".")) ;;;
      ret (Some encoded)
  | None =>
      post (LogError ("Error encoding PDF " +:+ pdf_name it +:+ ": ")) ;;;
      post (Status 1 ("Encoding failed for " +:+ pdf_name it)) ;;;
      ret None
  end.

(** [_request_mistral_ocr], with the same callback and a non-empty
    payload. *)
Definition _request_mistral_ocr (it : item) : M (option response) :=
  if negb mistral_client then
    post (LogError "Mistral client not initialized.") ;;; ret None
  else
    post (Status 1 ("Requesting Mistral OCR for " +:+ pdf_name it +:+ "...")) ;;;
    match ocr it with
    | Some r =>
        post (Status 1 ("OCR received for " +:+ pdf_name it +:+ ".")) ;;;
        ret (Some r)
    | None =>
        post (LogError ("Error during Mistral OCR for " +:+ pdf_name it +:+ ": ")) ;;;
        ret None
    end.

(** The record written when the response cannot be converted (lines
    800-803). *)
Definition error_marker (details : string) : json :=
  JObj [("error", JStr "Failed to serialize OCR response");
        ("details", JStr details)].

(** Lines 788-803: the value of [ocr_data_dict]. *)
Definition to_dict (r : response) : M (option json) :=
  match as_dict r with
  | inr v => ret v
  | inl details =>
      post (LogError "Could not convert OCR response to dict: ") ;;;
      ret (Some (error_marker details))
  end.

(** Lines 805-825. *)
Definition save_json (it : item) (ocr_data_dict : option json) : M unit :=
  if json_opens it then
    match ocr_data_dict with
    | Some j =>
        put (json_name it) (Saved j) ;;;
        post (Status 1 ("OCR data saved: " +:+ json_name it))
    | None =>
        put (json_name it) Truncated ;;;
        post (LogError ("Failed to save OCR JSON for " +:+ name it +:+ ": ")) ;;;
        post (Status 0 ("Failed save JSON: " +:+ name it))
    end
  else
    post (LogError ("Failed to save OCR JSON for " +:+ name it +:+ ": ")) ;;;
    post (Status 0 ("Failed save JSON: " +:+ name it)).

(** Whether a value is true where the source tests [if not base64_pdf]. *)
Definition nonempty (o : option string) : bool :=
  match o with
  | Some s => negb (String.eqb s "")
  | None => false
  end.

(** One turn of the loop over [image_paths] (lines 736-832). A [continue]
    leaves the turn before its closing progress post. *)
Definition process_item (total_files i : nat) (it : item) : M unit :=
  let current_file_progress_start := share_start i total_files in
  post (Status 0 ("Processing file " +:+ Py.str_of_nat (i + 1) +:+ "/" +:+
                  Py.str_of_nat total_files +:+ ": " +:+ name it +:+ "...")) ;;;
  post (Progress (current_file_progress_start + quarter 1 total_files)) ;;;
  pdf_file <- _image_to_pdf it ;;
  if negb pdf_file then
    post (Status 0 ("Failed PDF conversion: " +:+ name it))
  else
    post (Progress (current_file_progress_start + quarter 2 total_files)) ;;;
    encoded <- _encode_pdf_to_base64 it ;;
    if negb (nonempty encoded) then
      post (Status 0 ("Failed PDF encoding: " +:+ name it))
    else
      post (Progress (current_file_progress_start + quarter 3 total_files)) ;;;
      ocr_response_obj <- _request_mistral_ocr it ;;
      match ocr_response_obj with
      | Some r =>
          if is_true r then
            ocr_data_dict <- to_dict r ;;
            save_json it ocr_data_dict
          else post (Status 0 ("Failed OCR request: " +:+ name it))
      | None => post (Status 0 ("Failed OCR request: " +:+ name it))
      end ;;;
      post (Progress (share_start (i + 1) total_files)).

Fixpoint process_items (total_files i : nat) (its : list item) : M unit :=
  match its with
  | [] => ret tt
  | it :: rest =>
      process_item total_files i it ;;; process_items total_files (S i) rest
  end.

(** The worker, up to the posts that refresh the tree and enable the
    buttons again: the [json] directory it leaves and its posts. *)
Definition _perform_ocr_workflow_for_list (image_paths : list item)
    (json_dir : gmap string stored) : job :=
  snd ((post (Progress 0) ;;;
        process_items (length image_paths) 0 image_paths ;;;
        post (Status 0 "OCR processing complete for selected files.") ;;;
        post (Progress 100))
       (Job json_dir [])).

(** *** Notions the properties of the orchestrator are stated with *)

(** What each sub-step posts. *)
Definition convert_posts (it : item) : list event :=
  Status 1 ("Converting " +:+ name it +:+ " to PDF...") ::
  if negb PILImage then
    [LogError "Pillow library is not available to convert image to PDF."]
  else if pdf_saved it then
    [Status 1 ("Converted " +:+ name it +:+ " to PDF: " +:+ pdf_name it)]
  else
    [LogError ("Error converting " +:+ name it +:+ " to PDF: ");
     Status 1 ("Failed to convert " +:+ name it +:+ " to PDF.")].

Definition converted (it : item) : bool := PILImage && pdf_saved it.

Definition encode_posts (it : item) : list event :=
  Status 1 ("Encoding " +:+ pdf_name it +:+ " to base64...") ::
  match base64_pdf it with
  | Some _ => [Status 1 ("Encoded " +:+ pdf_name it +:+ ".")]
  | None => [LogError ("Error encoding PDF " +:+ pdf_name it +:+ ": ");
             Status 1 ("Encoding failed for " +:+ pdf_name it)]
  end.

Definition encoded (it : item) : bool := nonempty (base64_pdf it).

Definition request_posts (it : item) : list event :=
  if negb mistral_client then [LogError "Mistral client not initialized."]
  else
    Status 1 ("Requesting Mistral OCR for " +:+ pdf_name it +:+ "...") ::
    match ocr it with
    | Some _ => [Status 1 ("OCR received for " +:+ pdf_name it +:+ ".")]
    | None => [LogError ("Error during Mistral OCR for " +:+ pdf_name it +:+ ": ")]
    end.

(** The response the orchestrator goes on with, if any. *)
Definition received (it : item) : option response :=
  if mistral_client then
    match ocr it with
    | Some r => if is_true r then Some r else None
    | None => None
    end
  else None.

(** What is left under the item's key, if anything is written there. *)
Definition outcome (it : item) : option stored :=
  if converted it && encoded it then
    match received it with
    | Some r =>
        if json_opens it then
          match as_dict r with
          | inl details => Some (Saved (error_marker details))
          | inr (Some j) => Some (Saved j)
          | inr None => Some Truncated
          end
        else None
    | None => None
    end
  else None.

Definition save_failed : item -> list event := fun it =>
  [LogError ("Failed to save OCR JSON for " +:+ name it +:+ ": ");
   Status 0 ("Failed save JSON: " +:+ name it)].

Definition persist_posts (it : item) : list event :=
  match received it with
  | Some r =>
      (match as_dict r with
       | inl _ => [LogError "Could not convert OCR response to dict: "]
       | inr _ => []
       end) ++
      (match outcome it with
       | Some (Saved _) => [Status 1 ("OCR data saved: " +:+ json_name it)]
       | _ => save_failed it
       end)
  | None => [Status 0 ("Failed OCR request: " +:+ name it)]
  end.

(** The posts of one item, in order. *)
Definition item_posts (total_files i : nat) (it : item) : list event :=
  [Status 0 ("Processing file " +:+ Py.str_of_nat (i + 1) +:+ "/" +:+
             Py.str_of_nat total_files +:+ ": " +:+ name it +:+ "...");
   Progress (share_start i total_files + quarter 1 total_files)] ++
  convert_posts it ++
  if converted it then
    Progress (share_start i total_files + quarter 2 total_files) ::
    encode_posts it ++
    if encoded it then
      Progress (share_start i total_files + quarter 3 total_files) ::
      request_posts it ++ persist_posts it ++
      [Progress (share_start (i + 1) total_files)]
    else [Status 0 ("Failed PDF encoding: " +:+ name it)]
  else [Status 0 ("Failed PDF conversion: " +:+ name it)].

Definition put_outcome (it : item) (m : gmap string stored) : gmap string stored :=
  match outcome it with
  | Some f => <[json_name it := f]> m
  | None => m
  end.

Fixpoint batch_posts (total_files i : nat) (its : list item) : list event :=
  match its with
  | [] => []
  | it :: rest => item_posts total_files i it ++ batch_posts total_files (S i) rest
  end.

Definition put_outcomes (its : list item) (m : gmap string stored)
    : gmap string stored :=
  foldl (fun m it => put_outcome it m) m its.

Definition is_saved (f : stored) : bool :=
  match f with Saved _ => true | Truncated => false end.

Definition records (m : gmap string stored) : nat :=
  size (filter (fun kv => is_saved kv.2 = true) m).

Definition succeeds (it : item) : bool :=
  match outcome it with Some (Saved _) => true | _ => false end.

Definition failure_reasons : list string :=
  ["Failed PDF conversion: "; "Failed PDF encoding: ";
   "Failed OCR request: "; "Failed save JSON: "].

Definition failure_reported (it : item) (posts : list event) : Prop :=
  exists reason, In reason failure_reasons /\
                 In (Status 0 (reason +:+ name it)) posts.

Definition progress_value (e : event) : option Z :=
  match e with Progress v => Some v | _ => None end.

Definition progress_values (posts : list event) : list Z :=
  omap progress_value posts.

(** The progress values of one item. *)
Definition item_values (total_files i : nat) (it : item) : list Z :=
  (share_start i total_files + quarter 1 total_files)%Z ::
  if converted it then
    (share_start i total_files + quarter 2 total_files)%Z ::
    if encoded it then
      [(share_start i total_files + quarter 3 total_files)%Z;
       share_start (i + 1) total_files]
    else []
  else [].

Fixpoint shares_ok (total_files : nat) (q3 : Z) (n : nat) (next : Z) : bool :=
  match n with
  | 0 => true
  | S i =>
      let s := share_start i total_files in
      (s + q3 <=? next)%Z && shares_ok total_files q3 i s
  end.

(** The inequalities between the values of a batch of [total_files]
    items, checked by evaluating Python's float expressions. *)
Definition ordered_shares (total_files : nat) : bool :=
  let q1 := quarter 1 total_files in
  let q2 := quarter 2 total_files in
  let q3 := quarter 3 total_files in
  (0 <=? q1)%Z && (q1 <=? q2)%Z && (q2 <=? q3)%Z &&
  (0 <=? share_start 0 total_files)%Z &&
  (share_start total_files total_files <=? 100)%Z &&
  shares_ok total_files q3 total_files (share_start total_files total_files).

Fixpoint chain (lo : Z) (l : list Z) : Prop :=
  match l with
  | [] => True
  | v :: l' => (lo <= v)%Z /\ chain v l'
  end.

(** [l] rises from [lo] and stays below [hi]. *)
Definition within (lo hi : Z) (l : list Z) : Prop :=
  chain lo l /\ Forall (fun v => (v <= hi)%Z) l /\ (lo <= hi)%Z.

End Orchestrator.

End Ocr.

(** ** Concrete collaborators and inputs, for the examples *)

(** [base64.b64decode(s)] on a [str], following CPython's
    [binascii.a2b_base64] without strict mode: characters outside the
    alphabet are skipped, a complete pad sequence ends the input, and a
    quad left incomplete at the end raises; so does a non-ASCII [str]. *)
Module Base64.

Definition table_a2b (c : ascii) : option N :=
  let n := N_of_ascii c in
  if (65 <=? n)%N && (n <=? 90)%N then Some (n - 65)%N
  else if (97 <=? n)%N && (n <=? 122)%N then Some (n - 71)%N
  else if (48 <=? n)%N && (n <=? 57)%N then Some (n + 4)%N
  else if (n =? 43)%N then Some 62%N
  else if (n =? 47)%N then Some 63%N
  else None.

Definition octet (n : N) : Init.Byte.byte := byte_of_ascii (ascii_of_N n).

Fixpoint a2b (s : string) (quad_pos : nat) (leftchar : N) (pads : nat)
    (bin_data : bytes) : option bytes :=
  match s with
  | EmptyString => if quad_pos =? 0 then Some bin_data else None
  | String c s' =>
      if Ascii.eqb c "=" then
        if (2 <=? quad_pos) && (4 <=? quad_pos + S pads) then Some bin_data
        else a2b s' quad_pos leftchar
                 (if 2 <=? quad_pos then S pads else pads) bin_data
      else
        match table_a2b c with
        | None => a2b s' quad_pos leftchar pads bin_data
        | Some this_ch =>
            match quad_pos with
            | 0 => a2b s' 1 this_ch 0 bin_data
            | 1 => a2b s' 2 (N.land this_ch 15) 0
                       (bin_data ++ [octet (N.lor (N.shiftl leftchar 2)
                                                  (N.shiftr this_ch 4))])
            | 2 => a2b s' 3 (N.land this_ch 3) 0
                       (bin_data ++ [octet (N.lor (N.shiftl leftchar 4)
                                                  (N.shiftr this_ch 2))])
            | _ => a2b s' 0 0%N 0
                       (bin_data ++ [octet (N.lor (N.shiftl leftchar 6)
                                                  this_ch)])
            end
        end
  end.

Definition is_ascii (c : ascii) : bool := (N_of_ascii c <? 128)%N.

Definition b64decode (s : string) : option bytes :=
  if Py.all_chars is_ascii s then a2b s 0 0%N 0 [] else None.

End Base64.

Module Examples.

(** [str(v)] for [None], a [bool] or an [int]. The [repr] of a list or a
    dict is not spelled out: no example formats one. *)
Definition str_scalar (v : json) : string :=
  match v with
  | JNull => "None"
  | JBool true => "True"
  | JBool false => "False"
  | JNum z => NilEmpty.string_of_int (Z.to_int z)
  | JStr s => s
  | JArr _ | JObj _ => EmptyString
  end.

Definition image (id payload : string) : json :=
  JObj [("id", JStr id); ("image_base64", JStr payload)].

Definition page (markdown : string) (images : list json) : json :=
  JObj [("markdown", JStr markdown); ("images", JArr images)].

Definition record (pages : list json) : json := JObj [("pages", JArr pages)].

(** The application's layout: [markdown/stitched_document.md] next to
    [images/]. *)
Definition stitch (json_files : list Stitch.json_file) (d : Stitch.disk)
    : Stitch.disk * list event :=
  Stitch._stitch_ocr_data Base64.b64decode str_scalar "../images/"
    "markdown/stitched_document.md" true json_files d.

Definition fresh : Stitch.disk := Stitch.Disk None ∅.

(** The two records of the specification's worked example. *)
Definition record_A : json :=
  record [page "See ![](img1)" [image "img1" "data:image/png;base64,aGk="]].

Definition record_B : json := record [page "Done." []].

(** A page whose only image has, for an id, the relative path its own
    asset is going to get. *)
Definition asset_path_id : string := "../images/image_0000000000.png".

Definition record_C : json :=
  record [page "![](../images/image_0000000000.png)"
               [image asset_path_id "data:image/png;base64,aGk="]].

Definition worked_example : list Stitch.json_file :=
  [("a.json", Some record_A); ("b.json", Some record_B)].

Definition page_A : json :=
  page "See ![](img1)" [image "img1" "data:image/png;base64,aGk="].

Definition stitch_page : json -> Stitch.run -> option unit * Stitch.run :=
  Stitch.stitch_page Base64.b64decode str_scalar "../images/" "a.json".

Definition stitch_pages : list json -> Stitch.run -> option unit * Stitch.run :=
  Stitch.stitch_pages Base64.b64decode str_scalar "../images/" "a.json".

Definition stitch_run : list Stitch.json_file -> Stitch.run :=
  Stitch.stitch_run Base64.b64decode str_scalar "../images/"
    "markdown/stitched_document.md" true.

Definition start : Stitch.run := Stitch.Run 0 EmptyString [] [].

(** Images for which every step of the orchestrator goes well, two of
    them with the same stem, and one whose response cannot be converted. *)
Definition good (stem suffix : string) : Ocr.item :=
  Ocr.Item stem suffix true (Some "JVBERi0=")
           (Some (Ocr.Response true (inr (Some record_B)))) true.

Definition a_png : Ocr.item := good "a" ".png".

Definition a_jpg : Ocr.item := good "a" ".jpg".

Definition c_png : Ocr.item :=
  Ocr.Item "c" ".png" true (Some "JVBERi0=")
           (Some (Ocr.Response true (inl "not a model"))) true.

Definition b_bmp : Ocr.item :=
  Ocr.Item "b" ".bmp" false None None true.

Definition ocr : list Ocr.item -> gmap string Ocr.stored -> Ocr.job :=
  Ocr._perform_ocr_workflow_for_list true true.

End Examples.

(** ** Cases of records, pages and image entries *)
Module StitchCases.
Import Stitch.

(** The texts of the [Status] posts, in posting order. *)
Definition status_text (e : event) : option string :=
  match e with Status _ msg => Some msg | _ => None end.

Definition status_texts (posts : list event) : list string :=
  omap status_text posts.

(** The status text that announces the file of index [i] (line 140). *)
Definition stitching_status (total i : nat) (f : json_file) : string :=
  "Stitching " +:+ fst f +:+ " (" +:+ Py.str_of_nat (i + 1) +:+ "/" +:+
  Py.str_of_nat total +:+ ")...".

Fixpoint stitching_statuses (total i : nat) (fs : list json_file) : list string :=
  match fs with
  | [] => []
  | f :: rest => stitching_status total i f :: stitching_statuses total (S i) rest
  end.

(** The texts of a list, one after the other. *)
Definition join (ts : list string) : string := foldr String.append EmptyString ts.

(** A file name of the form [image_<digits>.<extension>] with an
    alphanumeric extension. *)
Definition asset_name (name : string) : Prop :=
  exists k ty, name = new_image_filename k ty /\
               Py.all_chars Py.isalnum_char ty = true.

Section Stitcher.

Variable b64decode : string -> option bytes.
Variable str : json -> string.

(** An image entry with an id and a payload, whose payload is not decoded:
    it is not a [str], or [b64decode] raises on its data. [id] is the text
    of the id in the error message. *)
Definition undecodable (image_info : json) (id : string) : Prop :=
  exists idv uri,
    Json.get image_info "id" JNull = Some idv /\
    Json.get image_info "image_base64" JNull = Some uri /\
    Json.truthy idv && Json.truthy uri = true /\
    decode_image b64decode uri = None /\
    id = fmt str idv.

(** An image entry that yields no asset. *)
Definition unresolved (image_info : json) : Prop :=
  incomplete image_info \/ exists id, undecodable image_info id.

(** A page that adds the text [t] to the merged document as it stands:
    nothing for a page without markdown, its markdown and a blank line for a
    page none of whose images yields an asset. *)
Definition verbatim_page (page_data : json) (t : string) : Prop :=
  (blank_page page_data /\ t = EmptyString) \/
  (exists m l, text_page page_data m l /\ Forall unresolved l /\
               t = m +:+ newlines).

(** A record, with the texts its pages add. *)
Definition verbatim_record (f : json_file) (ts : list string) : Prop :=
  exists obj pages l,
    snd f = Some obj /\
    Json.get obj "pages" (JArr []) = Some pages /\
    Json.iter pages = Some l /\
    Forall2 verbatim_page l ts.

End Stitcher.

End StitchCases.

(** ** More of Python on texts: comparison, [sorted], letter case *)
Module PyStr.

(** [a < b] on [str]: at the first position where the two differ the code
    point of [a] is the smaller one, or [a] is a proper prefix of [b]. *)
Fixpoint str_lt (a b : string) : bool :=
  match a, b with
  | _, EmptyString => false
  | EmptyString, String _ _ => true
  | String x a', String y b' =>
      (nat_of_ascii x <? nat_of_ascii y) ||
      ((nat_of_ascii x =? nat_of_ascii y) && str_lt a' b')
  end.

(** [sorted(l)], which compares with [<] only and is stable: every element
    goes before the first element of the sorted rest that is not smaller
    than it. *)
Fixpoint insort {A} (lt : A -> A -> bool) (x : A) (l : list A) : list A :=
  match l with
  | [] => [x]
  | y :: l' => if lt y x then y :: insort lt x l' else x :: y :: l'
  end.

Definition sorted {A} (lt : A -> A -> bool) (l : list A) : list A :=
  foldr (insort lt) [] l.

(** [c.lower()] for a code point below 256: the ASCII capitals and the
    Latin-1 capitals, which lie 32 below their small letters. *)
Definition lower_char (c : ascii) : ascii :=
  let n := nat_of_ascii c in
  if ((65 <=? n) && (n <=? 90)) || ((192 <=? n) && (n <=? 214)) ||
     ((216 <=? n) && (n <=? 222))
  then ascii_of_nat (n + 32) else c.

Fixpoint lower (s : string) : string :=
  match s with
  | EmptyString => EmptyString
  | String c s' => String (lower_char c) (lower s')
  end.

(** [s.endswith(suffix)]. *)
Definition endswith (s suffix : string) : bool :=
  (String.length suffix <=? String.length s) &&
  String.eqb (Py.drop_chars (String.length s - String.length suffix) s) suffix.

(** [s[:n]]. *)
Fixpoint take_chars (n : nat) (s : string) : string :=
  match n, s with
  | S n', String c s' => String c (take_chars n' s')
  | _, _ => EmptyString
  end.

(** [str(z)] for an [int]. *)
Definition str_of_int (z : Z) : string := NilEmpty.string_of_int (Z.to_int z).

End PyStr.

(** ** What the handlers and the workers ask of the GUI *)

Inductive button : Type := RunOcrButton | StitchPdfButton | DeleteButton.

(** A post of the kinds above, a [wx.MessageBox], the enabling of a button
    or a call of [refresh_tree_due_to_fs_event]. *)
Inductive call : Type :=
  | Post (e : event)
  | MessageBox (message caption : string)
  | Enable (b : button)
  | RefreshTree.

(** ** The image modes of [_image_to_pdf] *)
Module PdfMode.

(** Lines 57-62, on the mode and the bands of the opened image: the modes
    [img.convert] is called with, in order. The converted image has the
    mode it was converted to. *)
Definition conversions (mode : string) (bands : list string) : list string :=
  let first :=
    if String.eqb mode "P"
    then [if existsb (String.eqb "A") bands then "RGBA" else "RGB"]
    else if String.eqb mode "L" then ["RGB"]
    else [] in
  let mode' := List.last first mode in
  first ++
  if negb (existsb (String.eqb mode') ["RGB"; "RGBA"]) then ["RGB"] else [].

(** The mode of the image that [img.save] writes as a PDF. *)
Definition saved_mode (mode : string) (bands : list string) : string :=
  List.last (conversions mode bands) mode.

End PdfMode.

(** ** The stitch worker: [_perform_stitch_and_pandoc_workflow] *)
Module Workflow.

(** An entry of the [json] directory: its name, whether it is a regular
    file, and what opening it and [json.load] return, [None] when either
    raises. *)
Record dir_entry : Type := DirEntry {
  entry_name : string;
  entry_is_file : bool;
  entry_json : option json
}.

(** How [subprocess.run] ends for the pandoc command: with a return code
    and the captured error output, with [FileNotFoundError], or with
    another exception. *)
Inductive pandoc_run : Type :=
  | Exited (returncode : Z) (stderr : string)
  | NotFound
  | Failed.

Definition newline : string := String "010" EmptyString.

Definition enable_buttons : list call :=
  [Enable RunOcrButton; Enable StitchPdfButton; Enable DeleteButton].

(** [sorted([f for f in json_dir.glob("*.json") if f.is_file()])], as the
    names and contents the stitcher reads. The pattern is matched with
    case, as on a POSIX system, and the paths of one directory compare as
    their names do. *)
Definition json_files (entries : list dir_entry) : list Stitch.json_file :=
  map (fun e => (entry_name e, entry_json e))
      (PyStr.sorted
         (fun a b => PyStr.str_lt (entry_name a) (entry_name b))
         (List.filter
            (fun e => PyStr.endswith (entry_name e) ".json" && entry_is_file e)
            entries)).

Section Worker.

Variable b64decode : string -> option bytes.
Variable str : json -> string.

(** [str(stitched_md_path)] and [str(final_pdf_path)]. *)
Variable stitched_md_path : string.
Variable final_pdf_path : string.

(** Whether [self.current_opened_folder_path == base_folder]. *)
Variable same_folder : bool.

(** Lines 896-941. *)
Definition convert_to_pdf (pandoc : pandoc_run) : list call :=
  match pandoc with
  | Exited returncode stderr =>
      if (returncode =? 0)%Z then
        [Post (Status 0 "Final PDF: final_document.pdf");
         Post (Progress 100);
         MessageBox ("Successfully created PDF: " +:+ final_pdf_path) "Success"]
        ++ (if same_folder then [RefreshTree] else [])
      else
        [Post (LogError ("Pandoc error (Code " +:+ PyStr.str_of_int returncode +:+
                         "):" +:+ newline +:+ stderr));
         MessageBox ("Pandoc failed. Check logs." +:+ newline +:+ "Error: " +:+
                     PyStr.take_chars 200 stderr +:+ "...") "Pandoc Error";
         Post (Status 0 "Pandoc failed.");
         Post (Progress 0)]
  | NotFound =>
      [Post (LogError "Pandoc not found. Install Pandoc and ensure it's in PATH.");
       MessageBox "Pandoc not found." "Error";
       Post (Status 0 "Pandoc not found.");
       Post (Progress 0)]
  | Failed =>
      [Post (LogError "Error running Pandoc: ");
       Post (Status 0 "Pandoc error.");
       Post (Progress 0)]
  end.

(** The worker (lines 862-944), where the three output directories can be
    made and the [json] directory, if there is one, can be listed:
    [json_dir] is its listing, [None] when it does not exist. The images
    go to [images/] and the merged document to [markdown/], so that an
    asset is linked as [../images/<name>]. The result is the disk the
    worker leaves and its calls, in order. *)
Definition _perform_stitch_and_pandoc_workflow
    (json_dir : option (list dir_entry)) (pandoc : pandoc_run)
    (d : Stitch.disk) : Stitch.disk * list call :=
  let start :=
    [Post (Progress 5); Post (Status 0 "Collecting JSON files...")] in
  match json_dir with
  | None | Some [] =>
      (d, start ++
          [MessageBox "No JSON files in 'json' directory." "Info";
           Post (Progress 0)] ++ enable_buttons)
  | Some entries =>
      match json_files entries with
      | [] =>
          (d, start ++
              [MessageBox "No .json files found in 'json' directory." "Info";
               Post (Progress 0)] ++ enable_buttons)
      | files =>
          let (d', posts) :=
            Stitch._stitch_ocr_data b64decode str "../images/" stitched_md_path
              true files d in
          (d', start ++ [Post (Progress 20)] ++ map Post posts ++
               [Post (Progress 70);
                Post (Status 0 "Stitching complete. Converting to PDF...")] ++
               convert_to_pdf pandoc ++ enable_buttons)
      end
  end.

End Worker.

(** The progress values among the calls, in order. *)
Definition progress_of (c : call) : option Z :=
  match c with Post (Progress v) => Some v | _ => None end.

Definition progress_calls (calls : list call) : list Z := omap progress_of calls.

End Workflow.

(** ** The frame: button states and click handlers *)
Module Frame.

(** A selected path, as the handlers see it: [name] and [suffix] are the
    attributes [pathlib] gives, [is_file] what [p.is_file()] answers. *)
Record path : Type := Path {
  name : string;
  suffix : string;
  is_file : bool
}.

Definition supported_ocr_input_formats : list string :=
  [".png"; ".jpg"; ".jpeg"; ".bmp"; ".gif"; ".jp2"].

(** The state the handlers read and write: whether there is a Mistral
    client, the opened folder, the selection, and whether each button is
    enabled. *)
Record frame : Type := Frame {
  mistral_client : bool;
  current_opened_folder_path : option string;
  all_selected_item_paths : list path;
  run_ocr_button : bool;
  stitch_pdf_button : bool;
  delete_button : bool
}.

(** [p.is_file() and p.suffix.lower() in self.supported_ocr_input_formats]. *)
Definition ocr_target (p : path) : bool :=
  is_file p &&
  existsb (String.eqb (PyStr.lower (suffix p))) supported_ocr_input_formats.

Definition nonempty {A} (l : list A) : bool :=
  match l with [] => false | _ => true end.

Definition is_some {A} (o : option A) : bool :=
  match o with Some _ => true | None => false end.

(** Lines 951-969. *)
Definition update_button_states (f : frame) : frame :=
  let can_ocr := mistral_client f in
  let has_selection := nonempty (all_selected_item_paths f) in
  let ocr_target_paths := List.filter ocr_target (all_selected_item_paths f) in
  let can_run_ocr_on_selection := can_ocr && nonempty ocr_target_paths in
  let is_folder_opened := is_some (current_opened_folder_path f) in
  Frame (mistral_client f) (current_opened_folder_path f)
        (all_selected_item_paths f)
        can_run_ocr_on_selection
        (can_ocr && is_folder_opened)
        (has_selection && is_folder_opened).

(** What a click leads to: a message box, or a worker thread started on
    its arguments. *)
Inductive reaction : Type :=
  | Message (message caption : string)
  | OcrWorker (image_paths : list path) (base_output_folder : string)
  | StitchWorker (base_folder : string).

Definition disable_buttons (f : frame) : frame :=
  Frame (mistral_client f) (current_opened_folder_path f)
        (all_selected_item_paths f) false false false.

(** Lines 698-726. *)
Definition on_run_ocr_button_clicked (f : frame) : frame * reaction :=
  if negb (mistral_client f) then
    (f, Message "Mistral client not initialized." "Error")
  else
    let ocr_target_paths := List.filter ocr_target (all_selected_item_paths f) in
    if negb (nonempty ocr_target_paths) then
      (f, Message "No suitable image files selected for OCR." "OCR")
    else
      match current_opened_folder_path f with
      | None => (f, Message "Base folder not identified." "Error")
      | Some folder => (disable_buttons f, OcrWorker ocr_target_paths folder)
      end.

(** Lines 846-860. *)
Definition on_stitch_button_clicked (f : frame) : frame * reaction :=
  if negb (mistral_client f) then
    (f, Message "Mistral client not initialized." "Error")
  else
    match current_opened_folder_path f with
    | None => (f, Message "No folder opened." "Error")
    | Some folder => (disable_buttons f, StitchWorker folder)
    end.

(** The branch [display_preview] takes for [ext], the suffix of the file
    in lower case (lines 530-638). *)
Inductive preview : Type :=
  | ImagePreview
  | TextPreview
  | PdfPreview
  | Unsupported.

Definition preview_kind (ext : string) : preview :=
  if existsb (String.eqb ext) supported_ocr_input_formats then ImagePreview
  else if existsb (String.eqb ext) [".json"; ".md"] then TextPreview
  else if String.eqb ext ".pdf" then PdfPreview
  else Unsupported.

End Frame.

(** ** The folder tree: [_add_tree_items_recursive] *)
Module Tree.

(** An entry of a listed directory, as the loop sees it: a regular file
    with the suffix [pathlib] gives it, a directory with what [os.listdir]
    returns for it ([None] when it raises [OSError]), or an entry that is
    neither. *)
Inductive node : Type :=
  | File (name suffix : string)
  | Dir (name : string) (listing : option (list node))
  | Other (name : string).

Definition node_name (n : node) : string :=
  match n with File name _ | Dir name _ | Other name => name end.

Definition is_dir (n : node) : bool :=
  match n with Dir _ _ => true | _ => false end.

(** An item of the tree control: its label, its data, whether it has the
    folder icons, and the items appended under it. *)
Inductive tree_item : Type :=
  | TreeItem (label data : string) (folder : bool) (children : list tree_item).

Definition label (t : tree_item) : string :=
  match t with TreeItem l _ _ _ => l end.

Definition data (t : tree_item) : string :=
  match t with TreeItem _ d _ _ => d end.

Definition folder (t : tree_item) : bool :=
  match t with TreeItem _ _ f _ => f end.

Definition supported_preview_formats : list string :=
  [".png"; ".jpg"; ".jpeg"; ".bmp"; ".gif"; ".jp2"; ".json"; ".md"; ".pdf"].

(** The sort key [(not p.is_dir(), p.name.lower())], and [<] on such
    pairs: [False] is before [True], and equal flags leave it to the
    names. *)
Definition key (n : node) : bool * string :=
  (negb (is_dir n), PyStr.lower (node_name n)).

Definition key_lt (a b : bool * string) : bool :=
  match fst a, fst b with
  | false, true => true
  | true, false => false
  | _, _ => PyStr.str_lt (snd a) (snd b)
  end.

(** Whether the loop appends an item for the entry. *)
Definition shown (n : node) : bool :=
  match n with
  | Dir _ _ => true
  | File _ suffix =>
      existsb (String.eqb (PyStr.lower suffix)) supported_preview_formats
  | Other _ => false
  end.

(** The key of an entry, read off the item appended for it. *)
Definition item_key (t : tree_item) : bool * string :=
  (negb (folder t), PyStr.lower (label t)).

(** Every list of children in the tree of [t] has the folders first, and
    the folders and the files each in ascending order of their names in
    lower case. *)
Fixpoint levels_sorted (t : tree_item) : Prop :=
  match t with
  | TreeItem _ _ _ c =>
      StronglySorted (fun a b => key_lt (item_key b) (item_key a) = false) c /\
      (fix all (l : list tree_item) : Prop :=
         match l with
         | [] => True
         | x :: l' => levels_sorted x /\ all l'
         end) c
  end.

Section Tree.

(** [str(parent_os_path / entry)]. *)
Variable joinpath : string -> string -> string.

(** The items appended under the item of a directory of path
    [parent_os_path] whose listing is [listing] (lines 382-410). [depth]
    is the number of nested calls that are left: the source has no bound
    of its own, the interpreter raises beyond its recursion limit, and
    here no item is made at depth 0. *)
Fixpoint _add_tree_items_recursive (depth : nat) (parent_os_path : string)
    (listing : option (list node)) : list tree_item :=
  match depth, listing with
  | S d, Some names =>
      let entries :=
        PyStr.sorted (fun a b => key_lt (key a) (key b)) names in
      flat_map
        (fun item_os_path =>
           let entry_name := node_name item_os_path in
           let path := joinpath parent_os_path entry_name in
           match item_os_path with
           | Dir _ sub =>
               [TreeItem entry_name path true
                  (_add_tree_items_recursive d path sub)]
           | File _ suffix =>
               if existsb (String.eqb (PyStr.lower suffix))
                    supported_preview_formats
               then [TreeItem entry_name path false []]
               else []
           | Other _ => []
           end)
        entries
  | _, _ => []
  end.

End Tree.

End Tree.

(** ** Deleting the selection: [on_delete_button_clicked] *)
Module Delete.

(** A selected path with what the handler finds when its turn comes:
    whether it exists, whether it is a regular file or a directory, and
    whether the call that removes it raises. *)
Record target : Type := Target {
  name : string;
  present : bool;
  is_file : bool;
  is_dir : bool;
  raises : bool
}.

(** A removal that went through. *)
Inductive removal : Type :=
  | Trashed (name : string)
  | Removed (name : string)
  | RemovedTree (name : string).

(** What the handler shows and logs: a message box, the confirmation
    dialog, and the log calls. *)
Inductive notice : Type :=
  | Box (message caption : string)
  | Confirm (message caption : string)
  | LogStatus (msg : string)
  | LogFailure (msg : string)
  | LogMessage (msg : string).

(** The state of the loop over the selection (lines 668-685). *)
Record progress : Type := Progress_ {
  deleted_count : nat;
  error_count : nat;
  removals : list removal;
  notices : list notice
}.

Definition newline : string := String "010" EmptyString.

(** One turn of the loop. [send2trash] tells whether the library was
    imported. *)
Definition delete_item (send2trash : bool) (st : progress) (item_path : target)
    : progress :=
  if present item_path then
    let failed :=
      Progress_ (deleted_count st) (S (error_count st)) (removals st)
        (notices st ++ [LogFailure ("Error deleting " +:+ name item_path +:+ ": ")]) in
    let done r msg :=
      Progress_ (S (deleted_count st)) (error_count st) (removals st ++ [r])
        (notices st ++ [LogStatus (msg +:+ name item_path)]) in
    if send2trash then
      if raises item_path then failed
      else done (Trashed (name item_path)) "Moved to trash: "
    else if is_file item_path then
      if raises item_path then failed
      else done (Removed (name item_path)) "Permanently deleted file: "
    else if is_dir item_path then
      if raises item_path then failed
      else done (RemovedTree (name item_path)) "Permanently deleted folder: "
    else
      Progress_ (S (deleted_count st)) (error_count st) (removals st) (notices st)
  else st.

(** ["\n".join(l)]. *)
Fixpoint join_lines (l : list string) : string :=
  match l with
  | [] => EmptyString
  | [x] => x
  | x :: l' => x +:+ newline +:+ join_lines l'
  end.

(** The text of the confirmation dialog (lines 652-660). *)
Definition confirmation (paths : list target) : string :=
  let num_items := length paths in
  let item_names :=
    join_lines (map (fun p => "- " +:+ name p) (firstn 5 paths)) +:+
    (if 5 <? num_items
     then newline +:+ "- ...and " +:+ Py.str_of_nat (num_items - 5) +:+ " more."
     else EmptyString) in
  "Are you sure you want to delete the following " +:+ Py.str_of_nat num_items +:+
  " item(s)?" +:+ newline +:+ item_names +:+ newline +:+ newline +:+
  "This will move them to the trash (if send2trash is available) or delete them permanently.".

(** What the handler leaves: the selection, the removals that went
    through, and what it showed and logged, in order. *)
Record outcome : Type := Outcome {
  selection : list target;
  removed : list removal;
  shown : list notice
}.

(** The loop, after the confirmation dialog. *)
Definition delete_items (send2trash : bool) (paths : list target) : progress :=
  foldl (delete_item send2trash)
        (Progress_ 0 0 [] [Confirm (confirmation paths) "Confirm Delete"]) paths.

(** The handler (lines 645-696). [confirmed] tells whether the dialog is
    answered with Yes. The preview controls are not part of the model. *)
Definition on_delete_button_clicked (send2trash : bool)
    (all_selected_item_paths : list target) (confirmed : bool) : outcome :=
  match all_selected_item_paths with
  | [] => Outcome [] [] [Box "No items selected to delete." "Delete"]
  | _ =>
      if negb confirmed then
        Outcome all_selected_item_paths []
                [Confirm (confirmation all_selected_item_paths) "Confirm Delete"]
      else
        let st := delete_items send2trash all_selected_item_paths in
        Outcome [] (removals st)
          (notices st ++
           [Box ("Deletion process finished." +:+ newline +:+
                 "Successfully deleted: " +:+ Py.str_of_nat (deleted_count st) +:+
                 newline +:+ "Errors: " +:+ Py.str_of_nat (error_count st))
                "Deletion Report"] ++
           (if 0 <? error_count st
            then [LogMessage "Some items could not be deleted. Check log for details."]
            else []))
  end.

(** A path that exists and is neither a regular file nor a directory. *)
Definition special (p : target) : bool :=
  present p && negb (is_file p) && negb (is_dir p).

End Delete.

(** ** More inputs, for the examples *)
Module Samples.

(** A record whose second page is a text where an object is expected, and
    the record that stops before it. *)
Definition three_pages : json :=
  Examples.record [Examples.page "One." []; JStr "oops"; Examples.page "Three." []].

Definition first_page : json := Examples.record [Examples.page "One." []].

(** An image entry whose data is one character short of a quad. *)
Definition broken_image : json := Examples.image "img9" "data:image/png;base64,a".

(** A page with the placeholders of two images, of which it holds one. *)
Definition two_refs : json :=
  Examples.page "See ![](img1) and ![](img2)"
    [Examples.image "img1" "data:image/png;base64,aGk="].

(** Records none of whose images yields an asset. *)
Definition plain_files : list Stitch.json_file :=
  [("a.json", Some (Examples.record [Examples.page "One." []; Examples.page "" []]));
   ("b.json", Some (Examples.record [Examples.page "Two." [broken_image]]))].

(** An image whose PDF is empty, and one whose response [json.dump]
    rejects. *)
Definition empty_pdf : Ocr.item :=
  Ocr.Item "e" ".png" true (Some EmptyString) None true.

Definition undumpable : Ocr.item :=
  Ocr.Item "u" ".png" true (Some "JVBERi0=")
           (Some (Ocr.Response true (inr None))) true.

(** A [json] directory that holds an earlier record of [b.bmp]. *)
Definition earlier : gmap string Ocr.stored :=
  {[ "b.json" := Ocr.Saved Examples.record_A ]}.

(** A listing of the [json] directory with a file that is not a record,
    and a listing without a record: a text file and a directory named like
    one. *)
Definition listing : list Workflow.dir_entry :=
  [Workflow.DirEntry "b.json" true (Some Examples.record_B);
   Workflow.DirEntry "notes.txt" true None;
   Workflow.DirEntry "a.json" true (Some Examples.record_A)].

Definition listing' : list Workflow.dir_entry :=
  [Workflow.DirEntry "notes.txt" true None;
   Workflow.DirEntry "b.json" true (Some Examples.record_B);
   Workflow.DirEntry "a.json" true (Some Examples.record_A)].

Definition no_records : list Workflow.dir_entry :=
  [Workflow.DirEntry "notes.txt" true None;
   Workflow.DirEntry "old.json" false None].

Definition workflow :
    option (list Workflow.dir_entry) -> Workflow.pandoc_run -> Stitch.disk ->
    Stitch.disk * list call :=
  Workflow._perform_stitch_and_pandoc_workflow Base64.b64decode
    Examples.str_scalar "/scans/markdown/stitched_document.md"
    "/scans/final_output/final_document.pdf" true.

(** A selection to delete: a file, a path that is gone, a socket, and a
    folder whose removal raises. *)
Definition doomed : list Delete.target :=
  [Delete.Target "a.png" true true false false;
   Delete.Target "gone.png" false false false false;
   Delete.Target "sock" true false false false;
   Delete.Target "locked" true false true true].

End Samples.

(** * Properties *)

#[local] Arguments String.append !_ _ / : simpl nomatch.

Ltac find_in :=
  solve [ assumption | apply in_eq
        | apply in_cons; find_in
        | apply in_or_app; left; find_in
        | apply in_or_app; right; find_in ].

(** ** The stitcher *)
Module StitchFacts.
Import Stitch.

Section Strings.
Import Py.

Lemma app_assoc_s (a b c : string) : (a +:+ b) +:+ c = a +:+ (b +:+ c).
Proof. induction a as [|x a IH]; simpl; [reflexivity|]. now f_equal. Qed.

Lemma prefix_app (p t : string) : String.prefix p (p +:+ t) = true.
Proof.
  induction p as [|x p IH]; simpl; [now destruct t|].
  destruct (ascii_dec x x); [assumption|contradiction].
Qed.

Lemma prefix_cons (x y : ascii) (p s : string) :
  String.prefix (String x p) (String y s) =
  if Ascii.eqb x y then String.prefix p s else false.
Proof.
  simpl. destruct (ascii_dec x y) as [->|n].
  - now rewrite Ascii.eqb_refl.
  - apply Ascii.eqb_neq in n. now rewrite n.
Qed.

Lemma has_char_app (c : ascii) (a b : string) :
  has_char c (a +:+ b) = has_char c a || has_char c b.
Proof.
  induction a as [|x a IH]; simpl; [reflexivity|].
  destruct (Ascii.eqb x c); [reflexivity|assumption].
Qed.

Lemma split_first_app (c : ascii) (a b : string) :
  has_char c a = false -> split_first c (a +:+ String c b) = a.
Proof.
  induction a as [|x a IH]; simpl; intros H.
  - now rewrite Ascii.eqb_refl.
  - destruct (Ascii.eqb x c); [discriminate|]. now rewrite IH.
Qed.

Lemma after_first_app (c : ascii) (a b : string) :
  has_char c a = false -> after_first c (a +:+ String c b) = b.
Proof.
  induction a as [|x a IH]; simpl; intros H.
  - now rewrite Ascii.eqb_refl.
  - destruct (Ascii.eqb x c); [discriminate|]. now apply IH.
Qed.

Lemma split_last_app (c : ascii) (a b : string) :
  has_char c b = false -> split_last c (a +:+ String c b) = b.
Proof.
  intros Hb. induction a as [|x a IH]; simpl.
  - rewrite Hb. now rewrite Ascii.eqb_refl.
  - rewrite has_char_app. simpl. rewrite Ascii.eqb_refl, orb_true_r. exact IH.
Qed.
End Strings.

Section Replace.
Import Py.

Lemma contains_cons (p : string) (c : ascii) (s : string) :
  contains p (String c s) = String.prefix p (String c s) || contains p s.
Proof. reflexivity. Qed.

Lemma contains_drop (p : string) (k : nat) (s : string) :
  contains p (drop_chars k s) = true -> contains p s = true.
Proof.
  revert s. induction k as [|k IH]; intros s H; [exact H|].
  destruct s as [|c s]; [exact H|].
  rewrite contains_cons. apply IH in H. rewrite H. apply orb_true_r.
Qed.

Lemma length_drop (k : nat) (s : string) :
  String.length (drop_chars k s) <= String.length s.
Proof.
  revert s. induction k as [|k IH]; intros [|c s]; simpl; try lia.
  specialize (IH s). lia.
Qed.

Lemma replace_scan_skip (old new : string) (k : nat) (s : string) :
  replace_scan old new k s = replace_scan old new 0 (drop_chars k s).
Proof.
  revert k. induction s as [|c s IH]; intros [|k]; try reflexivity.
  simpl. apply IH.
Qed.

(** The two equations of the scan, at a position outside a match. *)
Lemma replace_scan_match (old new : string) (c : ascii) (s : string) :
  String.prefix old (String c s) = true ->
  replace_scan old new 0 (String c s) =
  new +:+ replace_scan old new 0 (drop_chars (String.length old - 1) s).
Proof. intros H. cbn [replace_scan]. rewrite H. now rewrite replace_scan_skip. Qed.

Lemma replace_scan_copy (old new : string) (c : ascii) (s : string) :
  String.prefix old (String c s) = false ->
  replace_scan old new 0 (String c s) = String c (replace_scan old new 0 s).
Proof. intros H. cbn [replace_scan]. now rewrite H. Qed.

Lemma enclosed_banged x : enclosed x -> banged x.
Proof. intros (b & -> & _). now eexists. Qed.

(** Up to its first ["!"], the scan copies the text. *)
Lemma prefix_replace_scan (old new w s : string) :
  banged old -> banged new -> has_char "!" w = false ->
  String.prefix w (replace_scan old new 0 s) = String.prefix w s.
Proof.
  intros [ob ->] [nb ->]. revert s.
  induction w as [|a w IH]; intros s Hw.
  - now destruct s, (replace_scan _ _ _ _).
  - simpl in Hw. destruct (Ascii.eqb a "!") eqn:Ea; [discriminate|].
    destruct s as [|c s]; [reflexivity|].
    destruct (String.prefix (String "!" ob) (String c s)) eqn:Hp.
    + rewrite (replace_scan_match _ _ _ _ Hp). simpl String.append.
      rewrite prefix_cons in Hp. rewrite !prefix_cons, Ea.
      destruct (Ascii.eqb "!" c) eqn:Ec; [|discriminate].
      apply Ascii.eqb_eq in Ec as <-. now rewrite Ea.
    + rewrite (replace_scan_copy _ _ _ _ Hp), !prefix_cons.
      destruct (Ascii.eqb a c); [now apply IH|reflexivity].
Qed.

Lemma contains_skip_plain (p x y : string) :
  banged p -> has_char "!" x = false ->
  contains p (x +:+ y) = contains p y.
Proof.
  intros [b ->]. induction x as [|a x IH]; intros Hx; [reflexivity|].
  simpl in Hx. destruct (Ascii.eqb a "!") eqn:Ea; [discriminate|].
  simpl String.append. rewrite contains_cons, prefix_cons.
  rewrite Ascii.eqb_sym, Ea. simpl. now apply IH.
Qed.

Lemma closed_prefix_inj (pb nb z : string) :
  has_char ")" pb = false -> has_char ")" nb = false ->
  String.prefix (pb +:+ ")") (nb +:+ String ")" z) = true -> pb = nb.
Proof.
  revert nb. induction pb as [|a pb IH]; intros [|b nb] Hp Hn H;
    cbn [String.append has_char] in *; try reflexivity;
    rewrite prefix_cons in H.
  - destruct (Ascii.eqb_spec b ")") as [->|Hb]; [discriminate|].
    destruct (Ascii.eqb_spec ")" b) as [<-|_]; [contradiction|discriminate].
  - destruct (Ascii.eqb_spec a ")") as [->|Ha]; discriminate.
  - destruct (Ascii.eqb_spec a ")") as [->|Ha]; [discriminate|].
    destruct (Ascii.eqb_spec b ")") as [->|Hb]; [discriminate|].
    destruct (Ascii.eqb_spec a b) as [->|Hab]; [|discriminate].
    f_equal. now apply IH.
Qed.

Lemma contains_after_link (p n z : string) :
  enclosed p -> enclosed n -> p <> n ->
  contains p (n +:+ z) = contains p z.
Proof.
  intros (pb & -> & Hp1 & Hp2) (nb & -> & Hn1 & Hn2) Hne.
  simpl String.append. rewrite contains_cons, prefix_cons. simpl Ascii.eqb.
  rewrite app_assoc_s. simpl String.append.
  destruct (String.prefix _ _) eqn:E.
  - apply closed_prefix_inj in E; [|assumption..]. now subst.
  - simpl. rewrite <- (contains_skip_plain _ (nb +:+ ")") z).
    + now rewrite app_assoc_s.
    + now eexists.
    + rewrite has_char_app, Hn1. reflexivity.
Qed.

(** A pattern that is not the link cannot appear through a replacement. *)
Lemma replace_scan_no_new (old new p : string) (s : string) :
  banged old -> enclosed new -> enclosed p -> p <> new ->
  contains p (replace_scan old new 0 s) = true -> contains p s = true.
Proof.
  intros Ho Hn Hp Hne.
  remember (String.length s) as k eqn:Hk.
  revert s Hk. induction k as [k IH] using lt_wf_ind. intros s -> H.
  destruct s as [|c s]; [exact H|].
  destruct (String.prefix old (String c s)) eqn:Hm.
  - rewrite (replace_scan_match _ _ _ _ Hm) in H.
    rewrite contains_after_link in H by assumption.
    rewrite contains_cons.
    eapply IH in H; [| |reflexivity].
    + apply contains_drop in H. rewrite H. apply orb_true_r.
    + simpl. pose proof (length_drop (String.length old - 1) s). lia.
  - rewrite (replace_scan_copy _ _ _ _ Hm) in H.
    rewrite contains_cons in H |- *.
    apply orb_true_iff in H as [H|H].
    + destruct Hp as (pb & -> & Hp1 & Hp2).
      rewrite prefix_cons in H |- *.
      destruct (Ascii.eqb "!" c); [|discriminate].
      rewrite prefix_replace_scan in H.
      * now rewrite H.
      * assumption.
      * now apply enclosed_banged.
      * rewrite has_char_app, Hp1. reflexivity.
    + eapply IH in H; [| |reflexivity]; [|simpl; lia].
      rewrite H. apply orb_true_r.
Qed.

(** After the scan no match of the pattern is left. *)
Lemma replace_scan_removes (old new : string) (s : string) :
  enclosed old -> enclosed new -> old <> new ->
  contains old (replace_scan old new 0 s) = false.
Proof.
  intros Ho Hn Hne.
  remember (String.length s) as k eqn:Hk.
  revert s Hk. induction k as [k IH] using lt_wf_ind. intros s ->.
  destruct s as [|c s].
  - destruct Ho as (b & -> & _). reflexivity.
  - destruct (String.prefix old (String c s)) eqn:Hm.
    + rewrite (replace_scan_match _ _ _ _ Hm).
      rewrite contains_after_link by assumption.
      eapply IH; [|reflexivity].
      simpl. pose proof (length_drop (String.length old - 1) s). lia.
    + rewrite (replace_scan_copy _ _ _ _ Hm), contains_cons.
      rewrite (IH (String.length s)); [| simpl; lia | reflexivity].
      rewrite orb_false_r.
      destruct Ho as (ob & -> & Ho1 & Ho2).
      rewrite prefix_cons in Hm |- *.
      destruct (Ascii.eqb "!" c); [|reflexivity].
      rewrite prefix_replace_scan; [assumption| now eexists | now apply enclosed_banged |].
      rewrite has_char_app, Ho1. reflexivity.
Qed.

End Replace.

Section Stitcher.
Context (b64decode : string -> option bytes) (str : json -> string)
        (rel_dir : string).
Local Abbreviation stitch_image := (Stitch.stitch_image b64decode str rel_dir).
Local Abbreviation stitch_images := (Stitch.stitch_images b64decode str rel_dir).
Local Abbreviation stitch_page := (Stitch.stitch_page b64decode str rel_dir).
Local Abbreviation stitch_pages := (Stitch.stitch_pages b64decode str rel_dir).
Local Abbreviation link := (Stitch.link rel_dir).
Local Abbreviation not_asset_path := (Stitch.not_asset_path rel_dir).
Local Abbreviation resolved := (Stitch.resolved b64decode str).

Lemma bind_lift_some {A B} (o : option A) (a : A) (k : A -> M B) st :
  o = Some a -> bind (lift o) k st = k a st.
Proof. now intros ->. Qed.

Lemma bind_assoc {A B C} (c : M A) (k : A -> M B) (h : B -> M C) st :
  bind (bind c k) h st = bind c (fun a => bind (k a) h) st.
Proof. unfold bind. destruct (c st) as [[a|] st1]; reflexivity. Qed.

Lemma bind_ext {A B} (c : M A) (k k' : A -> M B) st :
  (forall a st', k a st' = k' a st') -> bind c k st = bind c k' st.
Proof. intros H. unfold bind. destruct (c st) as [[a|] st1]; auto. Qed.

Lemma stitch_image_incomplete json_name md image_info st :
  incomplete image_info -> stitch_image json_name md image_info st = (Some md, st).
Proof.
  intros (id & uri & Hid & Huri & H). unfold Stitch.stitch_image.
  rewrite (bind_lift_some _ _ _ _ Hid), (bind_lift_some _ _ _ _ Huri).
  apply andb_false_iff in H. 
  destruct H as [-> | ->]; simpl; rewrite ?orb_true_r; reflexivity.
Qed.

Lemma stitch_images_app json_name l1 l2 md st :
  stitch_images json_name (l1 ++ l2) md st =
  bind (stitch_images json_name l1 md) (stitch_images json_name l2) st.
Proof.
  revert md st. induction l1 as [|a l1 IH]; intros md st; [reflexivity|].
  simpl. rewrite bind_assoc. apply bind_ext. intros m st1. apply IH.
Qed.

Lemma stitch_pages_app json_name l1 l2 st :
  stitch_pages json_name (l1 ++ l2) st =
  bind (stitch_pages json_name l1) (fun _ => stitch_pages json_name l2) st.
Proof.
  revert st. induction l1 as [|a l1 IH]; intros st; [reflexivity|].
  simpl. rewrite bind_assoc. apply bind_ext. intros m st1. apply IH.
Qed.

(** C10. An image entry whose id or payload is missing or empty is passed
    over before anything is decoded: the turn of the loop returns the
    markdown and the run unchanged (no post, no file, the same counter),
    whatever the decoder, and the loop goes as if the entry were not in the
    list. *)
Theorem incomplete_image_skipped json_name before after image_info md st :
  incomplete image_info ->
  stitch_image json_name md image_info st = (Some md, st) /\
  stitch_images json_name (before ++ image_info :: after) md st =
  stitch_images json_name (before ++ after) md st.
Proof.
  intros H. split; [now apply stitch_image_incomplete|].
  rewrite !stitch_images_app. unfold bind.
  destruct (stitch_images json_name before md st) as [[m|] st1]; [|reflexivity].
  simpl. unfold bind. now rewrite stitch_image_incomplete.
Qed.

Lemma stitch_page_blank json_name page_data st :
  blank_page page_data -> stitch_page json_name page_data st = (Some tt, st).
Proof.
  intros (v & Hv & Hf). unfold Stitch.stitch_page.
  rewrite (bind_lift_some _ _ _ _ Hv), Hf. reflexivity.
Qed.

Lemma process_image_text id uri m st :
  process_image b64decode str rel_dir id uri (JStr m) st =
  match decode_image b64decode uri with
  | Some (ty, b) =>
      (Some (JStr (rewrite_refs m (fmt str id) (link st ty))),
       add_written (new_image_filename (image_file_counter st) ty, b) st)
  | None => (None, st)
  end.
Proof.
  unfold process_image, bind, lift.
  destruct (decode_image b64decode uri) as [[ty b]|]; reflexivity.
Qed.

Lemma stitch_image_text json_name m image_info st :
  stitch_image json_name (JStr m) image_info st =
  match Json.get image_info "id" JNull, Json.get image_info "image_base64" JNull with
  | Some id, Some uri =>
      if Json.truthy id && Json.truthy uri then
        match decode_image b64decode uri with
        | Some (ty, b) =>
            (Some (JStr (rewrite_refs m (fmt str id) (link st ty))),
             add_written (new_image_filename (image_file_counter st) ty, b) st)
        | None =>
            (Some (JStr m),
             add_posted (LogError ("Img proc. error " +:+ fmt str id +:+
                                   " in " +:+ json_name +:+ ": ")) st)
        end
      else (Some (JStr m), st)
  | _, _ => (None, st)
  end.
Proof.
  unfold Stitch.stitch_image.
  destruct (Json.get image_info "id" JNull) as [id|] eqn:Hid.
  2:{ destruct image_info; simpl in Hid; try discriminate; reflexivity. }
  rewrite (bind_lift_some _ _ _ _ eq_refl).
  destruct (Json.get image_info "image_base64" JNull) as [uri|] eqn:Huri;
    [|reflexivity].
  rewrite (bind_lift_some _ _ _ _ eq_refl).
  rewrite <- negb_andb.
  destruct (Json.truthy id && Json.truthy uri); simpl; [|reflexivity].
  unfold try_except. rewrite process_image_text.
  destruct (decode_image b64decode uri) as [[ty b]|]; reflexivity.
Qed.

Lemma keeps_bind {A B} P (c : M A) (k : A -> M B) :
  keeps P c -> (forall a, keeps P (k a)) -> keeps P (bind c k).
Proof.
  intros Hc Hk st H. unfold bind. specialize (Hc st H).
  destruct (c st) as [[a|] st1]; simpl in *; [now apply Hk|assumption].
Qed.

Lemma keeps_try {A} P (c h : M A) :
  keeps P c -> keeps P h -> keeps P (try_except c h).
Proof.
  intros Hc Hh st H. unfold try_except. specialize (Hc st H).
  destruct (c st) as [[a|] st1]; simpl in *; [assumption|now apply Hh].
Qed.

Lemma keeps_ret {A} P (a : A) : keeps P (ret a).
Proof. now intros st. Qed.

Lemma keeps_lift {A} P (o : option A) : keeps P (lift o).
Proof. destruct o; now intros st. Qed.

Lemma isalnum_jpeg_or (s : string) :
  Py.all_chars Py.isalnum_char (if Py.isalnum s then s else "jpeg") = true.
Proof.
  destruct (Py.isalnum s) eqn:E; [|reflexivity].
  destruct s; [discriminate|exact E].
Qed.

Lemma split_data_uri_alnum uri :
  Py.all_chars Py.isalnum_char (split_data_uri uri).1 = true.
Proof.
  unfold split_data_uri.
  destruct (Py.has_char "," uri); [|reflexivity]. simpl.
  destruct (Py.startswith _ _); [|reflexivity]. apply isalnum_jpeg_or.
Qed.

Lemma decode_image_alnum uri ty b :
  decode_image b64decode uri = Some (ty, b) ->
  Py.all_chars Py.isalnum_char ty = true.
Proof.
  destruct uri as [| | |s| |]; try discriminate. simpl.
  pose proof (split_data_uri_alnum s) as H.
  destruct (split_data_uri s) as [t d]. destruct (b64decode d); [|discriminate].
  intros [= <- _]. exact H.
Qed.

Lemma numbered_add_written st ty b :
  numbered st -> Py.all_chars Py.isalnum_char ty = true ->
  numbered (add_written (new_image_filename (image_file_counter st) ty, b) st).
Proof.
  intros [Hc Hw] Hty. split; simpl.
  - rewrite length_app. simpl. lia.
  - intros k w Hk. destruct (decide (k < length (written st))) as [Hlt|Hge].
    + rewrite lookup_app_l in Hk by assumption. now apply Hw.
    + rewrite lookup_app_r in Hk by lia.
      destruct (k - length (written st)) as [|j] eqn:Ej; [|discriminate].
      injection Hk as <-. exists ty. split; [|assumption].
      simpl. f_equal. lia.
Qed.

Lemma numbered_add_posted st e : numbered st -> numbered (add_posted e st).
Proof. now intros [Hc Hw]. Qed.

Lemma keeps_post e : keeps numbered (post e).
Proof. intros st H. now apply numbered_add_posted. Qed.

Lemma keeps_write_markdown md : keeps numbered (write_markdown md).
Proof. destruct md; intros st [Hc Hw]; now split. Qed.

(** On a text, a turn of the image loop ends normally with a text or
    raises, and leaves the merged document as it is. *)
Lemma stitch_image_text_result json_name m image_info st :
  numbered st ->
  numbered (stitch_image json_name (JStr m) image_info st).2 /\
  stitched_md_file (stitch_image json_name (JStr m) image_info st).2 =
    stitched_md_file st /\
  ((stitch_image json_name (JStr m) image_info st).1 = None \/
   exists m', (stitch_image json_name (JStr m) image_info st).1 = Some (JStr m')).
Proof.
  intros H. rewrite stitch_image_text.
  destruct (Json.get image_info "id" JNull) as [id|]; [|now auto].
  destruct (Json.get image_info "image_base64" JNull) as [uri|]; [|now auto].
  destruct (Json.truthy id && Json.truthy uri); [|now eauto].
  destruct (decode_image b64decode uri) as [[ty b]|] eqn:Hd; simpl.
  - split; [|now eauto]. apply numbered_add_written; [assumption|].
    eapply decode_image_alnum, Hd.
  - split; [|now eauto]. now apply numbered_add_posted.
Qed.

Lemma stitch_images_text_result json_name l m st :
  numbered st ->
  numbered (stitch_images json_name l (JStr m) st).2 /\
  stitched_md_file (stitch_images json_name l (JStr m) st).2 =
    stitched_md_file st /\
  ((stitch_images json_name l (JStr m) st).1 = None \/
   exists m', (stitch_images json_name l (JStr m) st).1 = Some (JStr m')).
Proof.
  revert m st. induction l as [|a l IH]; intros m st H; [now simpl; eauto|].
  simpl. unfold bind.
  destruct (stitch_image_text_result json_name m a st H) as (H1 & H2 & H3).
  destruct (stitch_image json_name (JStr m) a st) as [[v|] st1]; simpl in *.
  - destruct H3 as [|[m' [= ->]]]; [discriminate|].
    destruct (IH m' st1 H1) as (I1 & I2 & I3). rewrite I2. auto.
  - auto.
Qed.

Lemma keeps_stitch_page json_name page_data :
  markdown_is_text page_data = true ->
  keeps numbered (stitch_page json_name page_data).
Proof.
  intros Ht st H. unfold Stitch.stitch_page, markdown_is_text in *.
  destruct (Json.get page_data "markdown" JNull) as [v|]; [|exact H].
  rewrite (bind_lift_some _ _ _ _ eq_refl).
  destruct (Json.truthy v) eqn:Hv; [|exact H]. simpl negb. cbv iota.
  assert (exists m, v = JStr m) as [m ->].
  { destruct v as [|b|z|s|l|o]; simpl in Hv, Ht; try rewrite Hv in Ht;
      try discriminate. now exists s. }
  revert st H. apply keeps_bind; [apply keeps_lift|]. intros images.
  apply keeps_bind; [apply keeps_lift|]. intros l.
  apply keeps_bind; [|intros; apply keeps_write_markdown].
  intros st H. now apply stitch_images_text_result.
Qed.

Lemma keeps_stitch_pages json_name l :
  forallb markdown_is_text l = true ->
  keeps numbered (stitch_pages json_name l).
Proof.
  induction l as [|p l IH]; simpl; intros H; [apply keeps_ret|].
  apply andb_true_iff in H as [H1 H2].
  apply keeps_bind; [now apply keeps_stitch_page|]. intros _. now apply IH.
Qed.

Lemma keeps_bind_lift {A B} P (o : option A) (k : A -> M B) :
  (forall a, o = Some a -> keeps P (k a)) -> keeps P (bind (lift o) k).
Proof. destruct o as [a|]; intros H st Hst; [now apply (H a)|exact Hst]. Qed.

Lemma keeps_stitch_record f :
  pages_are_text f = true ->
  keeps numbered (stitch_record b64decode str rel_dir f).
Proof.
  unfold pages_are_text, stitch_record. intros H.
  apply keeps_bind_lift. intros obj Hobj. rewrite Hobj in H.
  destruct (negb (Json.is_dict obj)); [apply keeps_post|].
  apply keeps_bind_lift. intros pages Hp. rewrite Hp in H.
  apply keeps_bind_lift. intros l Hl. rewrite Hl in H.
  now apply keeps_stitch_pages.
Qed.

(** *** Pages: what a page appends *)

Lemma stitch_images_dicts json_name l m st :
  forallb Json.is_dict l = true ->
  exists m', (stitch_images json_name l (JStr m) st).1 = Some (JStr m') /\
             stitched_md_file (stitch_images json_name l (JStr m) st).2 =
               stitched_md_file st.
Proof.
  revert m st. induction l as [|a l IH]; intros m st H; [now exists m|].
  simpl in H. apply andb_true_iff in H as [Ha Hl].
  simpl. unfold bind. rewrite stitch_image_text.
  destruct a as [| | | | |items]; try discriminate. simpl Json.get. cbv iota.
  destruct (Json.truthy _ && Json.truthy _).
  - destruct (decode_image b64decode _) as [[ty b]|];
      (edestruct IH as (m' & -> & ->); [exact Hl|]; now exists m').
  - apply IH, Hl.
Qed.

Lemma truthy_text m : m <> EmptyString -> Json.truthy (JStr m) = true.
Proof. intros H. simpl. now destruct m. Qed.

Lemma stitch_page_text json_name page_data m l st :
  text_page page_data m l ->
  stitch_page json_name page_data st =
  bind (stitch_images json_name l (JStr m)) write_markdown st.
Proof.
  intros (Hm & Hne & images & Hi & Hl). unfold Stitch.stitch_page.
  rewrite (bind_lift_some _ _ _ _ Hm), (truthy_text _ Hne). cbn [negb].
  now rewrite (bind_lift_some _ _ _ _ Hi), (bind_lift_some _ _ _ _ Hl).
Qed.

(** *** Placeholders *)

Lemma length_app_s (a b : string) :
  String.length (a +:+ b) = String.length a + String.length b.
Proof. induction a as [|x a IH]; simpl; [reflexivity|]. now rewrite IH. Qed.

Lemma app_inj_tail_s (a b c : string) : a +:+ c = b +:+ c -> a = b.
Proof.
  revert b. induction a as [|x a IH]; intros [|y b] H; simpl in H.
  - reflexivity.
  - apply (f_equal String.length) in H. simpl in H. rewrite length_app_s in H. lia.
  - apply (f_equal String.length) in H. simpl in H. rewrite length_app_s in H. lia.
  - injection H as -> H. f_equal. now apply IH.
Qed.

Lemma all_chars_app p (a b : string) :
  Py.all_chars p (a +:+ b) = Py.all_chars p a && Py.all_chars p b.
Proof.
  induction a as [|x a IH]; simpl; [reflexivity|].
  now rewrite IH, andb_assoc.
Qed.

Lemma all_chars_no_char p c (s : string) :
  p c = false -> Py.all_chars p s = true -> Py.has_char c s = false.
Proof.
  intros Hc. induction s as [|x s IH]; simpl; [reflexivity|].
  intros H. apply andb_true_iff in H as [Hx Hs].
  destruct (Ascii.eqb_spec x c) as [->|_]; [congruence|now apply IH].
Qed.

Lemma str_of_uint_digits d :
  Py.all_chars Py.isalnum_char (NilEmpty.string_of_uint d) = true.
Proof. induction d; simpl; auto. Qed.

Lemma zeros_digits n : Py.all_chars Py.isalnum_char (Py.zeros n) = true.
Proof. induction n; simpl; auto. Qed.

Lemma format_010d_digits n :
  Py.all_chars Py.isalnum_char (Py.format_010d n) = true.
Proof.
  unfold Py.format_010d, Py.str_of_nat.
  now rewrite all_chars_app, zeros_digits, str_of_uint_digits.
Qed.

(** The relative path of an asset has no character [c] that is neither
    alphanumeric nor in ["image_."], when the directory prefix has none. *)
Lemma asset_path_no_char c k ty :
  Py.isalnum_char c = false ->
  Py.has_char c "image_" = false -> Py.has_char c "." = false ->
  Py.has_char c rel_dir = false ->
  Py.all_chars Py.isalnum_char ty = true ->
  Py.has_char c (relative_image_path rel_dir (new_image_filename k ty)) = false.
Proof.
  intros Hc Hi Hdot Hd Hty. unfold relative_image_path, new_image_filename.
  rewrite !has_char_app, Hd, Hi, Hdot.
  rewrite (all_chars_no_char _ _ _ Hc (format_010d_digits k)).
  now rewrite (all_chars_no_char _ _ _ Hc Hty).
Qed.

Lemma banged_bare id : banged (bare_ref id).
Proof. now eexists. Qed.

Lemma banged_titled id : banged (titled_ref id).
Proof. now eexists. Qed.

Lemma enclosed_bare id :
  Py.has_char "!" id = false -> Py.has_char ")" id = false ->
  enclosed (bare_ref id).
Proof.
  intros H1 H2. exists ("[](" +:+ id). split; [|split].
  - unfold bare_ref. simpl. now rewrite ?app_assoc_s.
  - simpl. exact H1.
  - simpl. exact H2.
Qed.

Lemma enclosed_titled id :
  Py.has_char "!" id = false -> Py.has_char ")" id = false ->
  enclosed (titled_ref id).
Proof.
  intros H1 H2. exists ("[" +:+ id +:+ "](" +:+ id). split; [|split].
  - unfold titled_ref. simpl. now rewrite ?app_assoc_s.
  - simpl. rewrite has_char_app. simpl. now rewrite H1.
  - simpl. rewrite has_char_app. simpl. now rewrite H2.
Qed.

Lemma bare_ref_inj a b : bare_ref a = bare_ref b -> a = b.
Proof. unfold bare_ref. simpl. intros [= H]. now apply app_inj_tail_s in H. Qed.

Lemma titled_ne_bare id rel :
  Py.has_char "]" id = false -> rel <> EmptyString ->
  titled_ref id <> bare_ref rel.
Proof.
  intros Hid Hrel. unfold titled_ref, bare_ref. simpl. intros [= H].
  destruct id as [|c id]; simpl in H.
  - injection H as H. destruct rel as [|r rel]; [contradiction|].
    simpl in H. injection H as _ H. destruct rel; discriminate.
  - injection H as -> _. simpl in Hid. discriminate.
Qed.

Lemma asset_path_nonempty k ty :
  relative_image_path rel_dir (new_image_filename k ty) <> EmptyString.
Proof.
  unfold relative_image_path, new_image_filename. intros H.
  apply (f_equal String.length) in H. rewrite !length_app_s in H.
  simpl in H. lia.
Qed.

Lemma replace_banged m old new :
  banged old -> Py.replace m old new = Py.replace_scan old new 0 m.
Proof. now intros [b ->]. Qed.

Section Links.
Hypothesis rel_dir_bang : Py.has_char "!" rel_dir = false.
Hypothesis rel_dir_paren : Py.has_char ")" rel_dir = false.

Lemma enclosed_link st ty :
  Py.all_chars Py.isalnum_char ty = true -> enclosed (link st ty).
Proof.
  intros Hty. apply enclosed_bare; now apply asset_path_no_char.
Qed.

Lemma refs_ne_link id st ty :
  plain_id id -> not_asset_path id ->
  bare_ref id <> link st ty /\ titled_ref id <> link st ty.
Proof.
  intros (H1 & H2 & H3) Hn. split.
  - intros H. apply bare_ref_inj in H. now apply Hn in H.
  - apply titled_ne_bare; [assumption|apply asset_path_nonempty].
Qed.

Lemma rewrite_refs_keeps id t other st ty :
  plain_id id -> not_asset_path id ->
  Py.all_chars Py.isalnum_char ty = true ->
  free_of id t -> free_of id (rewrite_refs t other (link st ty)).
Proof.
  intros Hp Hn Hty [Hb Ht].
  destruct (refs_ne_link id st ty Hp Hn) as [Nb Nt].
  destruct Hp as (H1 & H2 & H3).
  pose proof (enclosed_link st ty Hty) as El.
  unfold rewrite_refs.
  rewrite !replace_banged by (apply banged_bare || apply banged_titled).
  split.
  - apply not_true_is_false. intros E.
    do 2 (apply replace_scan_no_new in E;
          [|apply banged_bare || apply banged_titled|assumption
           |now apply enclosed_bare|assumption]).
    congruence.
  - apply not_true_is_false. intros E.
    do 2 (apply replace_scan_no_new in E;
          [|apply banged_bare || apply banged_titled|assumption
           |now apply enclosed_titled|assumption]).
    congruence.
Qed.

Lemma rewrite_refs_removes id t st ty :
  plain_id id -> not_asset_path id ->
  Py.all_chars Py.isalnum_char ty = true ->
  free_of id (rewrite_refs t id (link st ty)).
Proof.
  intros Hp Hn Hty.
  destruct (refs_ne_link id st ty Hp Hn) as [Nb Nt].
  destruct Hp as (H1 & H2 & H3).
  pose proof (enclosed_link st ty Hty) as El.
  pose proof (enclosed_bare id H1 H2) as Eb.
  pose proof (enclosed_titled id H1 H2) as Et.
  unfold rewrite_refs.
  rewrite !replace_banged by (apply banged_bare || apply banged_titled).
  split.
  - apply not_true_is_false. intros E.
    apply replace_scan_no_new in E;
      [|apply banged_titled|assumption|assumption|assumption].
    now rewrite replace_scan_removes in E.
  - now apply replace_scan_removes.
Qed.

Lemma stitch_image_free json_name t image_info st r st' :
  stitch_image json_name (JStr t) image_info st = (Some r, st') ->
  exists t', r = JStr t' /\
    forall id, plain_id id -> not_asset_path id ->
      free_of id t \/ resolved image_info id -> free_of id t'.
Proof.
  rewrite stitch_image_text.
  destruct (Json.get image_info "id" JNull) as [idv|] eqn:Hid; [|discriminate].
  destruct (Json.get image_info "image_base64" JNull) as [uri|] eqn:Hu;
    [|discriminate].
  destruct (Json.truthy idv && Json.truthy uri) eqn:Ht.
  - destruct (decode_image b64decode uri) as [[ty b]|] eqn:Hd.
    + intros [= <- <-]. eexists; split; [reflexivity|].
      intros id Hp Hn [Hf|Hr].
      * apply rewrite_refs_keeps; try assumption.
        eapply decode_image_alnum, Hd.
      * destruct Hr as (idv' & uri' & d & Hid' & Hu' & _ & _ & ->).
        assert (idv' = idv) as -> by congruence.
        apply rewrite_refs_removes; try assumption.
        eapply decode_image_alnum, Hd.
    + intros [= <- <-]. eexists; split; [reflexivity|].
      intros id Hp Hn [Hf|Hr]; [assumption|].
      destruct Hr as (idv' & uri' & d & Hid' & Hu' & _ & Hd' & _).
      congruence.
  - intros [= <- <-]. eexists; split; [reflexivity|].
    intros id Hp Hn [Hf|Hr]; [assumption|].
    destruct Hr as (idv' & uri' & d & Hid' & Hu' & Ht' & _).
    congruence.
Qed.

Lemma stitch_images_free json_name l t st r st' :
  stitch_images json_name l (JStr t) st = (Some r, st') ->
  exists t', r = JStr t' /\
    forall id, plain_id id -> not_asset_path id ->
      free_of id t \/ (exists a, In a l /\ resolved a id) -> free_of id t'.
Proof.
  revert t st. induction l as [|a l IH]; intros t st.
  - intros [= <- <-]. exists t. split; [reflexivity|].
    intros id _ _ [H|(a & [] & _)]. exact H.
  - simpl. unfold bind.
    destruct (stitch_image json_name (JStr t) a st) as [[v|] st1] eqn:Ha;
      [|discriminate].
    destruct (stitch_image_free _ _ _ _ _ _ Ha) as (t1 & -> & H1).
    intros Hl. destruct (IH _ _ Hl) as (t' & -> & H2).
    exists t'. split; [reflexivity|].
    intros id Hp Hn [Hf|(a' & [<-|Hin] & Hr)]; apply H2; auto.
    right. now exists a'.
Qed.
End Links.

(** *** Properties every statement of the stitcher preserves *)

Lemma keeps_str_replace P v old new : keeps P (str_replace v old new).
Proof. destruct v; now intros st. Qed.

Lemma keeps_process_image P id uri md :
  stable P -> keeps P (process_image b64decode str rel_dir id uri md).
Proof.
  intros (Hp & Hw & Hi). unfold process_image.
  apply keeps_bind; [apply keeps_lift|]. intros d.
  apply keeps_bind; [now intros st|]. intros c.
  apply keeps_bind; [apply Hw|]. intros _.
  apply keeps_bind; [apply keeps_str_replace|]. intros m1.
  apply keeps_bind; [apply keeps_str_replace|]. intros m2.
  apply keeps_bind; [apply Hi|]. intros _. apply keeps_ret.
Qed.

Lemma keeps_stitch_image P json_name md image_info :
  stable P -> keeps P (stitch_image json_name md image_info).
Proof.
  intros HP. unfold Stitch.stitch_image.
  apply keeps_bind; [apply keeps_lift|]. intros id.
  apply keeps_bind; [apply keeps_lift|]. intros uri.
  destruct (_ || _); [apply keeps_ret|].
  apply keeps_try; [now apply keeps_process_image|].
  apply keeps_bind; [apply HP|]. intros _. apply keeps_ret.
Qed.

Lemma keeps_stitch_images P json_name l md :
  stable P -> keeps P (stitch_images json_name l md).
Proof.
  intros HP. revert md. induction l as [|a l IH]; intros md; [apply keeps_ret|].
  simpl. apply keeps_bind; [now apply keeps_stitch_image|]. intros m. apply IH.
Qed.

Lemma stable_same_md v : stable (fun st => stitched_md_file st = v).
Proof. repeat split; now intros. Qed.

Lemma stable_posted e : stable (fun st => In e (posted st)).
Proof.
  split; [|split]; try (now intros).
  intros e' st H. simpl. apply in_or_app. now left.
Qed.

Lemma keeps_posted_write_markdown e md :
  keeps (fun st => In e (posted st)) (write_markdown md).
Proof. destruct md; now intros st. Qed.

Lemma keeps_posted_stitch_page e json_name page_data :
  keeps (fun st => In e (posted st)) (stitch_page json_name page_data).
Proof.
  unfold Stitch.stitch_page.
  apply keeps_bind; [apply keeps_lift|]. intros v.
  destruct (negb _); [apply keeps_ret|].
  apply keeps_bind; [apply keeps_lift|]. intros images.
  apply keeps_bind; [apply keeps_lift|]. intros l.
  apply keeps_bind; [apply keeps_stitch_images, stable_posted|].
  intros m. apply keeps_posted_write_markdown.
Qed.

Lemma keeps_posted_stitch_pages e json_name l :
  keeps (fun st => In e (posted st)) (stitch_pages json_name l).
Proof.
  induction l as [|p l IH]; [apply keeps_ret|]. simpl.
  apply keeps_bind; [apply keeps_posted_stitch_page|]. intros _. apply IH.
Qed.

Lemma keeps_posted_stitch_record e f :
  keeps (fun st => In e (posted st)) (stitch_record b64decode str rel_dir f).
Proof.
  unfold stitch_record.
  apply keeps_bind; [apply keeps_lift|]. intros obj.
  destruct (negb _); [apply stable_posted|].
  apply keeps_bind; [apply keeps_lift|]. intros pages.
  apply keeps_bind; [apply keeps_lift|]. intros l.
  apply keeps_posted_stitch_pages.
Qed.

(** *** Runs that differ only in what they post *)

Lemma sim_bind {A B} (c c' : M A) (k k' : A -> M B) :
  sim c c' -> (forall a, sim (k a) (k' a)) -> sim (bind c k) (bind c' k').
Proof.
  intros Hc Hk st st' H. unfold bind. destruct (Hc st st' H) as [E1 E2].
  destruct (c st) as [[a|] s1], (c' st') as [[a'|] s1']; simpl in *;
    try discriminate; [|now split].
  injection E1 as <-. now apply Hk.
Qed.

Lemma sim_try {A} (c c' h h' : M A) :
  sim c c' -> sim h h' -> sim (try_except c h) (try_except c' h').
Proof.
  intros Hc Hh st st' H. unfold try_except. destruct (Hc st st' H) as [E1 E2].
  destruct (c st) as [[a|] s1], (c' st') as [[a'|] s1']; simpl in *;
    try discriminate; [now split|now apply Hh].
Qed.

Lemma sim_ret {A} (a : A) : sim (ret a) (ret a).
Proof. now intros st st' H. Qed.

Lemma sim_lift {A} (o : option A) : sim (lift o) (lift o).
Proof. destruct o; now intros st st' H. Qed.

Lemma sim_post e e' : sim (post e) (post e').
Proof. now intros st st' H. Qed.

Lemma sim_write_image n b : sim (write_image n b) (write_image n b).
Proof. intros st st' (H1 & H2 & H3). repeat split; simpl; congruence. Qed.

Lemma sim_incr_counter : sim incr_counter incr_counter.
Proof. intros st st' (H1 & H2 & H3). repeat split; simpl; congruence. Qed.

Lemma sim_read_counter : sim read_counter read_counter.
Proof. intros st st' (H1 & H2 & H3). repeat split; simpl; congruence. Qed.

Lemma sim_write_markdown md : sim (write_markdown md) (write_markdown md).
Proof.
  destruct md; try (now intros st st' H).
  intros st st' (H1 & H2 & H3). repeat split; simpl; congruence.
Qed.

Lemma sim_str_replace v old new : sim (str_replace v old new) (str_replace v old new).
Proof. destruct v; now intros st st' H. Qed.

Lemma sim_process_image id uri md :
  sim (process_image b64decode str rel_dir id uri md)
      (process_image b64decode str rel_dir id uri md).
Proof.
  unfold process_image.
  apply sim_bind; [apply sim_lift|]. intros d.
  apply sim_bind; [apply sim_read_counter|]. intros c.
  apply sim_bind; [apply sim_write_image|]. intros _.
  apply sim_bind; [apply sim_str_replace|]. intros m1.
  apply sim_bind; [apply sim_str_replace|]. intros m2.
  apply sim_bind; [apply sim_incr_counter|]. intros _. apply sim_ret.
Qed.

Lemma sim_stitch_image json_name md image_info :
  sim (stitch_image json_name md image_info) (stitch_image json_name md image_info).
Proof.
  unfold Stitch.stitch_image.
  apply sim_bind; [apply sim_lift|]. intros id.
  apply sim_bind; [apply sim_lift|]. intros uri.
  destruct (_ || _); [apply sim_ret|].
  apply sim_try; [apply sim_process_image|].
  apply sim_bind; [apply sim_post|]. intros _. apply sim_ret.
Qed.

Lemma sim_stitch_images json_name l md :
  sim (stitch_images json_name l md) (stitch_images json_name l md).
Proof.
  revert md. induction l as [|a l IH]; intros md; [apply sim_ret|].
  simpl. apply sim_bind; [apply sim_stitch_image|]. intros m. apply IH.
Qed.

Lemma sim_stitch_page json_name page_data :
  sim (stitch_page json_name page_data) (stitch_page json_name page_data).
Proof.
  unfold Stitch.stitch_page.
  apply sim_bind; [apply sim_lift|]. intros v.
  destruct (negb _); [apply sim_ret|].
  apply sim_bind; [apply sim_lift|]. intros images.
  apply sim_bind; [apply sim_lift|]. intros l.
  apply sim_bind; [apply sim_stitch_images|]. intros m. apply sim_write_markdown.
Qed.

Lemma sim_stitch_pages json_name l :
  sim (stitch_pages json_name l) (stitch_pages json_name l).
Proof.
  induction l as [|p l IH]; [apply sim_ret|]. simpl.
  apply sim_bind; [apply sim_stitch_page|]. intros _. apply IH.
Qed.

Lemma sim_stitch_record f :
  sim (stitch_record b64decode str rel_dir f) (stitch_record b64decode str rel_dir f).
Proof.
  unfold stitch_record.
  apply sim_bind; [apply sim_lift|]. intros obj.
  destruct (negb _); [apply sim_post|].
  apply sim_bind; [apply sim_lift|]. intros pages.
  apply sim_bind; [apply sim_lift|]. intros l.
  apply sim_stitch_pages.
Qed.

(** *** Statements about pages *)


(** C1 (as amended). When a page is emitted, neither form of the
    placeholder of an image that was decoded and written occurs in the
    emitted text, provided the id has none of the characters [!], [)] and
    []] and is not itself the relative path of an asset, and the relative
    directory has neither [!] nor [)]. *)
Theorem resolved_placeholders_replaced json_name page_data m l st st' :
  Py.has_char "!" rel_dir = false -> Py.has_char ")" rel_dir = false ->
  text_page page_data m l ->
  stitch_page json_name page_data st = (Some tt, st') ->
  exists t,
    stitched_md_file st' = stitched_md_file st +:+ t +:+ newlines /\
    forall image_info id,
      In image_info l -> resolved image_info id ->
      plain_id id -> not_asset_path id ->
      Py.contains (bare_ref id) t = false /\
      Py.contains (titled_ref id) t = false.
Proof.
  intros Hb Hp Ht. rewrite (stitch_page_text _ _ _ _ _ Ht). unfold bind.
  pose proof (keeps_stitch_images _ json_name l (JStr m)
                (stable_same_md (stitched_md_file st)) st eq_refl) as Hmd.
  destruct (stitch_images json_name l (JStr m) st) as [[r|] st1] eqn:E;
    [|discriminate].
  destruct (stitch_images_free Hb Hp _ _ _ _ _ _ E) as (t & -> & Hfree).
  simpl in Hmd. simpl. intros [= <-]. exists t. simpl. rewrite Hmd.
  split; [reflexivity|].
  intros a id Hin Hr Hpl Hn. apply Hfree; try assumption. right. now exists a.
Qed.

(** *** Statements about the payload *)

(** C5. For a payload with a [data:image/<subtype>;<parameters>,] prefix
    the text after the first comma is decoded and the extension is the
    subtype when it is alphanumeric and [jpeg] otherwise; for any other
    prefix ending at the first comma the text after it is decoded with the
    extension [jpeg]; a payload without a comma is decoded whole, with the
    extension [jpeg]. *)
Theorem data_uri_payload_decoded (sub params data header raw : string) :
  Py.has_char "/" sub = false -> Py.has_char ";" sub = false ->
  Py.has_char "," sub = false -> Py.has_char "," params = false ->
  Py.has_char "," header = false ->
  Py.startswith header "data:image/" = false ->
  Py.has_char "," raw = false ->
  decode_image b64decode
    (JStr ("data:image/" +:+ sub +:+ ";" +:+ params +:+ "," +:+ data)) =
    option_map (pair (if Py.isalnum sub then sub else "jpeg")) (b64decode data) /\
  decode_image b64decode (JStr (header +:+ "," +:+ data)) =
    option_map (pair "jpeg") (b64decode data) /\
  decode_image b64decode (JStr raw) = option_map (pair "jpeg") (b64decode raw).
Proof.
  intros Hs1 Hs2 Hs3 Hp Hh Hnh Hr.
  assert (forall h d, Py.has_char "," h = false ->
            split_data_uri (h +:+ "," +:+ d) =
            (if Py.startswith h "data:image/" then
               let ty := Py.split_last "/" (Py.split_first ";" h) in
               if Py.isalnum ty then ty else "jpeg"
             else "jpeg", d)) as Hsplit.
  { intros h d Hc. unfold split_data_uri.
    rewrite has_char_app. simpl Py.has_char at 2. rewrite orb_true_r.
    change ("," +:+ d) with (String "," d).
    now rewrite split_first_app, after_first_app. }
  assert (forall ty d : string, (let (image_type, actual) := (ty, d) in
            match b64decode actual with
            | Some b => Some (image_type, b) | None => None end) =
            option_map (pair ty) (b64decode d)) as Hmap.
  { intros ty d. now destruct (b64decode d). }
  repeat split.
  - unfold decode_image.
    replace ("data:image/" +:+ sub +:+ ";" +:+ params +:+ "," +:+ data)
      with (("data:image/" +:+ sub +:+ ";" +:+ params) +:+ "," +:+ data)
      by now rewrite !app_assoc_s.
    rewrite Hsplit.
    2:{ rewrite !has_char_app, Hs3, Hp. reflexivity. }
    rewrite Hmap. f_equal.
    replace (Py.startswith _ _) with true by (symmetry; apply prefix_app).
    cbv zeta.
    replace ("data:image/" +:+ sub +:+ ";" +:+ params)
      with (("data:image/" +:+ sub) +:+ String ";" params)
      by now rewrite !app_assoc_s.
    rewrite split_first_app.
    2:{ rewrite has_char_app, Hs2. reflexivity. }
    change ("data:image/" +:+ sub) with ("data:image" +:+ String "/" sub).
    now rewrite split_last_app.
  - unfold decode_image. rewrite Hsplit by assumption. rewrite Hnh. apply Hmap.
  - unfold decode_image. unfold split_data_uri. rewrite Hr. apply Hmap.
Qed.

(** *** Statements about records and runs *)
Section Runs.
Context (status_callback : bool) (stitched_md_path : string).

(** *** The counter and the names of the assets *)

Lemma keeps_stitch_file total i f :
  pages_are_text f = true ->
  keeps numbered (stitch_file b64decode str rel_dir status_callback total i f).
Proof.
  intros H. unfold stitch_file. apply keeps_bind.
  - destruct status_callback; [apply keeps_post|apply keeps_ret].
  - intros _. apply keeps_try; [now apply keeps_stitch_record|apply keeps_post].
Qed.

Lemma keeps_stitch_files total i fs :
  forallb pages_are_text fs = true ->
  keeps numbered (stitch_files b64decode str rel_dir status_callback total i fs).
Proof.
  revert i. induction fs as [|f fs IH]; simpl; intros i H; [apply keeps_ret|].
  apply andb_true_iff in H as [H1 H2].
  apply keeps_bind; [now apply keeps_stitch_file|]. intros _. now apply IH.
Qed.

Lemma uint_of_zeros k s :
  NilEmpty.uint_of_string (Py.zeros k +:+ s) =
  Nat.iter k (option_map Decimal.D0) (NilEmpty.uint_of_string s).
Proof. induction k as [|k IH]; simpl; [reflexivity|]. now rewrite IH. Qed.

Lemma of_uint_D0 d : Nat.of_uint (Decimal.D0 d) = Nat.of_uint d.
Proof.
  rewrite <- (DecimalNat.Unsigned.of_uint_norm (Decimal.D0 d)).
  rewrite DecimalFacts.unorm_D0. apply DecimalNat.Unsigned.of_uint_norm.
Qed.

Lemma format_010d_value n :
  option_map Nat.of_uint (NilEmpty.uint_of_string (Py.format_010d n)) = Some n.
Proof.
  unfold Py.format_010d, Py.str_of_nat. rewrite uint_of_zeros, NilEmpty.usu.
  induction (10 - _) as [|k IH]; simpl.
  - now rewrite DecimalNat.Unsigned.of_to.
  - destruct (Nat.iter k _ _) as [d|]; [|discriminate]. simpl in *.
    now rewrite of_uint_D0.
Qed.

Lemma format_010d_inj n m : Py.format_010d n = Py.format_010d m -> n = m.
Proof.
  intros H. pose proof (format_010d_value n) as Hn.
  rewrite H, format_010d_value in Hn. now injection Hn.
Qed.

Lemma new_image_filename_inj k ty k' ty' :
  new_image_filename k ty = new_image_filename k' ty' -> k = k'.
Proof.
  unfold new_image_filename. intros H. simpl in H. injection H as H.
  apply (f_equal (Py.split_first ".")) in H.
  change ("." +:+ ty) with (String "." ty) in H.
  change ("." +:+ ty') with (String "." ty') in H.
  rewrite !split_first_app in H
    by (apply (all_chars_no_char Py.isalnum_char);
        [reflexivity|apply format_010d_digits]).
  now apply format_010d_inj.
Qed.

Lemma numbered_names_distinct st : numbered st -> NoDup (fst <$> written st).
Proof.
  intros [_ Hw]. apply NoDup_alt. intros i j name Hi Hj.
  rewrite list_lookup_fmap in Hi, Hj.
  destruct (written st !! i) as [wi|] eqn:Ei; [|discriminate].
  destruct (written st !! j) as [wj|] eqn:Ej; [|discriminate].
  destruct (Hw _ _ Ei) as (ti & Hti & _). destruct (Hw _ _ Ej) as (tj & Htj & _).
  simpl in Hi, Hj. apply (new_image_filename_inj i ti j tj).
  rewrite <- Hti, <- Htj. congruence.
Qed.


Local Abbreviation stitch_file :=
  (Stitch.stitch_file b64decode str rel_dir status_callback).
Local Abbreviation stitch_files :=
  (Stitch.stitch_files b64decode str rel_dir status_callback).
Local Abbreviation stitch_run :=
  (Stitch.stitch_run b64decode str rel_dir stitched_md_path status_callback).
Local Abbreviation _stitch_ocr_data :=
  (Stitch._stitch_ocr_data b64decode str rel_dir stitched_md_path status_callback).

Lemma sim_bind_ret_l {A B} (c : M A) (a : A) (k : A -> M B) (c' : M B) :
  sim c (ret a) -> sim (k a) c' -> sim (bind c k) c'.
Proof.
  intros Hc Hk st st' H. unfold bind. destruct (Hc st st' H) as [E1 E2].
  destruct (c st) as [[x|] s1]; simpl in *; [|discriminate].
  injection E1 as ->. now apply Hk.
Qed.

Lemma sim_stitch_file total i total' i' f :
  sim (stitch_file total i f) (stitch_file total' i' f).
Proof.
  unfold Stitch.stitch_file. apply sim_bind.
  - destruct status_callback; [apply sim_post|apply sim_ret].
  - intros _. apply sim_try; [apply sim_stitch_record|apply sim_post].
Qed.

Lemma sim_stitch_files total i total' i' fs :
  sim (stitch_files total i fs) (stitch_files total' i' fs).
Proof.
  revert i i'. induction fs as [|f fs IH]; intros i i'; [apply sim_ret|].
  simpl. apply sim_bind; [apply sim_stitch_file|]. intros _. apply IH.
Qed.

Lemma stitch_file_non_dict total i name v st :
  Json.is_dict v = false ->
  (stitch_file total i (name, Some v) st).1 = Some tt /\
  agree (stitch_file total i (name, Some v) st).2 st /\
  In (LogWarning ("Skipping non-dict JSON: " +:+ name))
     (posted (stitch_file total i (name, Some v) st).2).
Proof.
  intros Hv. unfold Stitch.stitch_file, stitch_record, bind, try_except, lift.
  simpl. rewrite Hv. simpl.
  destruct status_callback; simpl; repeat split;
    apply in_or_app; right; now left.
Qed.

Lemma sim_skip_non_dict total i total' i' before after name v :
  Json.is_dict v = false ->
  sim (stitch_files total i (before ++ (name, Some v) :: after))
      (stitch_files total' i' (before ++ after)).
Proof.
  intros Hv. revert i i'. induction before as [|f fs IH]; intros i i'; simpl.
  - apply sim_bind_ret_l with (a := tt); [|apply sim_stitch_files].
    intros st st' H.
    destruct (stitch_file_non_dict total i name v st Hv) as (E1 & (A1 & A2 & A3) & _).
    split; [exact E1|]. destruct H as (H1 & H2 & H3).
    repeat split; simpl; congruence.
  - apply sim_bind; [apply sim_stitch_file|]. intros _. apply IH.
Qed.

Lemma keeps_posted_stitch_file e total i f :
  keeps (fun st => In e (posted st)) (stitch_file total i f).
Proof.
  unfold Stitch.stitch_file. apply keeps_bind.
  - destruct status_callback; [apply stable_posted|apply keeps_ret].
  - intros _. apply keeps_try; [apply keeps_posted_stitch_record|apply stable_posted].
Qed.

Lemma keeps_posted_stitch_files e total i fs :
  keeps (fun st => In e (posted st)) (stitch_files total i fs).
Proof.
  revert i. induction fs as [|f fs IH]; intros i; [apply keeps_ret|]. simpl.
  apply keeps_bind; [apply keeps_posted_stitch_file|]. intros _. apply IH.
Qed.

Lemma stitch_file_returns total i f st : (stitch_file total i f st).1 = Some tt.
Proof.
  unfold Stitch.stitch_file, bind, try_except.
  destruct status_callback; simpl;
    now destruct (stitch_record b64decode str rel_dir f _) as [[[]|] s1].
Qed.

Lemma posted_skip_non_dict total i before after name v st :
  Json.is_dict v = false ->
  In (LogWarning ("Skipping non-dict JSON: " +:+ name))
     (posted (stitch_files total i (before ++ (name, Some v) :: after) st).2).
Proof.
  intros Hv. revert i st. induction before as [|f fs IH]; intros i st; simpl.
  - unfold bind.
    destruct (stitch_file_non_dict total i name v st Hv) as (E1 & _ & Hin).
    destruct (stitch_file total i (name, Some v) st) as [[[]|] s1];
      simpl in *; [|discriminate].
    now apply keeps_posted_stitch_files.
  - unfold bind. pose proof (stitch_file_returns total i f st) as E.
    destruct (stitch_file total i f st) as [[[]|] s1]; simpl in *; [|discriminate].
    apply IH.
Qed.

Lemma keeps_final_status P :
  (forall e, keeps P (post e)) ->
  keeps P (if status_callback
           then post (Status 0 ("Stitched markdown: " +:+ stitched_md_path))
           else ret tt).
Proof. intros H. destruct status_callback; [apply H|apply keeps_ret]. Qed.

(** C8. A record that parses to something other than an object is
    reported with a warning and adds nothing: the merged text and the asset
    files of the run are those of the run without that record. *)
Theorem non_dict_record_skipped before after name v :
  Json.is_dict v = false ->
  let st1 := stitch_run (before ++ (name, Some v) :: after) in
  let st2 := stitch_run (before ++ after) in
  stitched_md_file st1 = stitched_md_file st2 /\
  written st1 = written st2 /\
  In (LogWarning ("Skipping non-dict JSON: " +:+ name)) (posted st1).
Proof.
  intros Hv st1 st2. unfold st1, st2, Stitch.stitch_run.
  match goal with
  | |- stitched_md_file (?c1 ?s).2 = stitched_md_file (?c2 ?s).2 /\ _ =>
      assert (sim c1 c2) as Hsim
  end.
  { apply sim_bind; [now apply sim_skip_non_dict|]. intros _.
    destruct status_callback; [apply sim_post|apply sim_ret]. }
  destruct (Hsim (Run 0 EmptyString [] []) (Run 0 EmptyString [] []))
    as [_ (H1 & H2 & H3)]; [now repeat split|].
  split; [exact H2|split; [exact H3|]].
  unfold bind.
  pose proof (posted_skip_non_dict
                (length (before ++ (name, Some v) :: after)) 0 before after
                name v (Run 0 EmptyString [] []) Hv) as Hin.
  destruct (stitch_files _ 0 (before ++ (name, Some v) :: after) _)
    as [[[]|] s1]; simpl in *; [|exact Hin].
  apply keeps_final_status; [apply stable_posted|exact Hin].
Qed.

(** *** The run owns its state *)

Lemma write_all_union (ws : list (string * bytes)) (m d : gmap string bytes) :
  write_all ws (m ∪ d) = write_all ws m ∪ d.
Proof.
  revert m. induction ws as [|w ws IH]; intros m; [reflexivity|].
  unfold write_all in *. simpl. rewrite insert_union_l. apply IH.
Qed.

Lemma write_all_fresh (ws : list (string * bytes)) (d : gmap string bytes) :
  write_all ws d = write_all ws ∅ ∪ d.
Proof. rewrite <- write_all_union. now rewrite (left_id_L ∅ (∪)). Qed.

(** C6. Two runs over the same records into locations with an empty image
    directory end in the same state with the same posts; more generally the
    merged document and the posts never depend on what was there before,
    the image directory is what a run from an empty one leaves, over what
    was there, and a second run over the result changes nothing. *)
Theorem stitch_deterministic (json_files : list json_file) (d1 d2 : disk) :
  let fresh := _stitch_ocr_data json_files (Disk None ∅) in
  (images_dir d1 = ∅ -> images_dir d2 = ∅ ->
   _stitch_ocr_data json_files d1 = _stitch_ocr_data json_files d2) /\
  stitched_md (_stitch_ocr_data json_files d1).1 = stitched_md fresh.1 /\
  (_stitch_ocr_data json_files d1).2 = fresh.2 /\
  images_dir (_stitch_ocr_data json_files d1).1 =
    images_dir fresh.1 ∪ images_dir d1 /\
  _stitch_ocr_data json_files (_stitch_ocr_data json_files d1).1 =
    _stitch_ocr_data json_files d1.
Proof.
  unfold Stitch._stitch_ocr_data. cbv zeta. simpl.
  repeat split.
  - intros -> ->. reflexivity.
  - apply write_all_fresh.
  - f_equal. f_equal.
    rewrite (write_all_fresh _ (write_all _ (images_dir d1))).
    rewrite (write_all_fresh _ (images_dir d1)).
    now rewrite (assoc_L (∪)), (idemp_L (∪)).
Qed.

End Runs.
End Stitcher.

End StitchFacts.

(** ** The orchestrator *)
Module OcrFacts.
Import Ocr.

Section Orchestrator.
Context (PILImage mistral_client : bool).
Local Abbreviation process_item := (Ocr.process_item PILImage mistral_client).
Local Abbreviation process_items := (Ocr.process_items PILImage mistral_client).
Local Abbreviation run := (Ocr._perform_ocr_workflow_for_list PILImage mistral_client).
Local Abbreviation convert_posts := (Ocr.convert_posts PILImage).
Local Abbreviation converted := (Ocr.converted PILImage).
Local Abbreviation request_posts := (Ocr.request_posts mistral_client).
Local Abbreviation received := (Ocr.received mistral_client).
Local Abbreviation outcome := (Ocr.outcome PILImage mistral_client).
Local Abbreviation persist_posts := (Ocr.persist_posts PILImage mistral_client).
Local Abbreviation item_posts := (Ocr.item_posts PILImage mistral_client).
Local Abbreviation batch_posts := (Ocr.batch_posts PILImage mistral_client).
Local Abbreviation put_outcome := (Ocr.put_outcome PILImage mistral_client).
Local Abbreviation put_outcomes := (Ocr.put_outcomes PILImage mistral_client).
Local Abbreviation succeeds := (Ocr.succeeds PILImage mistral_client).
Local Abbreviation item_values := (Ocr.item_values PILImage).

Lemma process_item_spec total_files i it st :
  process_item total_files i it st =
  (tt, Job (put_outcome it (store st)) (posted st ++ item_posts total_files i it)).
Proof.
  unfold Ocr.process_item, item_posts, put_outcome, outcome, persist_posts,
    outcome, received, request_posts, encode_posts, convert_posts, converted,
    encoded, save_failed, _image_to_pdf, _encode_pdf_to_base64,
    _request_mistral_ocr, save_json, to_dict, bind, post, put, ret.
  destruct st as [m p]. simpl.
  destruct PILImage, (pdf_saved it); simpl; rewrite <- ?app_assoc; try reflexivity.
  destruct (base64_pdf it) as [s|]; simpl; rewrite <- ?app_assoc; try reflexivity.
  destruct (negb (String.eqb s "")); simpl; rewrite <- ?app_assoc; try reflexivity.
  destruct mistral_client; simpl; rewrite <- ?app_assoc; try reflexivity.
  destruct (ocr it) as [[t [d|[j|]]]|]; simpl; try destruct t;
    try destruct (json_opens it); simpl; rewrite <- ?app_assoc; reflexivity.
Qed.

Lemma process_items_spec total_files i its st :
  process_items total_files i its st =
  (tt, Job (put_outcomes its (store st))
           (posted st ++ batch_posts total_files i its)).
Proof.
  revert i st. induction its as [|it rest IH]; intros i st; simpl.
  - destruct st. unfold ret. simpl. now rewrite app_nil_r.
  - unfold bind at 1. rewrite process_item_spec, IH. simpl.
    now rewrite <- app_assoc.
Qed.

Lemma run_spec its json_dir :
  run its json_dir =
  Job (put_outcomes its json_dir)
      (Progress 0 :: batch_posts (length its) 0 its ++
       [Status 0 "OCR processing complete for selected files."; Progress 100]).
Proof.
  unfold Ocr._perform_ocr_workflow_for_list, bind at 1.
  simpl. unfold bind at 1. rewrite process_items_spec. simpl.
  now rewrite <- app_assoc.
Qed.

(** *** The stored records *)

Lemma records_insert_saved m k j :
  m !! k = None -> records (<[k := Saved j]> m) = S (records m).
Proof.
  intros H. unfold records. rewrite map_filter_insert_True by reflexivity.
  apply map_size_insert_None. now apply map_lookup_filter_None_2; left.
Qed.

Lemma records_insert_truncated m k :
  m !! k = None -> records (<[k := Truncated]> m) = records m.
Proof.
  intros H. unfold records.
  rewrite map_filter_insert_False by (simpl; discriminate).
  now rewrite delete_id.
Qed.

Lemma put_outcome_lookup_ne it m k :
  k <> json_name it -> put_outcome it m !! k = m !! k.
Proof.
  intros H. unfold put_outcome. destruct (outcome it); [|reflexivity].
  now rewrite lookup_insert_ne.
Qed.

Lemma put_outcomes_lookup_notin its m k :
  k ∉ json_name <$> its -> put_outcomes its m !! k = m !! k.
Proof.
  revert m. induction its as [|it rest IH]; intros m H; [reflexivity|].
  simpl in *. apply not_elem_of_cons in H as [H1 H2].
  unfold put_outcomes in *. simpl. rewrite IH by assumption.
  now apply put_outcome_lookup_ne.
Qed.

Lemma records_put_outcome it m :
  m !! json_name it = None ->
  records (put_outcome it m) = records m + (if succeeds it then 1 else 0).
Proof.
  intros H. unfold put_outcome, succeeds.
  destruct (outcome it) as [[j|]|].
  - rewrite records_insert_saved by assumption. lia.
  - rewrite records_insert_truncated by assumption. lia.
  - lia.
Qed.

Lemma records_put_outcomes its m :
  NoDup (json_name <$> its) ->
  (forall it, it ∈ its -> m !! json_name it = None) ->
  records (put_outcomes its m) = records m + length (filter (fun it => succeeds it = true) its).
Proof.
  revert m. induction its as [|it rest IH]; intros m Hnd Hfresh; simpl.
  - unfold put_outcomes. simpl. lia.
  - rewrite fmap_cons in Hnd. apply NoDup_cons in Hnd as [Hnotin Hnd].
    unfold put_outcomes in *. simpl. rewrite IH; [|assumption|].
    + rewrite records_put_outcome by (apply Hfresh; left).
      rewrite filter_cons. destruct (decide (succeeds it = true)) as [->|Hs].
      * simpl. lia.
      * destruct (succeeds it); [contradiction|]. lia.
    + intros it' Hin. rewrite put_outcome_lookup_ne.
      * apply Hfresh. now right.
      * intros E. apply Hnotin. rewrite <- E. now apply list_elem_of_fmap_2.
Qed.

Lemma put_outcomes_lookup its m it :
  NoDup (json_name <$> its) -> it ∈ its ->
  put_outcomes its m !! json_name it =
  match outcome it with Some f => Some f | None => m !! json_name it end.
Proof.
  revert m. induction its as [|it' rest IH]; intros m Hnd Hin.
  - now apply elem_of_nil in Hin.
  - rewrite fmap_cons in Hnd. apply NoDup_cons in Hnd as [Hnotin Hnd].
    unfold put_outcomes in *. simpl.
    apply elem_of_cons in Hin as [->|Hin].
    + fold (put_outcomes rest (put_outcome it' m)).
      rewrite put_outcomes_lookup_notin by assumption.
      unfold put_outcome. destruct (outcome it'); [|reflexivity].
      now rewrite lookup_insert_eq.
    + rewrite IH by assumption.
      destruct (outcome it); [reflexivity|].
      apply put_outcome_lookup_ne.
      intros E. apply Hnotin. rewrite <- E. now apply list_elem_of_fmap_2.
Qed.

(** *** Failures *)


Lemma item_failure_reported total_files i it :
  succeeds it = false -> failure_reported it (item_posts total_files i it).
Proof.
  unfold succeeds, item_posts, persist_posts, outcome, failure_reported,
    failure_reasons, save_failed.
  destruct (converted it); cbn [andb].
  2:{ intros _. exists "Failed PDF conversion: ". split; find_in. }
  destruct (encoded it); cbn [andb].
  2:{ intros _. exists "Failed PDF encoding: ". split; find_in. }
  destruct (received it) as [r|]; cbv iota.
  2:{ intros _. exists "Failed OCR request: ". split; find_in. }
  intros H. exists "Failed save JSON: ". split; [find_in|].
  destruct (json_opens it); [|find_in].
  destruct (as_dict r) as [d|[j|]]; try discriminate. find_in.
Qed.

Lemma batch_failure_reported total_files i its it :
  it ∈ its -> succeeds it = false ->
  failure_reported it (batch_posts total_files i its).
Proof.
  revert i. induction its as [|it' rest IH]; intros i Hin Hs.
  - now apply elem_of_nil in Hin.
  - cbn [batch_posts]. apply elem_of_cons in Hin as [->|Hin].
    + destruct (item_failure_reported total_files i it' Hs) as (r & Hr & H).
      exists r. split; [assumption|]. apply in_or_app. now left.
    + destruct (IH (S i) Hin Hs) as (r & Hr & H).
      exists r. split; [assumption|]. apply in_or_app. now right.
Qed.

Lemma length_filter_split (its : list item) :
  length (filter (fun it => succeeds it = true) its) =
  length its - length (filter (fun it => succeeds it = false) its).
Proof.
  induction its as [|it rest IH]; [reflexivity|].
  rewrite !filter_cons. pose proof (length_filter (fun it => succeeds it = false) rest).
  destruct (succeeds it) eqn:E; repeat case_decide; try congruence;
    simpl; lia.
Qed.


(** C9. When every step up to the request succeeds, the response is true
    but cannot be converted, and the record file can be opened, the item's
    record is the error marker with the text of the exception as its
    details, and the save is reported as for any other record. *)
Theorem unserializable_response_persisted total_files i it r details st :
  PILImage = true -> mistral_client = true ->
  pdf_saved it = true -> nonempty (base64_pdf it) = true ->
  ocr it = Some r -> is_true r = true -> as_dict r = inl details ->
  json_opens it = true ->
  let st' := (process_item total_files i it st).2 in
  store st' !! json_name it = Some (Saved (error_marker details)) /\
  Json.get (error_marker details) "error" JNull =
    Some (JStr "Failed to serialize OCR response") /\
  Json.get (error_marker details) "details" JNull = Some (JStr details) /\
  In (LogError "Could not convert OCR response to dict: ") (posted st') /\
  In (Status 1 ("OCR data saved: " +:+ json_name it)) (posted st').
Proof.
  intros HP HM Hpdf Hb64 Hocr Ht Hd Ho st'. unfold st'.
  rewrite process_item_spec. cbn [snd store posted].
  assert (received it = Some r) as Hrec.
  { unfold received. now rewrite HM, Hocr, Ht. }
  assert (outcome it = Some (Saved (error_marker details))) as Hout.
  { unfold outcome, converted, encoded. now rewrite HP, Hpdf, Hb64, Hrec, Ho, Hd. }
  split; [|split; [reflexivity|split; [reflexivity|]]].
  - unfold put_outcome. rewrite Hout. apply lookup_insert_eq.
  - assert (In (LogError "Could not convert OCR response to dict: ")
               (persist_posts it) /\
            In (Status 1 ("OCR data saved: " +:+ json_name it)) (persist_posts it))
      as [H1 H2].
    { unfold persist_posts. rewrite Hrec, Hd, Hout. simpl. tauto. }
    assert (converted it = true) as Hc.
    { unfold converted. now rewrite HP, Hpdf. }
    unfold item_posts. fold (encoded it) in Hb64. rewrite Hc, Hb64.
    split; find_in.
Qed.

(** *** Progress *)

Lemma chain_app lo hi l1 l2 :
  chain lo l1 -> Forall (fun v => (v <= hi)%Z) l1 -> (lo <= hi)%Z ->
  chain hi l2 -> chain lo (l1 ++ l2).
Proof.
  revert lo. induction l1 as [|v l1 IH]; intros lo H1 Hf Hle H2; simpl.
  - destruct l2 as [|w l2]; [exact I|]. destruct H2. split; [lia|assumption].
  - destruct H1 as [Hv H1]. apply Forall_cons in Hf as [Hvh Hf].
    split; [assumption|]. now apply IH.
Qed.

Lemma within_app a b c l1 l2 :
  within a b l1 -> within b c l2 -> within a c (l1 ++ l2).
Proof.
  intros (C1 & F1 & L1) (C2 & F2 & L2). split; [|split].
  - now apply (chain_app a b).
  - apply Forall_app. split; [|assumption].
    eapply Forall_impl; [exact F1|]. simpl. intros; lia.
  - lia.
Qed.

Lemma chain_sorted lo l : chain lo l -> Sorted Z.le l /\ HdRel Z.le lo l.
Proof.
  revert lo. induction l as [|v l IH]; intros lo H; [now split; constructor|].
  destruct H as [Hv H]. destruct (IH v H) as [Hs Hh].
  split; constructor; assumption.
Qed.

Lemma progress_values_app l1 l2 :
  progress_values (l1 ++ l2) = progress_values l1 ++ progress_values l2.
Proof. apply omap_app. Qed.

Lemma progress_values_cons e l :
  progress_values (e :: l) =
  match progress_value e with
  | Some v => v :: progress_values l
  | None => progress_values l
  end.
Proof. reflexivity. Qed.

Lemma progress_values_item total_files i it :
  progress_values (item_posts total_files i it) = item_values total_files i it.
Proof.
  assert (progress_values (convert_posts it) = []) as Hc.
  { unfold convert_posts. now destruct (negb PILImage), (pdf_saved it). }
  assert (progress_values (encode_posts it) = []) as He.
  { unfold encode_posts. now destruct (base64_pdf it). }
  assert (progress_values (request_posts it) = []) as Hr.
  { unfold request_posts. now destruct (negb mistral_client), (ocr it). }
  assert (progress_values (persist_posts it) = []) as Hp.
  { unfold persist_posts, save_failed.
    destruct (received it) as [r|]; [|reflexivity].
    rewrite progress_values_app.
    destruct (as_dict r), (outcome it) as [[|]|]; reflexivity. }
  unfold item_posts, item_values.
  destruct (converted it), (encoded it);
    repeat (rewrite progress_values_app || rewrite progress_values_cons);
    cbn [progress_value]; rewrite ?Hc, ?He, ?Hr, ?Hp; reflexivity.
Qed.

Lemma shares_ok_step total_files q3 n next :
  shares_ok total_files q3 n next = true ->
  forall i, i < n ->
    (share_start i total_files + q3 <=
     (if decide (S i = n) then next else share_start (S i) total_files))%Z.
Proof.
  revert next. induction n as [|n IH]; intros next H i Hi; [lia|].
  simpl in H. apply andb_true_iff in H as [H1 H2]. apply Z.leb_le in H1.
  destruct (decide (i = n)) as [->|Hne].
  - now rewrite decide_True by reflexivity.
  - rewrite decide_False by lia. specialize (IH _ H2 i ltac:(lia)).
    destruct (decide (S i = n)) as [<-|]; assumption.
Qed.

Lemma ordered_shares_facts total_files :
  ordered_shares total_files = true ->
  (0 <= quarter 1 total_files <= quarter 2 total_files)%Z /\
  (quarter 2 total_files <= quarter 3 total_files)%Z /\
  (0 <= share_start 0 total_files)%Z /\
  (share_start total_files total_files <= 100)%Z /\
  forall i, i < total_files ->
    (share_start i total_files + quarter 3 total_files <=
     share_start (i + 1) total_files)%Z.
Proof.
  unfold ordered_shares. intros H.
  repeat (apply andb_true_iff in H as [H ?]).
  repeat match goal with H : (_ <=? _)%Z = true |- _ => apply Z.leb_le in H end.
  repeat split; try assumption.
  intros i Hi. pose proof (shares_ok_step _ _ _ _ H0 i Hi) as Hs.
  rewrite Nat.add_1_r. destruct (decide (S i = total_files)) as [<-|]; assumption.
Qed.

Lemma within_item total_files i it :
  ordered_shares total_files = true -> i < total_files ->
  within (share_start i total_files) (share_start (i + 1) total_files)
         (item_values total_files i it).
Proof.
  intros H Hi. destruct (ordered_shares_facts _ H) as (Q1 & Q2 & _ & _ & Hs).
  specialize (Hs i Hi). unfold within, item_values.
  destruct (converted it), (encoded it); simpl;
    repeat split; repeat constructor; lia.
Qed.

Lemma within_batch total_files i its :
  ordered_shares total_files = true -> i + length its <= total_files ->
  within (share_start i total_files) (share_start (i + length its) total_files)
         (progress_values (batch_posts total_files i its)).
Proof.
  intros H. revert i. induction its as [|it rest IH]; intros i Hi.
  - simpl. rewrite Nat.add_0_r. repeat split; [constructor|lia].
  - cbn [batch_posts]. rewrite progress_values_app, progress_values_item.
    simpl length in *.
    eapply within_app; [apply within_item; [assumption|lia]|].
    rewrite Nat.add_1_r. replace (i + S (length rest)) with (S i + length rest) by lia.
    apply IH. lia.
Qed.

Lemma chain_weaken lo lo' l : (lo' <= lo)%Z -> chain lo l -> chain lo' l.
Proof. destruct l as [|v l]; [easy|]. intros H [Hv Hl]. split; [lia|assumption]. Qed.

(** The inequalities hold for every batch of at most 250 items. *)
Lemma ordered_shares_checked : forallb ordered_shares (seq 0 251) = true.
Proof. vm_compute. reflexivity. Qed.

Lemma ordered_shares_small total_files :
  total_files <= 250 -> ordered_shares total_files = true.
Proof.
  intros H. pose proof ordered_shares_checked as Hc.
  rewrite forallb_forall in Hc. apply Hc. apply in_seq. lia.
Qed.


End Orchestrator.

End OcrFacts.

(** ** The properties at concrete inputs *)

(** The payload theorem at a PNG data URI, a PDF data URI and a raw
    payload. *)
Lemma data_uri_payload_decoded_witness :
  (Py.has_char "/" "png" = false /\ Py.has_char ";" "png" = false /\
   Py.has_char "," "png" = false /\ Py.has_char "," "base64" = false /\
   Py.has_char "," "data:application/pdf;base64" = false /\
   Py.startswith "data:application/pdf;base64" "data:image/" = false /\
   Py.has_char "," "aGk=" = false) /\
  (Stitch.decode_image Base64.b64decode
     (JStr ("data:image/" +:+ "png" +:+ ";" +:+ "base64" +:+ "," +:+ "aGk=")) =
     option_map (pair (if Py.isalnum "png" then "png" else "jpeg"))
                (Base64.b64decode "aGk=") /\
   Stitch.decode_image Base64.b64decode
     (JStr ("data:application/pdf;base64" +:+ "," +:+ "aGk=")) =
     option_map (pair "jpeg") (Base64.b64decode "aGk=") /\
   Stitch.decode_image Base64.b64decode (JStr "aGk=") =
     option_map (pair "jpeg") (Base64.b64decode "aGk=")).
Proof.
  split; [repeat split|].
  exact (StitchFacts.data_uri_payload_decoded Base64.b64decode
           "png" "base64" "aGk=" "data:application/pdf;base64" "aGk="
           eq_refl eq_refl eq_refl eq_refl eq_refl eq_refl eq_refl).
Defined.


(** The skip of an image entry at an entry without a payload. *)
Lemma incomplete_image_skipped_witness :
  Stitch.incomplete (JObj [("id", JStr "img2")]) /\
  (Stitch.stitch_image Base64.b64decode Examples.str_scalar "../images/"
     "a.json" (JStr "See ![](img2)") (JObj [("id", JStr "img2")])
     Examples.start =
   (Some (JStr "See ![](img2)"), Examples.start) /\
   Stitch.stitch_images Base64.b64decode Examples.str_scalar "../images/"
     "a.json" ([] ++ JObj [("id", JStr "img2")] :: []) (JStr "See ![](img2)")
     Examples.start =
   Stitch.stitch_images Base64.b64decode Examples.str_scalar "../images/"
     "a.json" ([] ++ []) (JStr "See ![](img2)") Examples.start).
Proof.
  assert (Stitch.incomplete (JObj [("id", JStr "img2")])) as H.
  { exists (JStr "img2"), JNull. repeat split. }
  split; [exact H|].
  exact (StitchFacts.incomplete_image_skipped Base64.b64decode
           Examples.str_scalar "../images/" "a.json" [] []
           (JObj [("id", JStr "img2")]) (JStr "See ![](img2)")
           Examples.start H).
Defined.


(** The placeholder theorem at the first page of the worked example. *)
Lemma resolved_placeholders_replaced_witness :
  (Py.has_char "!" "../images/" = false /\
   Py.has_char ")" "../images/" = false /\
   Stitch.text_page Examples.page_A "See ![](img1)"
     [Examples.image "img1" "data:image/png;base64,aGk="] /\
   Examples.stitch_page Examples.page_A Examples.start =
     (Some tt, snd (Examples.stitch_page Examples.page_A Examples.start))) /\
  exists t,
    Stitch.stitched_md_file
      (snd (Examples.stitch_page Examples.page_A Examples.start)) =
      Stitch.stitched_md_file Examples.start +:+ t +:+ Stitch.newlines /\
    forall image_info id,
      In image_info [Examples.image "img1" "data:image/png;base64,aGk="] ->
      Stitch.resolved Base64.b64decode Examples.str_scalar image_info id ->
      Stitch.plain_id id -> Stitch.not_asset_path "../images/" id ->
      Py.contains (Stitch.bare_ref id) t = false /\
      Py.contains (Stitch.titled_ref id) t = false.
Proof.
  assert (Stitch.text_page Examples.page_A "See ![](img1)"
            [Examples.image "img1" "data:image/png;base64,aGk="]) as Ht.
  { split; [reflexivity|]. split; [discriminate|]. eexists. now split. }
  split; [repeat split; try exact (proj1 (proj2 Ht)); exact (proj2 (proj2 Ht))|].
  exact (StitchFacts.resolved_placeholders_replaced Base64.b64decode
           Examples.str_scalar "../images/" "a.json" Examples.page_A
           "See ![](img1)" [Examples.image "img1" "data:image/png;base64,aGk="]
           Examples.start
           (snd (Examples.stitch_page Examples.page_A Examples.start))
           eq_refl eq_refl Ht eq_refl).
Defined.

(** A placeholder survives when the id is the relative path of the asset:
    the image of [record_C] is decoded and written, and the emitted text
    still contains the bare reference to its id. *)
Lemma asset_path_id_survives :
  let out := fst (Examples.stitch [("c.json", Some Examples.record_C)]
                    Examples.fresh) in
  Stitch.resolved Base64.b64decode Examples.str_scalar
    (Examples.image Examples.asset_path_id "data:image/png;base64,aGk=")
    Examples.asset_path_id /\
  Stitch.images_dir out !! "image_0000000000.png" =
    Some [Byte.x68; Byte.x69] /\
  exists t, Stitch.stitched_md out = Some (t +:+ Stitch.newlines) /\
            Py.contains (Stitch.bare_ref Examples.asset_path_id) t = true.
Proof.
  split; [|split].
  - exists (JStr Examples.asset_path_id), (JStr "data:image/png;base64,aGk="),
      ("png", [Byte.x68; Byte.x69]). repeat split.
  - vm_compute. reflexivity.
  - exists "![](../images/image_0000000000.png)". split; vm_compute; reflexivity.
Qed.

(** The record theorem at a record that is a list, between the two records
    of the worked example. *)
Lemma non_dict_record_skipped_witness :
  Json.is_dict (JArr []) = false /\
  (let st1 := Examples.stitch_run
                ([("a.json", Some Examples.record_A)] ++
                 ("bad.json", Some (JArr [])) ::
                 [("b.json", Some Examples.record_B)]) in
   let st2 := Examples.stitch_run
                ([("a.json", Some Examples.record_A)] ++
                 [("b.json", Some Examples.record_B)]) in
   Stitch.stitched_md_file st1 = Stitch.stitched_md_file st2 /\
   Stitch.written st1 = Stitch.written st2 /\
   In (LogWarning ("Skipping non-dict JSON: " +:+ "bad.json"))
      (Stitch.posted st1)).
Proof.
  split; [reflexivity|].
  exact (StitchFacts.non_dict_record_skipped Base64.b64decode
           Examples.str_scalar "../images/" true
           "markdown/stitched_document.md"
           [("a.json", Some Examples.record_A)]
           [("b.json", Some Examples.record_B)] "bad.json" (JArr []) eq_refl).
Defined.

(** The determinism theorem at the worked example, into a directory with
    no document and one with a document of an earlier run. *)
Lemma stitch_deterministic_witness :
  (Stitch.images_dir Examples.fresh = ∅ /\
   Stitch.images_dir (Stitch.Disk (Some "an earlier run") ∅) = ∅) /\
  Examples.stitch Examples.worked_example Examples.fresh =
  Examples.stitch Examples.worked_example
    (Stitch.Disk (Some "an earlier run") ∅).
Proof.
  split; [now split|].
  exact (proj1 (StitchFacts.stitch_deterministic Base64.b64decode
                  Examples.str_scalar "../images/" true
                  "markdown/stitched_document.md" Examples.worked_example
                  Examples.fresh (Stitch.Disk (Some "an earlier run") ∅))
               eq_refl eq_refl).
Defined.

(** The error-marker theorem at an image whose response cannot be
    converted. *)
Lemma unserializable_response_persisted_witness :
  (true = true /\ true = true /\
   Ocr.pdf_saved Examples.c_png = true /\
   Ocr.nonempty (Ocr.base64_pdf Examples.c_png) = true /\
   Ocr.ocr Examples.c_png = Some (Ocr.Response true (inl "not a model")) /\
   Ocr.is_true (Ocr.Response true (inl "not a model")) = true /\
   Ocr.as_dict (Ocr.Response true (inl "not a model")) = inl "not a model" /\
   Ocr.json_opens Examples.c_png = true) /\
  (let st' := snd (Ocr.process_item true true 1 0 Examples.c_png (Ocr.Job ∅ [])) in
   Ocr.store st' !! Ocr.json_name Examples.c_png =
     Some (Ocr.Saved (Ocr.error_marker "not a model")) /\
   Json.get (Ocr.error_marker "not a model") "error" JNull =
     Some (JStr "Failed to serialize OCR response") /\
   Json.get (Ocr.error_marker "not a model") "details" JNull =
     Some (JStr "not a model") /\
   In (LogError "Could not convert OCR response to dict: ") (Ocr.posted st') /\
   In (Status 1 ("OCR data saved: " +:+ Ocr.json_name Examples.c_png))
      (Ocr.posted st')).
Proof.
  split; [repeat split|].
  exact (OcrFacts.unserializable_response_persisted true true 1 0
           Examples.c_png (Ocr.Response true (inl "not a model"))
           "not a model" (Ocr.Job ∅ [])
           eq_refl eq_refl eq_refl eq_refl eq_refl eq_refl eq_refl eq_refl).
Defined.





(** ** The stitcher: errors, order and names *)
Module StitchCasesFacts.
Import Stitch StitchCases StitchFacts.

Section Stitcher.
Context (b64decode : string -> option bytes) (str : json -> string)
        (rel_dir : string) (status_callback : bool) (stitched_md_path : string).
Local Abbreviation stitch_image := (Stitch.stitch_image b64decode str rel_dir).
Local Abbreviation stitch_images := (Stitch.stitch_images b64decode str rel_dir).
Local Abbreviation stitch_page := (Stitch.stitch_page b64decode str rel_dir).
Local Abbreviation stitch_pages := (Stitch.stitch_pages b64decode str rel_dir).
Local Abbreviation stitch_record := (Stitch.stitch_record b64decode str rel_dir).
Local Abbreviation stitch_file :=
  (Stitch.stitch_file b64decode str rel_dir status_callback).
Local Abbreviation stitch_files :=
  (Stitch.stitch_files b64decode str rel_dir status_callback).
Local Abbreviation stitch_run :=
  (Stitch.stitch_run b64decode str rel_dir stitched_md_path status_callback).
Local Abbreviation undecodable := (StitchCases.undecodable b64decode str).
Local Abbreviation unresolved := (StitchCases.unresolved b64decode str).
Local Abbreviation verbatim_page := (StitchCases.verbatim_page b64decode str).
Local Abbreviation verbatim_record := (StitchCases.verbatim_record b64decode str).

(** *** Replacing a stretch of the files *)

Lemma stitch_files_app total i l1 l2 st :
  stitch_files total i (l1 ++ l2) st =
  bind (stitch_files total i l1)
       (fun _ => stitch_files total (length l1 + i) l2) st.
Proof.
  revert i st. induction l1 as [|f l1 IH]; intros i st; [reflexivity|].
  cbn [app Stitch.stitch_files length]. rewrite bind_assoc.
  apply bind_ext. intros _ st'. rewrite IH. now rewrite Nat.add_succ_r.
Qed.

Lemma sim_splice total i total' i' before mid mid' after :
  (forall j j', sim (stitch_files total j mid) (stitch_files total' j' mid')) ->
  sim (stitch_files total i (before ++ mid ++ after))
      (stitch_files total' i' (before ++ mid' ++ after)).
Proof.
  intros Hmid. revert i i'.
  induction before as [|f fs IH]; intros i i'.
  - intros st st' H. cbn [app]. rewrite !stitch_files_app.
    revert st st' H. apply sim_bind; [apply Hmid|].
    intros _. apply sim_stitch_files.
  - cbn [app Stitch.stitch_files].
    apply sim_bind; [apply sim_stitch_file|]. intros _. apply IH.
Qed.

Lemma posted_in_files e total i before f after st :
  (forall j s, In e (posted (stitch_file total j f s).2)) ->
  In e (posted (stitch_files total i (before ++ f :: after) st).2).
Proof.
  intros Hf. revert i st. induction before as [|g fs IH]; intros i st;
    cbn [app Stitch.stitch_files]; unfold bind.
  - pose proof (stitch_file_returns b64decode str rel_dir status_callback
                  total i f st) as E.
    pose proof (Hf i st) as Hin.
    destruct (stitch_file total i f st) as [[[]|] s1]; simpl in *; [|discriminate].
    now apply keeps_posted_stitch_files.
  - pose proof (stitch_file_returns b64decode str rel_dir status_callback
                  total i g st) as E.
    destruct (stitch_file total i g st) as [[[]|] s1]; simpl in *; [|discriminate].
    apply IH.
Qed.

Lemma posted_in_run e before f after :
  (forall j s, In e (posted (stitch_file (length (before ++ f :: after)) j f s).2)) ->
  In e (posted (stitch_run (before ++ f :: after))).
Proof.
  intros Hf. unfold Stitch.stitch_run, bind.
  pose proof (posted_in_files e _ 0 before f after (Run 0 EmptyString [] []) Hf)
    as Hin.
  destruct (stitch_files _ 0 (before ++ f :: after) _) as [[[]|] s1];
    cbn [fst snd] in *; [|exact Hin].
  apply (keeps_final_status status_callback stitched_md_path
           (fun st => In e (posted st))); [apply stable_posted|exact Hin].
Qed.

Lemma agree_runs fs fs' :
  (forall total i total' i', sim (stitch_files total i fs) (stitch_files total' i' fs')) ->
  agree (stitch_run fs) (stitch_run fs').
Proof.
  intros H. unfold Stitch.stitch_run.
  match goal with
  | |- agree (?c1 ?s).2 (?c2 ?s).2 => assert (sim c1 c2) as Hsim
  end.
  { apply sim_bind; [apply H|]. intros _.
    destruct status_callback; [apply sim_post|apply sim_ret]. }
  apply Hsim. now repeat split.
Qed.

Lemma stitch_file_error total j name v s :
  (forall s', (stitch_record (name, v) s').1 = None) ->
  In (LogError ("Stitching error for " +:+ name +:+ ": "))
     (posted (stitch_file total j (name, v) s).2).
Proof.
  intros H. unfold Stitch.stitch_file, bind, try_except.
  destruct status_callback; cbn [post ret fst snd];
    match goal with
    | |- context [stitch_record _ ?s0] =>
        specialize (H s0); destruct (stitch_record _ s0) as [[[]|] s1]
    end; cbn [fst snd post posted] in *; try discriminate;
    apply in_or_app; right; now left.
Qed.

(** *** A record that cannot be read *)

Lemma stitch_file_unreadable total i name st :
  stitch_file total i (name, None) st =
  (Some tt,
   add_posted (LogError ("Stitching error for " +:+ name +:+ ": "))
     (if status_callback
      then add_posted (Status 0 (stitching_status total i (name, None))) st
      else st)).
Proof.
  unfold Stitch.stitch_file, Stitch.stitch_record, bind, try_except, lift.
  now destruct status_callback.
Qed.

(** X1. A record whose file cannot be opened or does not parse is reported
    as a stitching error and adds nothing: the merged text, the asset files
    and the counter of the run are those of the run without that file. *)
Theorem unreadable_record_skipped before after name :
  let st1 := stitch_run (before ++ (name, None) :: after) in
  let st2 := stitch_run (before ++ after) in
  stitched_md_file st1 = stitched_md_file st2 /\
  written st1 = written st2 /\
  image_file_counter st1 = image_file_counter st2 /\
  In (LogError ("Stitching error for " +:+ name +:+ ": ")) (posted st1).
Proof.
  intros st1 st2.
  assert (agree st1 st2) as (H1 & H2 & H3).
  { apply (agree_runs (before ++ [(name, None)] ++ after) (before ++ [] ++ after)).
    intros total i total' i'. apply sim_splice. intros j j' st st' H.
    cbn [Stitch.stitch_files]. unfold bind at 1.
    rewrite stitch_file_unreadable. split; [reflexivity|].
    destruct H as (A1 & A2 & A3). now destruct status_callback. }
  repeat split; try assumption.
  apply posted_in_run. intros j s. rewrite stitch_file_unreadable.
  apply in_or_app. right. now left.
Qed.

(** *** A page that is not an object *)

Lemma stitch_record_pages name obj pages l st :
  Json.get obj "pages" (JArr []) = Some pages -> Json.iter pages = Some l ->
  stitch_record (name, Some obj) st = stitch_pages name l st.
Proof.
  intros Hp Hl. unfold Stitch.stitch_record. cbn [snd fst].
  destruct obj; try discriminate.
  unfold bind at 1. cbn [lift ret Json.is_dict negb].
  rewrite (bind_lift_some _ _ _ _ Hp).
  now rewrite (bind_lift_some _ _ _ _ Hl).
Qed.

Lemma stitch_pages_malformed name kept bad dropped st :
  Json.is_dict bad = false ->
  stitch_pages name (kept ++ bad :: dropped) st =
  (None, (stitch_pages name kept st).2).
Proof.
  intros Hbad. rewrite stitch_pages_app. unfold bind at 1.
  destruct (stitch_pages name kept st) as [[[]|] s1]; [|reflexivity].
  cbn [Stitch.stitch_pages snd]. unfold bind, Stitch.stitch_page.
  now destruct bad.
Qed.

Lemma sim_malformed_page total i total' i' name obj obj' pages pages' kept bad dropped :
  Json.get obj "pages" (JArr []) = Some pages ->
  Json.iter pages = Some (kept ++ bad :: dropped) ->
  Json.is_dict bad = false ->
  Json.get obj' "pages" (JArr []) = Some pages' ->
  Json.iter pages' = Some kept ->
  sim (stitch_file total i (name, Some obj)) (stitch_file total' i' (name, Some obj')).
Proof.
  intros Hp Hl Hbad Hp' Hl'. unfold Stitch.stitch_file. apply sim_bind.
  - destruct status_callback; [apply sim_post|apply sim_ret].
  - intros _ st st' H. unfold try_except. cbn [fst].
    rewrite (stitch_record_pages _ _ _ _ _ Hp Hl).
    rewrite (stitch_record_pages _ _ _ _ _ Hp' Hl').
    rewrite stitch_pages_malformed by exact Hbad.
    destruct (sim_stitch_pages b64decode str rel_dir name kept st st' H)
      as [_ (A1 & A2 & A3)].
    destruct (Stitch.stitch_pages b64decode str rel_dir name kept st') as [[[]|] s1'];
      cbn [fst snd] in *; (split; [reflexivity|now repeat split]).
Qed.

(** X2. A page that is not an object ends its record: the pages before it
    are stitched, the pages after it are not, the error is reported, and the
    files that follow are stitched as usual. The merged text, the asset
    files and the counter are those of the run in which the record stops
    before that page. *)
Theorem malformed_page_ends_record
    before after name obj obj' pages pages' kept bad dropped :
  Json.get obj "pages" (JArr []) = Some pages ->
  Json.iter pages = Some (kept ++ bad :: dropped) ->
  Json.is_dict bad = false ->
  Json.get obj' "pages" (JArr []) = Some pages' ->
  Json.iter pages' = Some kept ->
  let st1 := stitch_run (before ++ (name, Some obj) :: after) in
  let st2 := stitch_run (before ++ (name, Some obj') :: after) in
  stitched_md_file st1 = stitched_md_file st2 /\
  written st1 = written st2 /\
  image_file_counter st1 = image_file_counter st2 /\
  In (LogError ("Stitching error for " +:+ name +:+ ": ")) (posted st1).
Proof.
  intros Hp Hl Hbad Hp' Hl' st1 st2.
  assert (agree st1 st2) as (H1 & H2 & H3).
  { apply (agree_runs (before ++ [(name, Some obj)] ++ after)
                      (before ++ [(name, Some obj')] ++ after)).
    intros total i total' i'. apply sim_splice. intros j j'.
    cbn [Stitch.stitch_files]. apply sim_bind; [|intros _; apply sim_ret].
    now apply (sim_malformed_page _ _ _ _ _ _ _ pages pages' kept bad dropped). }
  repeat split; try assumption.
  apply posted_in_run. intros j s. apply stitch_file_error. intros s'.
  rewrite (stitch_record_pages _ _ _ _ _ Hp Hl).
  now rewrite stitch_pages_malformed.
Qed.

(** *** Images that yield no asset *)

Lemma stitch_image_undecodable json_name md image_info id st :
  undecodable image_info id ->
  stitch_image json_name md image_info st =
  (Some md,
   add_posted (LogError ("Img proc. error " +:+ id +:+ " in " +:+
                         json_name +:+ ": ")) st).
Proof.
  intros (idv & uri & Hid & Huri & Ht & Hd & ->).
  unfold Stitch.stitch_image.
  rewrite (bind_lift_some _ _ _ _ Hid), (bind_lift_some _ _ _ _ Huri).
  apply andb_prop in Ht as [-> ->]. cbn [negb orb].
  unfold try_except, process_image. unfold bind at 1. now rewrite Hd.
Qed.

(** X3. An image entry whose payload cannot be decoded is reported and
    costs nothing else: no file is written, the counter and the page's
    markdown stay as they are, and the loop over the images goes on as
    without the entry, up to that report. *)
Theorem undecodable_image_reported json_name before after image_info id md st :
  undecodable image_info id ->
  stitch_image json_name md image_info st =
    (Some md,
     add_posted (LogError ("Img proc. error " +:+ id +:+ " in " +:+
                           json_name +:+ ": ")) st) /\
  sim (stitch_images json_name (before ++ image_info :: after) md)
      (stitch_images json_name (before ++ after) md).
Proof.
  intros H. split; [now apply stitch_image_undecodable|].
  intros s s' Hs. rewrite !stitch_images_app. revert s s' Hs.
  apply sim_bind; [apply sim_stitch_images|]. intros m.
  cbn [Stitch.stitch_images].
  apply sim_bind_ret_l with (a := m); [|apply sim_stitch_images].
  intros s s' (A1 & A2 & A3).
  rewrite (stitch_image_undecodable _ _ _ _ _ H). now repeat split.
Qed.

(** *** Documents without assets *)

Lemma stitch_image_unresolved json_name md image_info st :
  unresolved image_info ->
  (stitch_image json_name md image_info st).1 = Some md /\
  agree (stitch_image json_name md image_info st).2 st.
Proof.
  intros [H|[id H]].
  - rewrite (stitch_image_incomplete b64decode str rel_dir _ _ _ _ H).
    now repeat split.
  - rewrite (stitch_image_undecodable _ _ _ _ _ H). now repeat split.
Qed.

Lemma stitch_images_unresolved json_name l md st :
  Forall unresolved l ->
  (stitch_images json_name l md st).1 = Some md /\
  agree (stitch_images json_name l md st).2 st.
Proof.
  intros H. revert st. induction H as [|a l Ha _ IH]; intros st.
  - now repeat split.
  - cbn [Stitch.stitch_images]. unfold bind.
    destruct (stitch_image_unresolved json_name md a st Ha) as [E1 (A1 & A2 & A3)].
    destruct (stitch_image json_name md a st) as [[m|] s1];
      cbn [fst snd] in *; [|discriminate].
    injection E1 as ->. destruct (IH s1) as [E2 (B1 & B2 & B3)].
    split; [exact E2|]. repeat split; congruence.
Qed.

Lemma app_empty_s (s : string) : s +:+ EmptyString = s.
Proof. induction s as [|c s IH]; simpl; [reflexivity|]. now rewrite IH. Qed.

Lemma join_app (a b : list string) : join (a ++ b) = join a +:+ join b.
Proof.
  induction a as [|x a IH]; simpl; [reflexivity|].
  rewrite IH. now rewrite app_assoc_s.
Qed.

(** What a statement leaves when it ends normally, writes no asset and
    adds [t] to the merged document. *)
Local Abbreviation adds c t st :=
  ((c st).1 = Some tt /\
   stitched_md_file (c st).2 = stitched_md_file st +:+ t /\
   written (c st).2 = written st /\
   image_file_counter (c st).2 = image_file_counter st).

Lemma stitch_page_verbatim json_name page_data t st :
  verbatim_page page_data t -> adds (stitch_page json_name page_data) t st.
Proof.
  intros [[H ->]|(m & l & H & Hl & ->)].
  - rewrite (stitch_page_blank b64decode str rel_dir _ _ _ H).
    cbn [fst snd]. now rewrite app_empty_s.
  - rewrite (stitch_page_text b64decode str rel_dir _ _ _ _ _ H). unfold bind.
    destruct (stitch_images_unresolved json_name l (JStr m) st Hl)
      as [E1 (A1 & A2 & A3)].
    destruct (stitch_images json_name l (JStr m) st) as [[r|] s1];
      cbn [fst snd] in *; [|discriminate].
    injection E1 as ->. cbn [write_markdown fst snd stitched_md_file written
                             image_file_counter].
    now rewrite A2, A3, A1.
Qed.

Lemma stitch_pages_verbatim json_name l ts st :
  Forall2 verbatim_page l ts -> adds (stitch_pages json_name l) (join ts) st.
Proof.
  intros H. revert st. induction H as [|p t l ts Hp _ IH]; intros st.
  - cbn [Stitch.stitch_pages ret fst snd join foldr]. now rewrite app_empty_s.
  - cbn [Stitch.stitch_pages]. unfold bind.
    destruct (stitch_page_verbatim json_name p t st Hp) as (E & A1 & A2 & A3).
    destruct (stitch_page json_name p st) as [[[]|] s1];
      cbn [fst snd] in *; [|discriminate].
    destruct (IH s1) as (E' & B1 & B2 & B3).
    split; [exact E'|]. rewrite B1, B2, B3, A1, A2, A3.
    cbn [join foldr]. now rewrite app_assoc_s.
Qed.

Lemma stitch_file_verbatim total i f ts st :
  verbatim_record f ts -> adds (stitch_file total i f) (join ts) st.
Proof.
  intros (obj & pages & l & Hf & Hp & Hl & H). destruct f as [name v].
  cbn [snd] in Hf. subst v.
  unfold Stitch.stitch_file, bind, try_except.
  destruct status_callback; cbn [post ret fst snd];
    rewrite (stitch_record_pages _ _ _ _ _ Hp Hl);
    match goal with
    | |- context [stitch_pages name l ?s0] =>
        destruct (stitch_pages_verbatim name l ts s0 H) as (E & A1 & A2 & A3);
        destruct (stitch_pages name l s0) as [[[]|] s1]
    end; cbn [fst snd] in *; try discriminate; now repeat split.
Qed.

Lemma stitch_files_verbatim total i fs tss st :
  Forall2 verbatim_record fs tss ->
  adds (stitch_files total i fs) (join (concat tss)) st.
Proof.
  intros H. revert i st. induction H as [|f ts fs tss Hf _ IH]; intros i st.
  - cbn [Stitch.stitch_files ret fst snd concat join foldr].
    now rewrite app_empty_s.
  - cbn [Stitch.stitch_files]. unfold bind.
    destruct (stitch_file_verbatim total i f ts st Hf) as (E & A1 & A2 & A3).
    destruct (stitch_file total i f st) as [[[]|] s1];
      cbn [fst snd] in *; [|discriminate].
    destruct (IH (S i) s1) as (E' & B1 & B2 & B3).
    split; [exact E'|]. rewrite B1, B2, B3, A1, A2, A3.
    cbn [concat]. now rewrite join_app, app_assoc_s.
Qed.

(** X4. When no image of the records yields an asset, the merged document
    is the markdown of the pages that have one, each followed by a blank
    line, in the order of the files and of the pages in each file, and
    nothing else; no asset is written. *)
Theorem verbatim_records_concatenated (json_files : list json_file)
    (tss : list (list string)) :
  Forall2 verbatim_record json_files tss ->
  let st := stitch_run json_files in
  stitched_md_file st = join (concat tss) /\
  written st = [] /\
  image_file_counter st = 0.
Proof.
  intros H st. unfold st, Stitch.stitch_run, bind.
  destruct (stitch_files_verbatim (length json_files) 0 json_files tss
              (Run 0 EmptyString [] []) H) as (E & A1 & A2 & A3).
  destruct (stitch_files _ 0 json_files _) as [[[]|] s1];
    cbn [fst snd] in *; [|discriminate].
  now destruct status_callback.
Qed.

(** *** What a record keeps, whatever it holds *)

Section Invariant.

(** A property of the run that survives the error and warning posts, the
    writing of a file under an asset name, the increment and the writing
    of a page. *)
Variable P : run -> Prop.
Hypothesis P_error : forall msg, keeps P (post (LogError msg)).
Hypothesis P_warning : forall msg, keeps P (post (LogWarning msg)).
Hypothesis P_write :
  forall name b, asset_name name -> keeps P (write_image name b).
Hypothesis P_incr : keeps P incr_counter.
Hypothesis P_markdown : forall md, keeps P (write_markdown md).

Lemma inv_process_image id uri md :
  keeps P (process_image b64decode str rel_dir id uri md).
Proof.
  unfold process_image. apply keeps_bind_lift. intros [ty b] Hd.
  apply keeps_bind; [now intros st|]. intros counter.
  apply keeps_bind.
  { apply P_write. exists counter, ty. split; [reflexivity|].
    exact (decode_image_alnum _ _ _ _ Hd). }
  intros _. apply keeps_bind; [apply keeps_str_replace|]. intros m1.
  apply keeps_bind; [apply keeps_str_replace|]. intros m2.
  apply keeps_bind; [exact P_incr|]. intros _. apply keeps_ret.
Qed.

Lemma inv_stitch_image json_name md image_info :
  keeps P (stitch_image json_name md image_info).
Proof.
  unfold Stitch.stitch_image.
  apply keeps_bind; [apply keeps_lift|]. intros id.
  apply keeps_bind; [apply keeps_lift|]. intros uri.
  destruct (_ || _); [apply keeps_ret|].
  apply keeps_try; [apply inv_process_image|].
  apply keeps_bind; [apply P_error|]. intros _. apply keeps_ret.
Qed.

Lemma inv_stitch_images json_name l md :
  keeps P (stitch_images json_name l md).
Proof.
  revert md. induction l as [|a l IH]; intros md; [apply keeps_ret|].
  cbn [Stitch.stitch_images]. apply keeps_bind; [apply inv_stitch_image|].
  exact IH.
Qed.

Lemma inv_stitch_page json_name page_data :
  keeps P (stitch_page json_name page_data).
Proof.
  unfold Stitch.stitch_page.
  apply keeps_bind; [apply keeps_lift|]. intros md.
  destruct (negb _); [apply keeps_ret|].
  apply keeps_bind; [apply keeps_lift|]. intros images.
  apply keeps_bind; [apply keeps_lift|]. intros l.
  apply keeps_bind; [apply inv_stitch_images|]. exact P_markdown.
Qed.

Lemma inv_stitch_pages json_name l : keeps P (stitch_pages json_name l).
Proof.
  induction l as [|p l IH]; [apply keeps_ret|].
  cbn [Stitch.stitch_pages]. apply keeps_bind; [apply inv_stitch_page|].
  intros _. exact IH.
Qed.

Lemma inv_stitch_record f : keeps P (stitch_record f).
Proof.
  unfold Stitch.stitch_record.
  apply keeps_bind; [apply keeps_lift|]. intros obj.
  destruct (negb _); [apply P_warning|].
  apply keeps_bind; [apply keeps_lift|]. intros pages.
  apply keeps_bind; [apply keeps_lift|]. intros l.
  apply inv_stitch_pages.
Qed.

End Invariant.

(** *** The names of the assets *)

Lemma asset_name_flat name :
  asset_name name -> Py.has_char "/" name = false.
Proof.
  intros (k & ty & -> & Hty).
  now apply (asset_path_no_char EmptyString "/" k ty).
Qed.

(** X5. Whatever the records hold, every file the run writes is named
    [image_<digits>.<extension>] with an alphanumeric extension: the name
    has no slash, so that the file lies in the image directory itself. *)
Theorem asset_names_flat (json_files : list json_file) :
  Forall (fun w => asset_name w.1 /\ Py.has_char "/" w.1 = false)
         (written (stitch_run json_files)).
Proof.
  apply (Forall_impl (fun w => asset_name w.1));
    [|intros w H; split; [exact H|now apply asset_name_flat]].
  unfold Stitch.stitch_run.
  set (P := fun st : run => Forall (fun w => asset_name w.1) (written st)).
  change (P ((Stitch.stitch_files b64decode str rel_dir status_callback
                (length json_files) 0 json_files ;;;
              (if status_callback
               then post (Status 0 ("Stitched markdown: " +:+ stitched_md_path))
               else ret tt)) (Run 0 EmptyString [] [])).2).
  assert (forall e, keeps P (post e)) as Hpost by (now intros e st).
  assert (forall total i, keeps P (Stitch.stitch_files b64decode str rel_dir
                                     status_callback total i json_files)) as Hfs.
  { intros total. induction json_files as [|f fs IH]; intros i;
      [apply keeps_ret|].
    cbn [Stitch.stitch_files]. apply keeps_bind; [|intros _; apply IH].
    unfold Stitch.stitch_file. apply keeps_bind.
    { destruct status_callback; [apply Hpost|apply keeps_ret]. }
    intros _. apply keeps_try; [|apply Hpost].
    apply inv_stitch_record; try (intros; apply Hpost); try (now intros st).
    + intros name b Hn st Hst. apply Forall_app. split; [exact Hst|].
      now constructor.
    + intros md st Hst. now destruct md. }
  apply keeps_bind.
  - apply Hfs.
  - intros _. destruct status_callback; [apply Hpost|apply keeps_ret].
  - constructor.
Qed.

(** *** The status texts *)

Lemma status_texts_app l1 l2 :
  status_texts (l1 ++ l2) = status_texts l1 ++ status_texts l2.
Proof. apply omap_app. Qed.

Lemma stitch_record_status f st :
  status_texts (posted (stitch_record f st).2) = status_texts (posted st).
Proof.
  apply (inv_stitch_record
           (fun s => status_texts (posted s) = status_texts (posted st)));
    try reflexivity.
  - intros msg s Hs. cbn [post snd posted]. rewrite status_texts_app.
    rewrite Hs. apply app_nil_r.
  - intros msg s Hs. cbn [post snd posted]. rewrite status_texts_app.
    rewrite Hs. apply app_nil_r.
  - now intros name b _ s Hs.
  - now intros s Hs.
  - intros md s Hs. now destruct md.
Qed.

Lemma stitch_file_status total i f st :
  status_texts (posted (stitch_file total i f st).2) =
  status_texts (posted st) ++
  (if status_callback then [stitching_status total i f] else []).
Proof.
  unfold Stitch.stitch_file, bind, try_except.
  destruct status_callback; cbn [post ret fst snd];
    match goal with
    | |- context [stitch_record f ?s0] =>
        pose proof (stitch_record_status f s0) as H;
        destruct (stitch_record f s0) as [[[]|] s1]
    end; cbn [fst snd post posted] in *;
    rewrite ?status_texts_app, H, ?status_texts_app; cbn [status_texts omap];
    rewrite ?app_nil_r; reflexivity.
Qed.

Lemma stitch_files_returns total i fs st :
  (stitch_files total i fs st).1 = Some tt.
Proof.
  revert i st. induction fs as [|f fs IH]; intros i st; [reflexivity|].
  cbn [Stitch.stitch_files]. unfold bind.
  pose proof (stitch_file_returns b64decode str rel_dir status_callback
                total i f st) as E.
  destruct (stitch_file total i f st) as [[[]|] s1];
    cbn [fst snd] in *; [|discriminate].
  apply IH.
Qed.

Lemma stitch_files_status total i fs st :
  status_texts (posted (stitch_files total i fs st).2) =
  status_texts (posted st) ++
  (if status_callback then stitching_statuses total i fs else []).
Proof.
  revert i st. induction fs as [|f fs IH]; intros i st.
  - cbn [Stitch.stitch_files ret snd]. destruct status_callback;
      now rewrite app_nil_r.
  - cbn [Stitch.stitch_files]. unfold bind.
    pose proof (stitch_file_status total i f st) as H.
    pose proof (stitch_file_returns b64decode str rel_dir status_callback
                  total i f st) as E.
    destruct (stitch_file total i f st) as [[[]|] s1];
      cbn [fst snd] in *; [|discriminate].
    rewrite IH, H. destruct status_callback; cbn [stitching_statuses];
      now rewrite <- app_assoc.
Qed.

(** X6. With a status callback, the status texts of a run are one
    announcement per file, in order and numbered from 1 to the number of
    files, whether the file is stitched, skipped or fails, followed by the
    closing text that names the merged document; without a callback the
    run posts no status at all. *)
Theorem one_status_per_file (json_files : list json_file) :
  status_texts (posted (stitch_run json_files)) =
  if status_callback
  then stitching_statuses (length json_files) 0 json_files ++
       ["Stitched markdown: " +:+ stitched_md_path]
  else [].
Proof.
  unfold Stitch.stitch_run, bind.
  pose proof (stitch_files_status (length json_files) 0 json_files
                (Run 0 EmptyString [] [])) as H.
  pose proof (stitch_files_returns (length json_files) 0 json_files
                (Run 0 EmptyString [] [])) as E.
  destruct (stitch_files _ 0 json_files _) as [[[]|] s1];
    cbn [fst snd posted] in *; [|discriminate].
  destruct status_callback; cbn [post ret snd posted].
  - rewrite status_texts_app, H. reflexivity.
  - exact H.
Qed.

(** *** Placeholders of other images *)

Lemma prefix_split (a s : string) :
  String.prefix a s = true -> s = a +:+ Py.drop_chars (String.length a) s.
Proof.
  revert s. induction a as [|x a IH]; intros [|y s]; try easy.
  rewrite prefix_cons. destruct (Ascii.eqb_spec x y) as [->|]; [|discriminate].
  intros H. cbn [String.append String.length Py.drop_chars]. f_equal.
  now apply IH.
Qed.

Lemma contains_app_r (p x y : string) :
  Py.contains p y = true -> Py.contains p (x +:+ y) = true.
Proof.
  intros H. induction x as [|c x IH]; [exact H|].
  cbn [String.append]. rewrite contains_cons, IH. apply orb_true_r.
Qed.

(** A match of another pattern survives the scan. *)
Lemma replace_scan_keeps (old new p s : string) :
  enclosed old -> banged new -> enclosed p -> p <> old ->
  Py.contains p s = true -> Py.contains p (Py.replace_scan old new 0 s) = true.
Proof.
  intros Ho Hn Hp Hne.
  remember (String.length s) as k eqn:Hk.
  revert s Hk. induction k as [k IH] using lt_wf_ind. intros s -> H.
  destruct s as [|c s]; [exact H|].
  destruct (String.prefix old (String c s)) eqn:Hm.
  - rewrite (replace_scan_match _ _ _ _ Hm). apply contains_app_r.
    destruct Ho as (ob & -> & Ho1 & Ho2).
    destruct Hp as (pb & -> & Hp1 & Hp2).
    rewrite prefix_cons in Hm.
    destruct (Ascii.eqb_spec "!" c) as [<-|]; [|discriminate].
    pose proof (prefix_split _ _ Hm) as Es.
    cbn [String.length] in *. rewrite Nat.sub_succ, Nat.sub_0_r.
    rewrite contains_cons, prefix_cons, Ascii.eqb_refl in H.
    apply orb_true_iff in H as [H|H].
    + exfalso. apply Hne. f_equal. f_equal. rewrite Es in H.
      rewrite app_assoc_s in H. cbn [String.append] in H.
      now apply closed_prefix_inj in H.
    + apply (IH (String.length (Py.drop_chars (String.length (ob +:+ ")")) s)));
        [|reflexivity|].
      * pose proof (length_drop (String.length (ob +:+ ")")) s). lia.
      * rewrite Es in H. rewrite contains_skip_plain in H; [exact H|now eexists|].
        rewrite has_char_app, Ho1. reflexivity.
  - rewrite (replace_scan_copy _ _ _ _ Hm). rewrite contains_cons in H |- *.
    apply orb_true_iff in H as [H|H].
    + destruct Hp as (pb & -> & Hp1 & Hp2).
      rewrite prefix_cons in H |- *.
      destruct (Ascii.eqb "!" c); [|discriminate].
      rewrite prefix_replace_scan; [now rewrite H|now apply enclosed_banged|exact Hn|].
      rewrite has_char_app, Hp1. reflexivity.
    + rewrite (IH (String.length s)); [apply orb_true_r|simpl; lia|reflexivity|exact H].
Qed.

Lemma titled_ref_inj a b :
  Py.has_char "]" a = false -> Py.has_char "]" b = false ->
  titled_ref a = titled_ref b -> a = b.
Proof.
  intros Ha Hb. unfold titled_ref. cbn [String.append]. intros [= H].
  apply (f_equal (Py.split_first "]")) in H.
  now rewrite !split_first_app in H.
Qed.

(** A pattern other than the two forms of the placeholder of [id]
    survives the rewriting of [id]. *)
Lemma rewrite_refs_keeps_pattern id p t lnk :
  Py.has_char "!" id = false -> Py.has_char ")" id = false ->
  enclosed p -> p <> bare_ref id -> p <> titled_ref id -> banged lnk ->
  Py.contains p t = true -> Py.contains p (rewrite_refs t id lnk) = true.
Proof.
  intros H1 H2 Hp Hb Ht Hl H.
  unfold rewrite_refs. rewrite !replace_banged by auto using banged_bare, banged_titled.
  apply replace_scan_keeps; auto using enclosed_titled.
  apply replace_scan_keeps; auto using enclosed_bare.
Qed.

(** The images of a list have ids without ["!"] and [")"], whose
    placeholders are not [p]. *)
Local Abbreviation apart p l :=
  (forall a id, In a l -> Stitch.resolved b64decode str a id ->
     Py.has_char "!" id = false /\ Py.has_char ")" id = false /\
     p <> bare_ref id /\ p <> titled_ref id).

Lemma stitch_image_keeps_pattern json_name t a st r st' p :
  enclosed p -> apart p [a] ->
  stitch_image json_name (JStr t) a st = (Some r, st') ->
  exists t', r = JStr t' /\
             (Py.contains p t = true -> Py.contains p t' = true).
Proof.
  intros Hp Ho. rewrite stitch_image_text.
  destruct (Json.get a "id" JNull) as [idv|] eqn:Hid; [|discriminate].
  destruct (Json.get a "image_base64" JNull) as [uri|] eqn:Hu; [|discriminate].
  destruct (Json.truthy idv && Json.truthy uri) eqn:Ht;
    [|intros [= <- <-]; now exists t].
  destruct (decode_image b64decode uri) as [[ty b]|] eqn:Hd;
    [|intros [= <- <-]; now exists t].
  intros [= <- <-]. eexists; split; [reflexivity|].
  destruct (Ho a (fmt str idv)) as (H1 & H2 & Hb & Htl); [now left| |].
  { now exists idv, uri, (ty, b). }
  apply rewrite_refs_keeps_pattern; try assumption. apply banged_bare.
Qed.

Lemma stitch_images_keep_pattern json_name l t st r st' p :
  enclosed p -> apart p l ->
  stitch_images json_name l (JStr t) st = (Some r, st') ->
  exists t', r = JStr t' /\
             (Py.contains p t = true -> Py.contains p t' = true).
Proof.
  intros Hp. revert t st. induction l as [|a l IH]; intros t st Ho.
  - intros [= <- <-]. now exists t.
  - cbn [Stitch.stitch_images]. unfold bind.
    destruct (stitch_image json_name (JStr t) a st) as [[v|] st1] eqn:Ha;
      [|discriminate].
    destruct (stitch_image_keeps_pattern _ _ _ _ _ _ p Hp
                ltac:(intros a' id [<-|[]]; apply Ho; now left) Ha)
      as (t1 & -> & B1).
    intros Hl.
    destruct (IH t1 st1 ltac:(intros a' id Hin; apply Ho; now right) Hl)
      as (t2 & -> & B2).
    exists t2. split; [reflexivity|]. auto.
Qed.

Lemma apart_bare id' l :
  plain_id id' -> id' <> EmptyString ->
  (forall a id, In a l -> Stitch.resolved b64decode str a id ->
     plain_id id /\ id <> EmptyString /\ id <> id') ->
  apart (bare_ref id') l /\ apart (titled_ref id') l.
Proof.
  intros (H1' & H2' & H3') Hn' Ho.
  split; intros a id Hin Hr;
    destruct (Ho a id Hin Hr) as ((H1 & H2 & H3) & Hn & Hne);
    (split; [exact H1|split; [exact H2|split]]).
  - intros E. apply bare_ref_inj in E. congruence.
  - intros E. symmetry in E. now apply titled_ne_bare in E.
  - now apply titled_ne_bare.
  - intros E. apply titled_ref_inj in E; congruence.
Qed.

(** X7. A replacement touches no other placeholder: a placeholder, in
    either form, of an id that none of the page's decoded images has is
    still in the text the page emits, when the ids are not empty and have
    none of the characters [!], [)] and []]. *)
Theorem other_placeholders_kept json_name page_data m l st st' id' :
  text_page page_data m l ->
  stitch_page json_name page_data st = (Some tt, st') ->
  plain_id id' -> id' <> EmptyString ->
  (forall image_info id,
     In image_info l -> Stitch.resolved b64decode str image_info id ->
     plain_id id /\ id <> EmptyString /\ id <> id') ->
  exists t,
    stitched_md_file st' = stitched_md_file st +:+ t +:+ newlines /\
    (Py.contains (bare_ref id') m = true -> Py.contains (bare_ref id') t = true) /\
    (Py.contains (titled_ref id') m = true ->
     Py.contains (titled_ref id') t = true).
Proof.
  intros Ht Hs Hp' Hn' Ho.
  rewrite (stitch_page_text b64decode str rel_dir _ _ _ _ _ Ht) in Hs.
  unfold bind in Hs.
  pose proof (keeps_stitch_images b64decode str rel_dir _ json_name l (JStr m)
                (stable_same_md (stitched_md_file st)) st eq_refl) as Hmd.
  destruct (stitch_images json_name l (JStr m) st) as [[r|] st1] eqn:E;
    [|discriminate].
  destruct (apart_bare id' l Hp' Hn' Ho) as [Ab At].
  destruct Hp' as (H1' & H2' & H3').
  destruct (stitch_images_keep_pattern _ _ _ _ _ _ (bare_ref id')
              (enclosed_bare _ H1' H2') Ab E) as (t & -> & Hb).
  destruct (stitch_images_keep_pattern _ _ _ _ _ _ (titled_ref id')
              (enclosed_titled _ H1' H2') At E) as (t2 & [= <-] & Htl).
  cbn [snd] in Hmd. cbn [write_markdown] in Hs. injection Hs as <-.
  exists t. cbn [stitched_md_file]. rewrite Hmd. now split.
Qed.

(** *** The link to a written asset *)

Lemma contains_prefix (p s : string) :
  String.prefix p s = true -> Py.contains p s = true.
Proof. intros H. destruct s; cbn [Py.contains]; now rewrite H. Qed.

(** Where the pattern occurs, the scan puts the replacement. *)
Lemma replace_scan_adds (old new s : string) :
  banged old -> Py.contains old s = true ->
  Py.contains new (Py.replace_scan old new 0 s) = true.
Proof.
  intros [ob ->]. induction s as [|c s IH]; intros H; [discriminate|].
  destruct (String.prefix (String "!" ob) (String c s)) eqn:Hm.
  - rewrite (replace_scan_match _ _ _ _ Hm).
    apply contains_prefix, prefix_app.
  - rewrite (replace_scan_copy _ _ _ _ Hm). rewrite contains_cons in H |- *.
    rewrite Hm in H. cbn [orb] in H. rewrite (IH H). apply orb_true_r.
Qed.

Lemma rewrite_refs_links id t lnk :
  plain_id id -> id <> EmptyString -> enclosed lnk ->
  bare_ref id <> lnk -> titled_ref id <> lnk ->
  Py.contains (bare_ref id) t = true \/ Py.contains (titled_ref id) t = true ->
  Py.contains lnk (rewrite_refs t id lnk) = true.
Proof.
  intros (H1 & H2 & H3) Hn Hl Hb Ht H.
  pose proof (enclosed_banged _ Hl) as Hl'.
  unfold rewrite_refs. rewrite !replace_banged by auto using banged_bare, banged_titled.
  destruct H as [H|H].
  - apply replace_scan_keeps; auto using enclosed_titled.
    apply replace_scan_adds; [apply banged_bare|exact H].
  - apply replace_scan_adds; [apply banged_titled|].
    apply replace_scan_keeps; auto using enclosed_bare, enclosed_titled.
    now apply titled_ne_bare.
Qed.

Lemma stable_written w : stable (fun st => In w (written st)).
Proof.
  split; [|split]; try (now intros e st H); try (now intros st H).
  intros n b st H. cbn [write_image snd written]. apply in_or_app. now left.
Qed.

(** X8. The link put for an image leads to its file. In a page whose
    image ids are not empty, have none of the characters [!], [)] and []]
    and are not asset paths, for an image that is decoded and written, is
    the first of the page with its id, and has a placeholder in the page's
    markdown, the emitted text holds the link [![](<path>)] where [<path>]
    is the relative path of a file that the run has written. *)
Theorem resolved_image_is_linked
    json_name page_data m before image_info after st st' id :
  Py.has_char "!" rel_dir = false -> Py.has_char ")" rel_dir = false ->
  text_page page_data m (before ++ image_info :: after) ->
  stitch_page json_name page_data st = (Some tt, st') ->
  Stitch.resolved b64decode str image_info id ->
  (forall a id0, In a (before ++ image_info :: after) ->
     Stitch.resolved b64decode str a id0 ->
     plain_id id0 /\ id0 <> EmptyString /\ Stitch.not_asset_path rel_dir id0) ->
  (forall a, In a before -> ~ Stitch.resolved b64decode str a id) ->
  Py.contains (bare_ref id) m = true \/ Py.contains (titled_ref id) m = true ->
  exists t name b,
    stitched_md_file st' = stitched_md_file st +:+ t +:+ newlines /\
    In (name, b) (written st') /\
    Py.contains (bare_ref (relative_image_path rel_dir name)) t = true.
Proof.
  intros Hr1 Hr2 Ht Hs Hres Hids Hfirst Hm.
  rewrite (stitch_page_text b64decode str rel_dir _ _ _ _ _ Ht) in Hs.
  unfold bind in Hs.
  pose proof (keeps_stitch_images b64decode str rel_dir _ json_name
                (before ++ image_info :: after) (JStr m)
                (stable_same_md (stitched_md_file st)) st eq_refl) as Hmd.
  destruct (stitch_images json_name (before ++ image_info :: after) (JStr m) st)
    as [[r|] s3] eqn:E; [|discriminate].
  cbn [snd] in Hmd.
  rewrite stitch_images_app in E. unfold bind in E.
  destruct (stitch_images json_name before (JStr m) st) as [[r0|] s0] eqn:E0;
    [|discriminate].
  destruct (Hids image_info id ltac:(apply in_or_app; right; now left) Hres)
    as (Hp & Hn & Hna).
  assert (forall a id0, In a before -> Stitch.resolved b64decode str a id0 ->
            plain_id id0 /\ id0 <> EmptyString /\ id0 <> id) as Hb.
  { intros a id0 Hin Ha.
    destruct (Hids a id0 ltac:(apply in_or_app; now left) Ha) as (H1 & H2 & _).
    split; [exact H1|split; [exact H2|]]. intros ->. now apply (Hfirst a). }
  destruct (apart_bare id before Hp Hn Hb) as [Ab At].
  pose proof Hp as (P1 & P2 & P3).
  destruct (stitch_images_keep_pattern _ _ _ _ _ _ (bare_ref id)
              (enclosed_bare _ P1 P2) Ab E0) as (t0 & -> & K1).
  destruct (stitch_images_keep_pattern _ _ _ _ _ _ (titled_ref id)
              (enclosed_titled _ P1 P2) At E0) as (t0' & [= <-] & K2).
  assert (Py.contains (bare_ref id) t0 = true \/
          Py.contains (titled_ref id) t0 = true) as Hm0
    by (destruct Hm; [left|right]; auto).
  cbn [Stitch.stitch_images] in E. unfold bind in E.
  rewrite stitch_image_text in E.
  destruct Hres as (idv & uri & [ty b] & Hid & Hu & Htr & Hd & ->).
  rewrite Hid, Hu, Htr, Hd in E.
  pose proof (decode_image_alnum _ _ _ _ Hd) as Hty.
  pose proof (enclosed_link rel_dir Hr1 Hr2 s0 ty Hty) as Hl.
  destruct (refs_ne_link rel_dir (fmt str idv) s0 ty Hp Hna) as [N1 N2].
  pose proof (rewrite_refs_links _ t0 _ Hp Hn Hl N1 N2 Hm0) as Hlink.
  set (w := (new_image_filename (image_file_counter s0) ty, b)) in *.
  pose proof (keeps_stitch_images b64decode str rel_dir _ json_name after
                (JStr (rewrite_refs t0 (fmt str idv) (link rel_dir s0 ty)))
                (stable_written w) (add_written w s0)
                ltac:(cbn [add_written written]; apply in_or_app; right; now left))
    as Hw.
  assert (forall a id0, In a after -> Stitch.resolved b64decode str a id0 ->
            Py.has_char "!" id0 = false /\ Py.has_char ")" id0 = false /\
            link rel_dir s0 ty <> bare_ref id0 /\
            link rel_dir s0 ty <> titled_ref id0) as Ha.
  { intros a id0 Hin Hr0.
    destruct (Hids a id0 ltac:(apply in_or_app; right; now right) Hr0)
      as (Q & _ & Qa).
    destruct (refs_ne_link rel_dir id0 s0 ty Q Qa) as [M1 M2].
    destruct Q as (Q1 & Q2 & _). repeat split; auto. }
  destruct (stitch_images_keep_pattern _ _ _ _ _ _ (link rel_dir s0 ty) Hl Ha E)
    as (t & -> & K).
  rewrite E in Hw. cbn [snd] in Hw.
  cbn [write_markdown] in Hs. injection Hs as <-.
  exists t, (new_image_filename (image_file_counter s0) ty), b.
  cbn [stitched_md_file written]. rewrite Hmd.
  split; [reflexivity|]. split; [exact Hw|]. now apply K.
Qed.

End Stitcher.

End StitchCasesFacts.

(** ** The orchestrator: the store and the gauge *)
Module OcrCasesFacts.
Import Ocr OcrFacts.

Section Orchestrator.
Context (PILImage mistral_client : bool).
Local Abbreviation process_item := (Ocr.process_item PILImage mistral_client).
Local Abbreviation run := (Ocr._perform_ocr_workflow_for_list PILImage mistral_client).
Local Abbreviation outcome := (Ocr.outcome PILImage mistral_client).
Local Abbreviation put_outcomes := (Ocr.put_outcomes PILImage mistral_client).
Local Abbreviation batch_posts := (Ocr.batch_posts PILImage mistral_client).

Lemma put_outcomes_unwritten its m k :
  (forall it, it ∈ its -> json_name it = k -> outcome it = None) ->
  put_outcomes its m !! k = m !! k.
Proof.
  revert m. induction its as [|it its IH]; intros m H; [reflexivity|].
  unfold Ocr.put_outcomes. cbn [foldl].
  change (put_outcomes its (put_outcome PILImage mistral_client it m) !! k = m !! k).
  rewrite IH by (intros it' Hin; apply H; now right).
  unfold put_outcome. destruct (outcome it) as [f|] eqn:E; [|reflexivity].
  apply lookup_insert_ne. intros Hk.
  specialize (H it ltac:(now left) Hk). congruence.
Qed.

(** X9. The run changes the [json] directory only under the record names
    of the items that get as far as the save: any other file is left as it
    was, and so is the earlier record of an item that fails before the
    save. *)
Theorem other_records_untouched (its : list item)
    (json_dir : gmap string stored) (k : string) :
  (forall it, it ∈ its -> json_name it = k -> outcome it = None) ->
  store (run its json_dir) !! k = json_dir !! k.
Proof.
  intros H. rewrite run_spec. cbn [store]. now apply put_outcomes_unwritten.
Qed.

Lemma outcome_needs_libraries it :
  PILImage && mistral_client = false -> outcome it = None.
Proof.
  unfold Ocr.outcome, converted, received.
  destruct PILImage, mistral_client; try discriminate; intros _;
    cbn [andb]; try reflexivity.
  now destruct (pdf_saved it && encoded it).
Qed.

(** X10. Without Pillow or without a Mistral client the run stores
    nothing: the [json] directory is left as it was. *)
Theorem nothing_stored_without_libraries (its : list item)
    (json_dir : gmap string stored) :
  PILImage && mistral_client = false ->
  store (run its json_dir) = json_dir.
Proof.
  intros H. rewrite run_spec. cbn [store]. apply map_eq. intros k.
  apply put_outcomes_unwritten. intros it _ _.
  now apply outcome_needs_libraries.
Qed.

(** X11. A PDF that encodes to the empty text counts as an encoding
    failure, although the encoder reports success: the item posts
    ["Encoded ..."] and then ["Failed PDF encoding: ..."], no request is
    made, nothing is stored and the closing progress value of the item is
    not posted. *)
Theorem empty_pdf_is_an_encoding_failure total_files i it st :
  PILImage = true -> pdf_saved it = true -> base64_pdf it = Some EmptyString ->
  process_item total_files i it st =
  (tt,
   Job (store st)
       (posted st ++
        [Status 0 ("Processing file " +:+ Py.str_of_nat (i + 1) +:+ "/" +:+
                   Py.str_of_nat total_files +:+ ": " +:+ name it +:+ "...");
         Progress (share_start i total_files + quarter 1 total_files);
         Status 1 ("Converting " +:+ name it +:+ " to PDF...");
         Status 1 ("Converted " +:+ name it +:+ " to PDF: " +:+ pdf_name it);
         Progress (share_start i total_files + quarter 2 total_files);
         Status 1 ("Encoding " +:+ pdf_name it +:+ " to base64...");
         Status 1 ("Encoded " +:+ pdf_name it +:+ ".");
         Status 0 ("Failed PDF encoding: " +:+ name it)])).
Proof.
  intros HP Hs Hb. rewrite process_item_spec.
  assert (converted PILImage it = true) as Hc
    by (unfold converted; now rewrite HP, Hs).
  unfold put_outcome, Ocr.outcome, item_posts, encoded, convert_posts,
    encode_posts.
  rewrite Hc, HP, Hs, Hb. reflexivity.
Qed.

(** X12. When [json.dump] raises on the converted response, the record
    file, already opened for writing, is left truncated whatever it held
    before, also a complete record of an earlier run; the failure is
    logged and reported. *)
Theorem failed_dump_truncates_record total_files i it r st :
  PILImage = true -> mistral_client = true ->
  pdf_saved it = true -> nonempty (base64_pdf it) = true ->
  ocr it = Some r -> is_true r = true -> as_dict r = inr None ->
  json_opens it = true ->
  let st' := (process_item total_files i it st).2 in
  store st' !! json_name it = Some Truncated /\
  In (LogError ("Failed to save OCR JSON for " +:+ name it +:+ ": "))
     (posted st') /\
  In (Status 0 ("Failed save JSON: " +:+ name it)) (posted st').
Proof.
  intros HP HM Hs Hb Ho Ht Hd Hj st'. unfold st'.
  rewrite process_item_spec. cbn [snd store posted].
  assert (converted PILImage it = true) as Hc
    by (unfold converted; now rewrite HP, Hs).
  assert (received mistral_client it = Some r) as Hr
    by (unfold received; now rewrite HM, Ho, Ht).
  assert (outcome it = Some Truncated) as E.
  { unfold Ocr.outcome, encoded. rewrite Hc, Hb, Hr, Hj, Hd. reflexivity. }
  unfold put_outcome. rewrite E. split; [apply lookup_insert_eq|].
  assert (forall e, In e (save_failed it) ->
            In e (posted st ++ item_posts PILImage mistral_client total_files i it))
    as Hin.
  { intros e He. apply in_or_app. right.
    unfold item_posts, encoded. rewrite Hc, Hb.
    apply in_or_app. right. apply in_or_app. right. right.
    apply in_or_app. right. right. apply in_or_app. right.
    apply in_or_app. left. unfold persist_posts.
    rewrite Hr, Hd, E. exact He. }
  split; apply Hin; [now left|right; now left].
Qed.

Lemma chain_lower lo l : chain lo l -> Forall (fun v => (lo <= v)%Z) l.
Proof.
  revert lo. induction l as [|v l IH]; intros lo; [constructor|].
  intros [Hv Hl]. constructor; [exact Hv|].
  apply (Forall_impl _ _ _ (IH v Hl)). intros x Hx. lia.
Qed.

(** X13. For a batch of at most 250 items every progress value the run
    posts lies between 0 and 100, so that the gauge shows each value as it
    is posted: the clamp of [update_progress] changes none. *)
Theorem progress_within_gauge (its : list item) (json_dir : gmap string stored) :
  length its <= 250 ->
  Forall (fun v => update_progress v = v /\ (0 <= v <= 100)%Z)
         (progress_values (posted (run its json_dir))).
Proof.
  intros Hn. apply (Forall_impl (fun v => (0 <= v <= 100)%Z));
    [|intros v Hv; split; [unfold update_progress; lia|exact Hv]].
  rewrite run_spec. cbn [posted].
  rewrite progress_values_cons. cbn [progress_value].
  constructor; [lia|]. rewrite progress_values_app. apply Forall_app. split.
  - pose proof (ordered_shares_small _ Hn) as Hok.
    destruct (within_batch PILImage mistral_client (length its) 0 its Hok
                ltac:(simpl; lia)) as (Hc & Hhi & _).
    destruct (ordered_shares_facts _ Hok) as (_ & _ & H0 & H100 & _).
    apply chain_lower in Hc. rewrite Forall_forall in Hc, Hhi.
    apply Forall_forall. intros v Hv. specialize (Hc v Hv).
    specialize (Hhi v Hv). cbn [Nat.add] in Hhi. lia.
  - cbn. repeat constructor; lia.
Qed.

End Orchestrator.

End OcrCasesFacts.

(** ** Comparison and sorting *)
Module PyStrFacts.
Import PyStr.

Lemma nat_of_ascii_inj x y : nat_of_ascii x = nat_of_ascii y -> x = y.
Proof.
  intros H. rewrite <- (ascii_nat_embedding x), <- (ascii_nat_embedding y).
  now rewrite H.
Qed.

Lemma str_lt_irrefl a : str_lt a a = false.
Proof.
  induction a as [|x a IH]; [reflexivity|]. cbn [str_lt].
  now rewrite Nat.ltb_irrefl, Nat.eqb_refl, IH.
Qed.

Lemma str_lt_cons x a y b :
  str_lt (String x a) (String y b) = true <->
  nat_of_ascii x < nat_of_ascii y \/
  (nat_of_ascii x = nat_of_ascii y /\ str_lt a b = true).
Proof.
  cbn [str_lt]. rewrite orb_true_iff, andb_true_iff, Nat.ltb_lt, Nat.eqb_eq.
  reflexivity.
Qed.

Lemma str_lt_trans a b c :
  str_lt a b = true -> str_lt b c = true -> str_lt a c = true.
Proof.
  revert b c. induction a as [|x a IH]; intros [|y b] [|z c]; try easy.
  rewrite !str_lt_cons. intros [H1|[H1 H1']] [H2|[H2 H2']]; try (left; lia).
  right. split; [lia|]. now apply (IH b).
Qed.

Lemma str_lt_asym a b : str_lt a b = true -> str_lt b a = false.
Proof.
  intros H. apply not_true_is_false. intros H'.
  pose proof (str_lt_trans _ _ _ H H') as E.
  now rewrite str_lt_irrefl in E.
Qed.

Lemma str_lt_connex a b : str_lt a b = false -> str_lt b a = false -> a = b.
Proof.
  revert b. induction a as [|x a IH]; intros [|y b]; try easy.
  intros H1 H2.
  apply not_true_iff_false in H1, H2. rewrite str_lt_cons in H1, H2.
  assert (nat_of_ascii x = nat_of_ascii y) as E by lia.
  f_equal; [now apply nat_of_ascii_inj|].
  apply IH; apply not_true_is_false; intros H; [apply H1|apply H2];
    right; now split.
Qed.

(** [a <= b], as the negation of [b < a], is transitive. *)
Lemma str_le_trans a b c :
  str_lt b a = false -> str_lt c b = false -> str_lt c a = false.
Proof.
  intros H1 H2. apply not_true_is_false. intros H3.
  destruct (str_lt a b) eqn:Eab.
  - destruct (str_lt b c) eqn:Ebc.
    + pose proof (str_lt_trans _ _ _ (str_lt_trans _ _ _ Eab Ebc) H3) as E.
      now rewrite str_lt_irrefl in E.
    + rewrite (str_lt_connex b c Ebc H2) in Eab.
      pose proof (str_lt_trans _ _ _ Eab H3) as E.
      now rewrite str_lt_irrefl in E.
  - rewrite (str_lt_connex a b Eab H1) in H3. congruence.
Qed.

Section Sorted.
Context {A : Type} (lt : A -> A -> bool).

(** [x] is not after [y]. *)
Local Abbreviation le x y := (lt y x = false).

Hypothesis lt_asym : forall x y, lt x y = true -> lt y x = false.
Hypothesis le_trans : forall x y z, le x y -> le y z -> le x z.

Lemma insort_perm x l : insort lt x l ≡ₚ x :: l.
Proof.
  induction l as [|y l IH]; [reflexivity|]. cbn [insort].
  destruct (lt y x); [|reflexivity].
  rewrite IH. apply Permutation_swap.
Qed.

Lemma sorted_perm l : sorted lt l ≡ₚ l.
Proof.
  induction l as [|x l IH]; [reflexivity|].
  unfold sorted in *. cbn [foldr]. rewrite insort_perm. now rewrite IH.
Qed.

Lemma insort_sorted x l :
  StronglySorted (fun a b => le a b) l ->
  StronglySorted (fun a b => le a b) (insort lt x l).
Proof.
  induction 1 as [|y l Hl IH Hy]; [repeat constructor|].
  cbn [insort]. destruct (lt y x) eqn:E.
  - constructor; [exact IH|].
    rewrite insort_perm. constructor; [now apply lt_asym|exact Hy].
  - constructor; [now constructor|].
    constructor; [exact E|].
    apply (Forall_impl _ _ _ Hy). intros z Hz. now apply (le_trans x y z).
Qed.

Lemma sorted_sorted l : StronglySorted (fun a b => le a b) (sorted lt l).
Proof.
  induction l as [|x l IH]; [constructor|].
  unfold sorted in *. cbn [foldr]. now apply insort_sorted.
Qed.

End Sorted.

Lemma filter_perm {A} (f : A -> bool) (l l' : list A) :
  l ≡ₚ l' -> List.filter f l ≡ₚ List.filter f l'.
Proof.
  induction 1 as [|x l l' _ IH|x y l|l1 l2 l3 _ IH1 _ IH2]; cbn [List.filter].
  - reflexivity.
  - destruct (f x); [now constructor|exact IH].
  - destruct (f x), (f y); try reflexivity. apply Permutation_swap.
  - now transitivity (List.filter f l2).
Qed.

End PyStrFacts.

(** ** The image modes *)
Module PdfModeFacts.
Import PdfMode.

(** X14. Whatever the mode of the opened image, the image saved as a PDF
    has mode [RGB] or [RGBA], after at most one conversion; an image that
    is [RGB] or [RGBA] already is saved as it is, and the saved image is
    [RGBA] only for an [RGBA] image or a palette image with an alpha
    band. *)
Theorem saved_mode_rgb_or_rgba (mode : string) (bands : list string) :
  (saved_mode mode bands = "RGB" \/ saved_mode mode bands = "RGBA") /\
  length (conversions mode bands) <= 1 /\
  (mode = "RGB" \/ mode = "RGBA" -> conversions mode bands = []) /\
  (saved_mode mode bands = "RGBA" ->
   mode = "RGBA" \/ (mode = "P" /\ In "A" bands)).
Proof.
  unfold saved_mode, conversions.
  destruct (String.eqb_spec mode "P") as [->|HP].
  { destruct (existsb (String.eqb "A") bands) eqn:E; cbn;
      repeat split; auto; try (intros [H|H]; discriminate); try discriminate.
    intros _. right. refine (conj eq_refl _).
    apply existsb_exists in E as (b & Hb & Eb).
    apply String.eqb_eq in Eb. now subst b. }
  destruct (String.eqb_spec mode "L") as [->|HL].
  { cbn. repeat split; auto; try (intros [H|H]; discriminate);
      try discriminate. }
  cbn [List.last app existsb].
  destruct (String.eqb_spec mode "RGB") as [->|HR].
  { cbn. repeat split; auto; try discriminate. }
  destruct (String.eqb_spec mode "RGBA") as [->|HA].
  { cbn. repeat split; auto. }
  cbn. repeat split; auto; try (intros [H|H]; contradiction);
    try discriminate.
Qed.

End PdfModeFacts.

(** ** The stitch worker *)
Module WorkflowFacts.
Import PyStr PyStrFacts Workflow.

Local Abbreviation json_glob :=
  (fun e => endswith (entry_name e) ".json" && entry_is_file e).
Local Abbreviation by_name :=
  (fun a b => str_lt (entry_name a) (entry_name b)).

Lemma by_name_sorted (l : list dir_entry) :
  StronglySorted (fun a b => by_name b a = false) (sorted by_name l).
Proof.
  apply sorted_sorted.
  - intros x y. apply str_lt_asym.
  - intros x y z. apply str_le_trans.
Qed.

Lemma by_name_unique (l l' : list dir_entry) :
  NoDup (entry_name <$> l) -> l ≡ₚ l' -> sorted by_name l = sorted by_name l'.
Proof.
  intros Hnd Hp.
  apply (StronglySorted_unique_strong (fun a b => by_name b a = false));
    try apply by_name_sorted.
  - intros x1 x2 H1 H2 Hle Hge.
    rewrite (sorted_perm by_name l) in H1.
    rewrite (sorted_perm by_name l'), <- Hp in H2.
    pose proof (str_lt_connex _ _ Hge Hle) as E.
    apply list_elem_of_lookup in H1 as [i Hi], H2 as [j Hj].
    assert (i = j) as ->.
    { apply (NoDup_lookup _ i j (entry_name x1) Hnd);
        rewrite list_lookup_fmap; [now rewrite Hi|rewrite Hj; cbn; now f_equal]. }
    congruence.
  - now rewrite !sorted_perm.
Qed.

Lemma NoDup_names_filter f (l : list dir_entry) :
  NoDup (entry_name <$> l) -> NoDup (entry_name <$> List.filter f l).
Proof.
  induction l as [|e l IH]; [easy|]. cbn [List.filter fmap list_fmap].
  intros H. apply NoDup_cons in H as [Hn Hl]. destruct (f e); [|now apply IH].
  cbn [fmap list_fmap]. apply NoDup_cons. split; [|now apply IH].
  intros Hin. apply Hn. apply list_elem_of_fmap in Hin as (e' & -> & He').
  apply list_elem_of_fmap. exists e'. split; [reflexivity|].
  apply list_elem_of_In. apply list_elem_of_In in He'.
  now apply filter_In in He'.
Qed.

Lemma json_files_perm (entries entries' : list dir_entry) :
  NoDup (entry_name <$> entries) -> entries ≡ₚ entries' ->
  json_files entries = json_files entries'.
Proof.
  intros Hnd Hp. unfold json_files. f_equal.
  apply by_name_unique; [now apply NoDup_names_filter|now apply filter_perm].
Qed.

Lemma json_files_In (entries : list dir_entry) name j :
  In (name, j) (json_files entries) <->
  exists e, In e entries /\ entry_name e = name /\ entry_json e = j /\
            endswith name ".json" = true /\ entry_is_file e = true.
Proof.
  unfold json_files. rewrite in_map_iff. split.
  - intros (e & [= <- <-] & He).
    apply (Permutation_in _ (sorted_perm by_name _)) in He.
    apply filter_In in He as [He Hg]. apply andb_prop in Hg as [Hg Hf].
    now exists e.
  - intros (e & He & <- & <- & Hg & Hf). exists e. split; [reflexivity|].
    apply (Permutation_in _ (Permutation_sym (sorted_perm by_name _))).
    apply filter_In. split; [exact He|]. now rewrite Hg, Hf.
Qed.

Lemma drop_chars_app (a b : string) :
  Py.drop_chars (String.length a) (a +:+ b) = b.
Proof. induction a as [|c a IH]; [reflexivity|]. exact IH. Qed.

Lemma endswith_app (a b : string) : endswith (a +:+ b) b = true.
Proof.
  unfold endswith. rewrite StitchFacts.length_app_s.
  replace (String.length a + String.length b - String.length b)
    with (String.length a) by lia.
  rewrite drop_chars_app, String.eqb_refl, andb_true_r.
  apply Nat.leb_le. lia.
Qed.

(** X15. The two workers agree on the names of the records: the file the
    OCR worker writes for an image, named after the image with the suffix
    [.json], matches the pattern of the stitch worker, which hands it to
    the stitcher whenever it is a regular file of the [json] directory. *)
Theorem saved_records_are_stitched (it : Ocr.item) (j : option json)
    (entries : list dir_entry) :
  endswith (Ocr.json_name it) ".json" = true /\
  (In (DirEntry (Ocr.json_name it) true j) entries ->
   In (Ocr.json_name it, j) (json_files entries)).
Proof.
  assert (endswith (Ocr.json_name it) ".json" = true) as H
    by apply endswith_app.
  split; [exact H|]. intros Hin. apply json_files_In.
  now exists (DirEntry (Ocr.json_name it) true j).
Qed.

Section Worker.
Context (b64decode : string -> option bytes) (str : json -> string)
        (stitched_md_path final_pdf_path : string) (same_folder : bool).
Local Abbreviation workflow :=
  (_perform_stitch_and_pandoc_workflow b64decode str stitched_md_path
     final_pdf_path same_folder).

(** X16. The stitcher is given the regular files of the [json] directory
    whose name ends in [.json], and only those, in strictly ascending
    order of name; and the worker leaves the same disk and makes the same
    calls in whatever order the directory lists its entries. *)
Theorem records_stitched_by_name (entries entries' : list dir_entry)
    (pandoc : pandoc_run) (d : Stitch.disk) :
  NoDup (entry_name <$> entries) ->
  entries ≡ₚ entries' ->
  StronglySorted (fun f g => str_lt f.1 g.1 = true) (json_files entries) /\
  (forall name j,
     In (name, j) (json_files entries) <->
     exists e, In e entries /\ entry_name e = name /\ entry_json e = j /\
               endswith name ".json" = true /\ entry_is_file e = true) /\
  workflow (Some entries) pandoc d = workflow (Some entries') pandoc d.
Proof.
  intros Hnd Hp. split; [|split].
  - unfold json_files.
    pose proof (NoDup_names_filter json_glob entries Hnd) as Hnd'.
    assert (NoDup (entry_name <$> sorted by_name (List.filter json_glob entries)))
      as Hnd'' by (now rewrite sorted_perm).
    clear Hnd'. revert Hnd''.
    generalize (by_name_sorted (List.filter json_glob entries)).
    generalize (sorted by_name (List.filter json_glob entries)).
    induction 1 as [|a l Hl IH Ha]; [constructor|].
    cbn [map fmap list_fmap]. intros H. apply NoDup_cons in H as [Hn Hl'].
    constructor; [now apply IH|].
    apply Forall_forall. intros [n j] Hin.
    apply list_elem_of_In, in_map_iff in Hin as (b & [= <- <-] & Hb). cbn [fst].
    apply list_elem_of_In in Hb.
    rewrite Forall_forall in Ha. specialize (Ha b Hb). cbn in Ha.
    destruct (str_lt (entry_name a) (entry_name b)) eqn:E; [reflexivity|].
    exfalso. apply Hn. rewrite (str_lt_connex _ _ E Ha).
    apply list_elem_of_fmap. now exists b.
  - apply json_files_In.
  - unfold _perform_stitch_and_pandoc_workflow.
    rewrite (json_files_perm entries entries' Hnd Hp).
    destruct entries as [|e es], entries' as [|e' es']; try reflexivity.
    + now apply Permutation_nil_cons in Hp.
    + symmetry in Hp. now apply Permutation_nil_cons in Hp.
Qed.

Lemma json_files_none (entries : list dir_entry) :
  (forall e, In e entries -> json_glob e = false) -> json_files entries = [].
Proof.
  intros H. unfold json_files.
  replace (List.filter json_glob entries) with (@nil dir_entry); [reflexivity|].
  symmetry. induction entries as [|e es IH]; [reflexivity|].
  cbn [List.filter]. rewrite (H e) by now left.
  apply IH. intros e' He'. apply H. now right.
Qed.

(** X17. Without a regular file named [*.json] in the [json] directory,
    also when the directory is missing or empty, the worker does not
    stitch: the disk is left as it was, a message box says why, the gauge
    goes back to 0 and the three buttons are enabled again. *)
Theorem no_json_file_no_stitch (json_dir : option (list dir_entry))
    (pandoc : pandoc_run) (d : Stitch.disk) :
  (forall entries e, json_dir = Some entries -> In e entries ->
     endswith (entry_name e) ".json" && entry_is_file e = false) ->
  workflow json_dir pandoc d =
  (d,
   [Post (Progress 5); Post (Status 0 "Collecting JSON files...");
    MessageBox
      (match json_dir with
       | Some (_ :: _) => "No .json files found in 'json' directory."
       | _ => "No JSON files in 'json' directory."
       end) "Info";
    Post (Progress 0);
    Enable RunOcrButton; Enable StitchPdfButton; Enable DeleteButton]).
Proof.
  intros H. unfold _perform_stitch_and_pandoc_workflow.
  destruct json_dir as [[|e es]|]; try reflexivity.
  rewrite json_files_none; [reflexivity|].
  intros e' He'. now apply (H (e :: es)).
Qed.

Lemma progress_calls_app l1 l2 :
  progress_calls (l1 ++ l2) = progress_calls l1 ++ progress_calls l2.
Proof. apply omap_app. Qed.

Lemma convert_to_pdf_last (pandoc : pandoc_run) :
  last (progress_calls (convert_to_pdf final_pdf_path same_folder pandoc)) =
  Some (match pandoc with
        | Exited returncode _ => if (returncode =? 0)%Z then 100%Z else 0%Z
        | _ => 0%Z
        end).
Proof.
  destruct pandoc as [rc err| |]; try reflexivity.
  unfold convert_to_pdf. destruct (rc =? 0)%Z; [|reflexivity].
  now destruct same_folder.
Qed.

(** X18. A worker that can list the [json] directory and open the merged
    document ends, whatever pandoc does, by enabling the three buttons
    again, and the last value it gives the gauge is 100 when there was a
    file to stitch and pandoc returned 0, and 0 in every other case. *)
Theorem stitch_worker_ends (json_dir : option (list dir_entry))
    (pandoc : pandoc_run) (d : Stitch.disk) :
  let calls := (workflow json_dir pandoc d).2 in
  (exists before, calls = before ++ enable_buttons) /\
  last (progress_calls calls) =
  Some (match json_dir, pandoc with
        | Some entries, Exited returncode _ =>
            match json_files entries with
            | [] => 0%Z
            | _ => if (returncode =? 0)%Z then 100%Z else 0%Z
            end
        | _, _ => 0%Z
        end).
Proof.
  cbv zeta. unfold _perform_stitch_and_pandoc_workflow.
  assert (forall msg : string,
            (exists before,
               [Post (Progress 5); Post (Status 0 "Collecting JSON files...")] ++
               [MessageBox msg "Info"; Post (Progress 0)] ++ enable_buttons =
               before ++ enable_buttons) /\
            last (progress_calls
                    ([Post (Progress 5); Post (Status 0 "Collecting JSON files...")] ++
                     [MessageBox msg "Info"; Post (Progress 0)] ++ enable_buttons)) =
            Some 0%Z) as Hnone.
  { intros msg. split; [|reflexivity]. eexists. now rewrite app_assoc. }
  destruct json_dir as [[|e es]|]; cbn [snd].
  - destruct (Hnone "No JSON files in 'json' directory.") as [H1 H2].
    split; [exact H1|]. now destruct pandoc.
  - destruct (json_files (e :: es)) as [|f fs] eqn:E.
    + destruct (Hnone "No .json files found in 'json' directory.") as [H1 H2].
      split; [exact H1|]. now destruct pandoc.
    + destruct (Stitch._stitch_ocr_data _ _ _ _ _ _ _) as [d' posts].
      cbn [snd]. split.
      * eexists. now rewrite !app_assoc.
      * rewrite !app_assoc, progress_calls_app, <- !app_assoc.
        rewrite last_app. cbn [enable_buttons progress_calls omap progress_of last].
        rewrite !progress_calls_app, !last_app, convert_to_pdf_last.
        now destruct pandoc.
  - destruct (Hnone "No JSON files in 'json' directory.") as [H1 H2].
    split; [exact H1|]. now destruct pandoc.
Qed.

End Worker.

End WorkflowFacts.

(** ** The frame *)
Module FrameFacts.
Import PyStr Frame.

Lemma ocr_targets_supported (l : list path) :
  Forall (fun p => is_file p = true /\
                   In (lower (suffix p)) supported_ocr_input_formats)
         (List.filter ocr_target l).
Proof.
  apply Forall_forall. intros p Hp.
  apply list_elem_of_In, filter_In in Hp as [_ Hp].
  apply andb_prop in Hp as [Hf Hs]. split; [exact Hf|].
  apply existsb_exists in Hs as (x & Hx & Ex).
  apply String.eqb_eq in Ex. now subst x.
Qed.

(** X19. The click handlers agree with the button states that
    [update_button_states] sets. The stitch button is enabled exactly when
    a click on it starts the stitch worker. The OCR button is enabled with
    a folder opened exactly when a click on it starts the OCR worker, which
    then gets the selected regular files with a supported extension, in
    the order of the selection and at least one; enabled without a folder,
    the click only shows a message. A click that starts a worker disables
    the three buttons. *)
Theorem enabled_buttons_start_workers (f : frame) :
  let f' := update_button_states f in
  (stitch_pdf_button f' = true <->
   exists folder,
     on_stitch_button_clicked f' = (disable_buttons f', StitchWorker folder)) /\
  (run_ocr_button f' = true /\ is_some (current_opened_folder_path f') = true <->
   exists folder,
     on_run_ocr_button_clicked f' =
     (disable_buttons f',
      OcrWorker (List.filter ocr_target (all_selected_item_paths f)) folder) /\
     List.filter ocr_target (all_selected_item_paths f) <> []) /\
  (run_ocr_button f' = true -> current_opened_folder_path f' = None ->
   on_run_ocr_button_clicked f' =
   (f', Message "Base folder not identified." "Error")) /\
  (forall paths folder,
     (on_run_ocr_button_clicked f').2 = OcrWorker paths folder ->
     Forall (fun p => is_file p = true /\
                      In (lower (suffix p)) supported_ocr_input_formats) paths).
Proof.
  cbv zeta.
  pose proof (ocr_targets_supported (all_selected_item_paths f)) as Hall.
  unfold update_button_states, on_stitch_button_clicked,
    on_run_ocr_button_clicked.
  cbn [mistral_client current_opened_folder_path all_selected_item_paths
       run_ocr_button stitch_pdf_button].
  destruct (mistral_client f), (current_opened_folder_path f) as [folder|],
    (List.filter ocr_target (all_selected_item_paths f)) as [|p ps];
    cbn [negb andb is_some nonempty snd];
    (split; [|split; [|split]]);
    try (intros paths folder' H; inversion H; subst; assumption);
    try (intros paths folder' H; discriminate);
    try (intros H1 H2; discriminate || reflexivity);
    try (split; [intros H; discriminate|intros [x H]; discriminate]);
    try (split; [intros [H1 H2]; discriminate|intros [x [H1 H2]]; discriminate]).
  - split; [intros _; now exists folder|reflexivity].
  - split; [intros _; now exists folder|reflexivity].
  - split; [intros _; now exists folder|now split].
Qed.

End FrameFacts.

(** ** The folder tree *)
Module TreeFacts.
Import PyStr PyStrFacts Tree.

Local Abbreviation item_le := (fun a b => key_lt (item_key b) (item_key a) = false).
Local Abbreviation node_lt := (fun a b => key_lt (key a) (key b)).

Lemma key_lt_asym a b : key_lt a b = true -> key_lt b a = false.
Proof.
  unfold key_lt. destruct a as [[] x], b as [[] y]; cbn [fst snd];
    try easy; apply str_lt_asym.
Qed.

Lemma key_le_trans a b c :
  key_lt b a = false -> key_lt c b = false -> key_lt c a = false.
Proof.
  unfold key_lt. destruct a as [[] x], b as [[] y], c as [[] z]; cbn [fst snd];
    try easy; apply str_le_trans.
Qed.

Lemma nodes_sorted (l : list node) :
  StronglySorted (fun a b => node_lt b a = false) (sorted node_lt l).
Proof.
  apply sorted_sorted.
  - intros x y. apply key_lt_asym.
  - intros x y z. apply key_le_trans.
Qed.

Lemma all_levels_sorted (c : list tree_item) :
  (fix all (l : list tree_item) : Prop :=
     match l with
     | [] => True
     | x :: l' => levels_sorted x /\ all l'
     end) c <-> Forall levels_sorted c.
Proof.
  induction c as [|x c IH]; [easy|]. rewrite Forall_cons, <- IH. reflexivity.
Qed.

Lemma levels_sorted_item l d f c :
  levels_sorted (TreeItem l d f c) <->
  StronglySorted item_le c /\ Forall levels_sorted c.
Proof. cbn [levels_sorted]. now rewrite all_levels_sorted. Qed.

Section Tree.
Context (joinpath : string -> string -> string).
Local Abbreviation add := (_add_tree_items_recursive joinpath).

(** The items of one entry, as in the body of the loop. *)
Local Abbreviation appended d parent :=
  (fun item_os_path =>
     match item_os_path with
     | Dir _ sub =>
         [TreeItem (node_name item_os_path)
            (joinpath parent (node_name item_os_path)) true
            (add d (joinpath parent (node_name item_os_path)) sub)]
     | File _ suffix =>
         if existsb (String.eqb (lower suffix)) supported_preview_formats
         then [TreeItem (node_name item_os_path)
                 (joinpath parent (node_name item_os_path)) false []]
         else []
     | Other _ => []
     end).

Lemma appended_sorted d parent (l : list node) :
  StronglySorted (fun a b => node_lt b a = false) l ->
  StronglySorted item_le (flat_map (appended d parent) l).
Proof.
  induction 1 as [|n l Hl IH Hn]; [constructor|].
  cbn [flat_map].
  assert (Forall (fun t => key_lt (item_key t) (key n) = false)
                 (flat_map (appended d parent) l)) as Hall.
  { clear IH Hl. induction Hn as [|m l Hm _ IH]; [constructor|].
    cbn [flat_map]. apply Forall_app. split; [|exact IH].
    destruct m as [name suffix|name sub|name]; cbn [key is_dir node_name] in *.
    - destruct (existsb _ _); repeat constructor. exact Hm.
    - repeat constructor. exact Hm.
    - constructor. }
  destruct n as [name suffix|name sub|name]; cbn [key is_dir node_name] in *.
  - destruct (existsb _ _); [|exact IH]. now constructor.
  - now constructor.
  - exact IH.
Qed.

Lemma add_levels_sorted depth parent listing :
  StronglySorted item_le (add depth parent listing) /\
  Forall levels_sorted (add depth parent listing).
Proof.
  revert parent listing. induction depth as [|d IH]; intros parent listing;
    [split; constructor|].
  destruct listing as [names|]; [|split; constructor].
  cbn [_add_tree_items_recursive]. split.
  - apply appended_sorted, nodes_sorted.
  - generalize (sorted node_lt names). intros l.
    induction l as [|n l IHl]; [constructor|].
    cbn [flat_map]. apply Forall_app. split; [|exact IHl].
    destruct n as [name suffix|name sub|name].
    + destruct (existsb _ _); repeat constructor.
    + constructor; [|constructor]. apply levels_sorted_item. apply IH.
    + constructor.
Qed.

(** X20. In the tree that is built, the items under every item, and the
    items at the top, have the folders first, and the folders and the
    files each in ascending order of their names in lower case: no file
    comes before a folder at any level. *)
Theorem tree_levels_sorted depth parent listing :
  let items := add depth parent listing in
  StronglySorted item_le items /\
  Forall levels_sorted items /\
  (forall before a after b,
     items = before ++ a :: after -> In b after ->
     folder b = true -> folder a = true).
Proof.
  cbv zeta. destruct (add_levels_sorted depth parent listing) as [Hs Hl].
  split; [exact Hs|split; [exact Hl|]].
  intros before a after b E Hb Hf. rewrite E in Hs.
  apply StronglySorted_app_1_r in Hs.
  apply StronglySorted_inv in Hs as [_ Ha].
  rewrite Forall_forall in Ha. apply list_elem_of_In in Hb.
  specialize (Ha b Hb). unfold key_lt, item_key in Ha. cbn [fst snd] in Ha.
  rewrite Hf in Ha. cbn [negb] in Ha. now destruct (folder a).
Qed.

Lemma appended_shown d parent (l : list node) :
  map (fun t => (label t, data t, folder t)) (flat_map (appended d parent) l) =
  map (fun n => (node_name n, joinpath parent (node_name n), is_dir n))
      (List.filter shown l).
Proof.
  induction l as [|n l IH]; [reflexivity|].
  cbn [flat_map List.filter]. rewrite map_app, IH.
  destruct n as [name suffix|name sub|name]; cbn [shown]; try reflexivity.
  now destruct (existsb _ _).
Qed.

(** X21. Under the item of a listed directory there is one item for each
    of its sub-directories, which has the folder icons, and one for each of
    its regular files with a supported extension, and no other; each is
    labelled with the entry's name and carries its path. A directory that
    cannot be listed gets no items. *)
Theorem tree_shows_folders_and_supported_files depth parent names :
  map (fun t => (label t, data t, folder t))
      (add (S depth) parent (Some names)) ≡ₚ
  map (fun n => (node_name n, joinpath parent (node_name n), is_dir n))
      (List.filter shown names) /\
  add (S depth) parent None = [].
Proof.
  split; [|reflexivity]. cbn [_add_tree_items_recursive].
  rewrite appended_shown. apply Permutation_map.
  apply filter_perm. apply sorted_perm.
Qed.

End Tree.

(** X22. The tree and the preview agree on the extensions: a regular file
    gets an item in the tree exactly when [display_preview] has a branch
    for its extension, an image, a text or a PDF preview, and does not
    answer that the preview is unsupported. *)
Theorem shown_files_have_a_preview (name suffix : string) :
  shown (File name suffix) = true <->
  Frame.preview_kind (lower suffix) <> Frame.Unsupported.
Proof.
  unfold shown, Frame.preview_kind, supported_preview_formats,
    Frame.supported_ocr_input_formats.
  cbn [existsb].
  repeat match goal with
         | |- context [String.eqb ?a ?b] => destruct (String.eqb a b)
         end; cbn [orb]; split; easy.
Qed.

End TreeFacts.

(** ** Deleting the selection *)
Module DeleteFacts.
Import Delete.

Lemma delete_item_counts send2trash st p :
  let st' := delete_item send2trash st p in
  deleted_count st' + error_count st' =
    deleted_count st + error_count st + (if present p then 1 else 0) /\
  deleted_count st' + length (removals st) =
    deleted_count st + length (removals st') +
    (if send2trash then 0 else if special p then 1 else 0) /\
  (error_count st' = error_count st \/ raises p = true).
Proof.
  cbv zeta. unfold delete_item, special.
  destruct (present p), send2trash, (is_file p), (is_dir p), (raises p);
    cbn [deleted_count error_count removals andb negb];
    rewrite ?length_app; cbn [length]; repeat split; auto; try lia.
Qed.

Lemma delete_loop_counts send2trash paths st :
  let st' := foldl (delete_item send2trash) st paths in
  deleted_count st' + error_count st' =
    deleted_count st + error_count st + length (List.filter present paths) /\
  deleted_count st' + length (removals st) =
    deleted_count st + length (removals st') +
    (if send2trash then 0 else length (List.filter special paths)) /\
  (Forall (fun p => raises p = false) paths -> error_count st' = error_count st).
Proof.
  cbv zeta. revert st. induction paths as [|p paths IH]; intros st.
  - cbn [foldl List.filter length]. repeat split; auto;
      destruct send2trash; lia.
  - cbn [foldl List.filter].
    destruct (IH (delete_item send2trash st p)) as (H1 & H2 & H3).
    destruct (delete_item_counts send2trash st p) as (G1 & G2 & G3).
    repeat split.
    + rewrite H1, G1. destruct (present p); cbn [length]; lia.
    + destruct send2trash; [lia|]. destruct (special p); cbn [length]; lia.
    + intros Hall. apply Forall_cons in Hall as [Hp Hall].
      rewrite (H3 Hall). destruct G3 as [G3|G3]; [exact G3|congruence].
Qed.

(** X23. A confirmed deletion empties the selection and counts every
    selected path that still exists when its turn comes as deleted or as an
    error, and no other. Without send2trash a path that exists and is
    neither a regular file nor a directory is counted as deleted although
    nothing is removed; apart from these every path counted as deleted was
    removed. When no removal raises there is no error. A deletion that is
    not confirmed removes nothing and keeps the selection. *)
Theorem deletion_counts (send2trash : bool) (paths : list target) :
  paths <> [] ->
  let st := delete_items send2trash paths in
  let done := on_delete_button_clicked send2trash paths true in
  let left := on_delete_button_clicked send2trash paths false in
  selection done = [] /\ removed done = removals st /\
  deleted_count st + error_count st = length (List.filter present paths) /\
  deleted_count st =
    length (removals st) +
    (if send2trash then 0 else length (List.filter special paths)) /\
  (Forall (fun p => raises p = false) paths -> error_count st = 0) /\
  In (Box ("Deletion process finished." +:+ newline +:+
           "Successfully deleted: " +:+ Py.str_of_nat (deleted_count st) +:+
           newline +:+ "Errors: " +:+ Py.str_of_nat (error_count st))
          "Deletion Report") (shown done) /\
  selection left = paths /\ removed left = [].
Proof.
  intros Hne. cbv zeta. unfold on_delete_button_clicked.
  destruct paths as [|p ps]; [contradiction|]. cbn [negb selection removed shown].
  destruct (delete_loop_counts send2trash (p :: ps)
              (Progress_ 0 0 [] [Confirm (confirmation (p :: ps)) "Confirm Delete"]))
    as (H1 & H2 & H3).
  fold (delete_items send2trash (p :: ps)) in H1, H2, H3.
  cbn [deleted_count error_count removals length] in H1, H2, H3.
  repeat split; try reflexivity; try assumption; try lia.
  apply in_or_app. right. now left.
Qed.

End DeleteFacts.

(** ** The further properties at concrete inputs *)

Lemma malformed_page_ends_record_witness :
  (Json.get Samples.three_pages "pages" (JArr []) =
     Some (JArr [Examples.page "One." []; JStr "oops"; Examples.page "Three." []]) /\
   Json.iter (JArr [Examples.page "One." []; JStr "oops"; Examples.page "Three." []]) =
     Some ([Examples.page "One." []] ++ JStr "oops" :: [Examples.page "Three." []]) /\
   Json.is_dict (JStr "oops") = false /\
   Json.get Samples.first_page "pages" (JArr []) =
     Some (JArr [Examples.page "One." []]) /\
   Json.iter (JArr [Examples.page "One." []]) = Some [Examples.page "One." []]) /\
  (let st1 := Examples.stitch_run
                ([("a.json", Some Examples.record_A)] ++
                 ("b.json", Some Samples.three_pages) ::
                 [("c.json", Some Examples.record_B)]) in
   let st2 := Examples.stitch_run
                ([("a.json", Some Examples.record_A)] ++
                 ("b.json", Some Samples.first_page) ::
                 [("c.json", Some Examples.record_B)]) in
   Stitch.stitched_md_file st1 = Stitch.stitched_md_file st2 /\
   Stitch.written st1 = Stitch.written st2 /\
   Stitch.image_file_counter st1 = Stitch.image_file_counter st2 /\
   In (LogError ("Stitching error for " +:+ "b.json" +:+ ": ")) (Stitch.posted st1)).
Proof.
  split; [repeat split|].
  exact (StitchCasesFacts.malformed_page_ends_record Base64.b64decode
           Examples.str_scalar "../images/" true "markdown/stitched_document.md"
           [("a.json", Some Examples.record_A)]
           [("c.json", Some Examples.record_B)] "b.json"
           Samples.three_pages Samples.first_page
           (JArr [Examples.page "One." []; JStr "oops"; Examples.page "Three." []])
           (JArr [Examples.page "One." []])
           [Examples.page "One." []] (JStr "oops") [Examples.page "Three." []]
           eq_refl eq_refl eq_refl eq_refl eq_refl).
Defined.

Lemma undecodable_image_reported_witness :
  StitchCases.undecodable Base64.b64decode Examples.str_scalar
    Samples.broken_image "img9" /\
  (Stitch.stitch_image Base64.b64decode Examples.str_scalar "../images/" "a.json"
     (JStr "See ![](img9)") Samples.broken_image Examples.start =
   (Some (JStr "See ![](img9)"),
    Stitch.add_posted
      (LogError ("Img proc. error " +:+ "img9" +:+ " in " +:+ "a.json" +:+ ": "))
      Examples.start) /\
   Stitch.sim
     (Stitch.stitch_images Base64.b64decode Examples.str_scalar "../images/" "a.json"
        ([] ++ Samples.broken_image :: [Examples.image "img1" "aGk="])
        (JStr "See ![](img9)"))
     (Stitch.stitch_images Base64.b64decode Examples.str_scalar "../images/" "a.json"
        ([] ++ [Examples.image "img1" "aGk="]) (JStr "See ![](img9)"))).
Proof.
  assert (StitchCases.undecodable Base64.b64decode Examples.str_scalar
            Samples.broken_image "img9") as H.
  { exists (JStr "img9"), (JStr "data:image/png;base64,a"). now repeat split. }
  split; [exact H|].
  exact (StitchCasesFacts.undecodable_image_reported Base64.b64decode
           Examples.str_scalar "../images/" "a.json" []
           [Examples.image "img1" "aGk="] Samples.broken_image "img9"
           (JStr "See ![](img9)") Examples.start H).
Defined.

Lemma verbatim_records_concatenated_witness :
  Forall2 (StitchCases.verbatim_record Base64.b64decode Examples.str_scalar)
          Samples.plain_files
          [["One." +:+ Stitch.newlines; EmptyString]; ["Two." +:+ Stitch.newlines]] /\
  (let st := Examples.stitch_run Samples.plain_files in
   Stitch.stitched_md_file st =
     StitchCases.join
       (concat [["One." +:+ Stitch.newlines; EmptyString];
                ["Two." +:+ Stitch.newlines]]) /\
   Stitch.written st = [] /\
   Stitch.image_file_counter st = 0).
Proof.
  assert (Forall2 (StitchCases.verbatim_record Base64.b64decode Examples.str_scalar)
            Samples.plain_files
            [["One." +:+ Stitch.newlines; EmptyString]; ["Two." +:+ Stitch.newlines]])
    as H.
  { constructor; [|constructor; [|constructor]].
    - exists (Examples.record [Examples.page "One." []; Examples.page "" []]),
        (JArr [Examples.page "One." []; Examples.page "" []]),
        [Examples.page "One." []; Examples.page "" []].
      split; [reflexivity|]. split; [reflexivity|]. split; [reflexivity|].
      constructor; [|constructor; [|constructor]].
      + right. exists "One."%string, [].
        split; [|split; [constructor|reflexivity]].
        split; [reflexivity|]. split; [discriminate|].
        exists (JArr []). now split.
      + left. split; [|reflexivity]. exists (JStr EmptyString). now split.
    - exists (Examples.record [Examples.page "Two." [Samples.broken_image]]),
        (JArr [Examples.page "Two." [Samples.broken_image]]),
        [Examples.page "Two." [Samples.broken_image]].
      split; [reflexivity|]. split; [reflexivity|]. split; [reflexivity|].
      constructor; [|constructor].
      right. exists "Two."%string, [Samples.broken_image].
      split; [|split; [|reflexivity]].
      + split; [reflexivity|]. split; [discriminate|].
        exists (JArr [Samples.broken_image]). now split.
      + constructor; [|constructor]. right. exists "img9"%string.
        exists (JStr "img9"), (JStr "data:image/png;base64,a").
        split; [reflexivity|]. split; [reflexivity|]. split; [reflexivity|].
        split; reflexivity. }
  split; [exact H|].
  exact (StitchCasesFacts.verbatim_records_concatenated Base64.b64decode
           Examples.str_scalar "../images/" true "markdown/stitched_document.md"
           Samples.plain_files _ H).
Defined.

Lemma other_records_untouched_witness :
  (forall it, it ∈ [Examples.a_png; Examples.b_bmp] ->
     Ocr.json_name it = "b.json"%string -> Ocr.outcome true true it = None) /\
  Ocr.store (Examples.ocr [Examples.a_png; Examples.b_bmp] Samples.earlier)
    !! "b.json"%string = Samples.earlier !! "b.json"%string.
Proof.
  assert (forall it, it ∈ [Examples.a_png; Examples.b_bmp] ->
            Ocr.json_name it = "b.json"%string -> Ocr.outcome true true it = None)
    as H.
  { intros it Hin. apply list_elem_of_In in Hin.
    destruct Hin as [<-|[<-|[]]]; [discriminate|reflexivity]. }
  split; [exact H|].
  exact (OcrCasesFacts.other_records_untouched true true
           [Examples.a_png; Examples.b_bmp] Samples.earlier "b.json" H).
Defined.

Lemma nothing_stored_without_libraries_witness :
  true && false = false /\
  Ocr.store (Ocr._perform_ocr_workflow_for_list true false
               [Examples.a_png; Examples.b_bmp] Samples.earlier) = Samples.earlier.
Proof.
  split; [reflexivity|].
  exact (OcrCasesFacts.nothing_stored_without_libraries true false
           [Examples.a_png; Examples.b_bmp] Samples.earlier eq_refl).
Defined.

Lemma empty_pdf_is_an_encoding_failure_witness :
  (true = true /\ Ocr.pdf_saved Samples.empty_pdf = true /\
   Ocr.base64_pdf Samples.empty_pdf = Some EmptyString) /\
  Ocr.process_item true true 1 0 Samples.empty_pdf (Ocr.Job ∅ []) =
  (tt,
   Ocr.Job ∅
     ([] ++
      [Status 0 ("Processing file " +:+ Py.str_of_nat (0 + 1) +:+ "/" +:+
                 Py.str_of_nat 1 +:+ ": " +:+ Ocr.name Samples.empty_pdf +:+ "...");
       Progress (Ocr.share_start 0 1 + Ocr.quarter 1 1);
       Status 1 ("Converting " +:+ Ocr.name Samples.empty_pdf +:+ " to PDF...");
       Status 1 ("Converted " +:+ Ocr.name Samples.empty_pdf +:+ " to PDF: " +:+
                 Ocr.pdf_name Samples.empty_pdf);
       Progress (Ocr.share_start 0 1 + Ocr.quarter 2 1);
       Status 1 ("Encoding " +:+ Ocr.pdf_name Samples.empty_pdf +:+ " to base64...");
       Status 1 ("Encoded " +:+ Ocr.pdf_name Samples.empty_pdf +:+ ".");
       Status 0 ("Failed PDF encoding: " +:+ Ocr.name Samples.empty_pdf)])).
Proof.
  split; [repeat split|].
  exact (OcrCasesFacts.empty_pdf_is_an_encoding_failure true true 1 0
           Samples.empty_pdf (Ocr.Job ∅ []) eq_refl eq_refl eq_refl).
Defined.

Lemma failed_dump_truncates_record_witness :
  (true = true /\ true = true /\
   Ocr.pdf_saved Samples.undumpable = true /\
   Ocr.nonempty (Ocr.base64_pdf Samples.undumpable) = true /\
   Ocr.ocr Samples.undumpable = Some (Ocr.Response true (inr None)) /\
   Ocr.is_true (Ocr.Response true (inr None)) = true /\
   Ocr.as_dict (Ocr.Response true (inr None)) = inr None /\
   Ocr.json_opens Samples.undumpable = true) /\
  (let st' := snd (Ocr.process_item true true 1 0 Samples.undumpable
                     (Ocr.Job {[ "u.json" := Ocr.Saved Examples.record_A ]} [])) in
   Ocr.store st' !! Ocr.json_name Samples.undumpable = Some Ocr.Truncated /\
   In (LogError ("Failed to save OCR JSON for " +:+ Ocr.name Samples.undumpable +:+ ": "))
      (Ocr.posted st') /\
   In (Status 0 ("Failed save JSON: " +:+ Ocr.name Samples.undumpable))
      (Ocr.posted st')).
Proof.
  split; [repeat split|].
  exact (OcrCasesFacts.failed_dump_truncates_record true true 1 0
           Samples.undumpable (Ocr.Response true (inr None))
           (Ocr.Job {[ "u.json" := Ocr.Saved Examples.record_A ]} [])
           eq_refl eq_refl eq_refl eq_refl eq_refl eq_refl eq_refl eq_refl).
Defined.

Lemma progress_within_gauge_witness :
  length [Examples.a_png; Examples.b_bmp; Examples.c_png] <= 250 /\
  Forall (fun v => Ocr.update_progress v = v /\ (0 <= v <= 100)%Z)
         (Ocr.progress_values
            (Ocr.posted (Examples.ocr [Examples.a_png; Examples.b_bmp; Examples.c_png] ∅))).
Proof.
  assert (length [Examples.a_png; Examples.b_bmp; Examples.c_png] <= 250) as H
    by (simpl; lia).
  split; [exact H|].
  exact (OcrCasesFacts.progress_within_gauge true true
           [Examples.a_png; Examples.b_bmp; Examples.c_png] ∅ H).
Defined.

Lemma records_stitched_by_name_witness :
  (NoDup (Workflow.entry_name <$> Samples.listing) /\
   Samples.listing ≡ₚ Samples.listing') /\
  (StronglySorted (fun f g => PyStr.str_lt f.1 g.1 = true)
     (Workflow.json_files Samples.listing) /\
   (forall name j,
      In (name, j) (Workflow.json_files Samples.listing) <->
      exists e, In e Samples.listing /\ Workflow.entry_name e = name /\
                Workflow.entry_json e = j /\
                PyStr.endswith name ".json" = true /\
                Workflow.entry_is_file e = true) /\
   Samples.workflow (Some Samples.listing) (Workflow.Exited 0 EmptyString)
                    Examples.fresh =
   Samples.workflow (Some Samples.listing') (Workflow.Exited 0 EmptyString)
                    Examples.fresh).
Proof.
  assert (NoDup (Workflow.entry_name <$> Samples.listing)) as Hd.
  { apply (bool_decide_unpack _). vm_compute. exact I. }
  assert (Samples.listing ≡ₚ Samples.listing') as Hp by apply Permutation_swap.
  split; [split; [exact Hd|exact Hp]|].
  exact (WorkflowFacts.records_stitched_by_name Base64.b64decode
           Examples.str_scalar "/scans/markdown/stitched_document.md"
           "/scans/final_output/final_document.pdf" true
           Samples.listing Samples.listing' (Workflow.Exited 0 EmptyString)
           Examples.fresh Hd Hp).
Defined.

Lemma no_json_file_no_stitch_witness :
  (forall entries e, Some Samples.no_records = Some entries -> In e entries ->
     PyStr.endswith (Workflow.entry_name e) ".json" &&
     Workflow.entry_is_file e = false) /\
  Samples.workflow (Some Samples.no_records) Workflow.NotFound Examples.fresh =
  (Examples.fresh,
   [Post (Progress 5); Post (Status 0 "Collecting JSON files...");
    MessageBox "No .json files found in 'json' directory." "Info";
    Post (Progress 0);
    Enable RunOcrButton; Enable StitchPdfButton; Enable DeleteButton]).
Proof.
  assert (forall entries e, Some Samples.no_records = Some entries -> In e entries ->
            PyStr.endswith (Workflow.entry_name e) ".json" &&
            Workflow.entry_is_file e = false) as H.
  { intros entries e [= <-] [<-|[<-|[]]]; reflexivity. }
  split; [exact H|].
  exact (WorkflowFacts.no_json_file_no_stitch Base64.b64decode
           Examples.str_scalar "/scans/markdown/stitched_document.md"
           "/scans/final_output/final_document.pdf" true
           (Some Samples.no_records) Workflow.NotFound Examples.fresh H).
Defined.

Lemma deletion_counts_witness :
  Samples.doomed <> [] /\
  (let st := Delete.delete_items false Samples.doomed in
   let done := Delete.on_delete_button_clicked false Samples.doomed true in
   let left := Delete.on_delete_button_clicked false Samples.doomed false in
   Delete.selection done = [] /\ Delete.removed done = Delete.removals st /\
   Delete.deleted_count st + Delete.error_count st =
     length (List.filter Delete.present Samples.doomed) /\
   Delete.deleted_count st =
     length (Delete.removals st) + length (List.filter Delete.special Samples.doomed) /\
   (Forall (fun p => Delete.raises p = false) Samples.doomed ->
    Delete.error_count st = 0) /\
   In (Delete.Box ("Deletion process finished." +:+ Delete.newline +:+
                   "Successfully deleted: " +:+
                   Py.str_of_nat (Delete.deleted_count st) +:+
                   Delete.newline +:+ "Errors: " +:+
                   Py.str_of_nat (Delete.error_count st))
                  "Deletion Report") (Delete.shown done) /\
   Delete.selection left = Samples.doomed /\ Delete.removed left = []).
Proof.
  assert (Samples.doomed <> []) as H by discriminate.
  split; [exact H|].
  exact (DeleteFacts.deletion_counts false Samples.doomed H).
Defined.

Lemma other_placeholders_kept_witness :
  (Stitch.text_page Samples.two_refs "See ![](img1) and ![](img2)"
     [Examples.image "img1" "data:image/png;base64,aGk="] /\
   Examples.stitch_page Samples.two_refs Examples.start =
     (Some tt, snd (Examples.stitch_page Samples.two_refs Examples.start)) /\
   Stitch.plain_id "img2" /\ "img2"%string <> EmptyString /\
   (forall image_info id,
      In image_info [Examples.image "img1" "data:image/png;base64,aGk="] ->
      Stitch.resolved Base64.b64decode Examples.str_scalar image_info id ->
      Stitch.plain_id id /\ id <> EmptyString /\ id <> "img2"%string)) /\
  exists t,
    Stitch.stitched_md_file
      (snd (Examples.stitch_page Samples.two_refs Examples.start)) =
      Stitch.stitched_md_file Examples.start +:+ t +:+ Stitch.newlines /\
    (Py.contains (Stitch.bare_ref "img2") "See ![](img1) and ![](img2)" = true ->
     Py.contains (Stitch.bare_ref "img2") t = true) /\
    (Py.contains (Stitch.titled_ref "img2") "See ![](img1) and ![](img2)" = true ->
     Py.contains (Stitch.titled_ref "img2") t = true).
Proof.
  assert (Stitch.text_page Samples.two_refs "See ![](img1) and ![](img2)"
            [Examples.image "img1" "data:image/png;base64,aGk="]) as Ht.
  { split; [reflexivity|]. split; [discriminate|]. eexists. now split. }
  assert (Stitch.plain_id "img2") as Hp by now repeat split.
  assert ("img2"%string <> EmptyString) as Hn by discriminate.
  assert (forall image_info id,
            In image_info [Examples.image "img1" "data:image/png;base64,aGk="] ->
            Stitch.resolved Base64.b64decode Examples.str_scalar image_info id ->
            Stitch.plain_id id /\ id <> EmptyString /\ id <> "img2"%string) as Ho.
  { intros a id [<-|[]] (idv & uri & d & Hid & _ & _ & _ & ->).
    injection Hid as <-. now repeat split. }
  split; [exact (conj Ht (conj eq_refl (conj Hp (conj Hn Ho))))|].
  exact (StitchCasesFacts.other_placeholders_kept Base64.b64decode
           Examples.str_scalar "../images/" "a.json" Samples.two_refs
           "See ![](img1) and ![](img2)"
           [Examples.image "img1" "data:image/png;base64,aGk="]
           Examples.start
           (snd (Examples.stitch_page Samples.two_refs Examples.start))
           "img2" Ht eq_refl Hp Hn Ho).
Defined.

Lemma resolved_image_is_linked_witness :
  (Py.has_char "!" "../images/" = false /\
   Py.has_char ")" "../images/" = false /\
   Stitch.text_page Examples.page_A "See ![](img1)"
     ([] ++ Examples.image "img1" "data:image/png;base64,aGk=" :: []) /\
   Examples.stitch_page Examples.page_A Examples.start =
     (Some tt, snd (Examples.stitch_page Examples.page_A Examples.start)) /\
   Stitch.resolved Base64.b64decode Examples.str_scalar
     (Examples.image "img1" "data:image/png;base64,aGk=") "img1" /\
   (forall a id0,
      In a ([] ++ Examples.image "img1" "data:image/png;base64,aGk=" :: []) ->
      Stitch.resolved Base64.b64decode Examples.str_scalar a id0 ->
      Stitch.plain_id id0 /\ id0 <> EmptyString /\
      Stitch.not_asset_path "../images/" id0) /\
   (forall a, In a [] ->
      ~ Stitch.resolved Base64.b64decode Examples.str_scalar a "img1") /\
   (Py.contains (Stitch.bare_ref "img1") "See ![](img1)" = true \/
    Py.contains (Stitch.titled_ref "img1") "See ![](img1)" = true)) /\
  exists t name b,
    Stitch.stitched_md_file
      (snd (Examples.stitch_page Examples.page_A Examples.start)) =
      Stitch.stitched_md_file Examples.start +:+ t +:+ Stitch.newlines /\
    In (name, b)
       (Stitch.written (snd (Examples.stitch_page Examples.page_A Examples.start))) /\
    Py.contains (Stitch.bare_ref (Stitch.relative_image_path "../images/" name)) t =
      true.
Proof.
  assert (Stitch.text_page Examples.page_A "See ![](img1)"
            ([] ++ Examples.image "img1" "data:image/png;base64,aGk=" :: []))
    as Ht.
  { split; [reflexivity|]. split; [discriminate|]. eexists. now split. }
  assert (Stitch.resolved Base64.b64decode Examples.str_scalar
            (Examples.image "img1" "data:image/png;base64,aGk=") "img1") as Hr.
  { exists (JStr "img1"), (JStr "data:image/png;base64,aGk="). eexists.
    split; [reflexivity|]. split; [reflexivity|]. split; [reflexivity|].
    split; reflexivity. }
  assert (forall a id0,
            In a ([] ++ Examples.image "img1" "data:image/png;base64,aGk=" :: []) ->
            Stitch.resolved Base64.b64decode Examples.str_scalar a id0 ->
            Stitch.plain_id id0 /\ id0 <> EmptyString /\
            Stitch.not_asset_path "../images/" id0) as Hids.
  { intros a id0 [<-|[]] (idv & uri & d & Hid & _ & _ & _ & ->).
    injection Hid as <-. split; [now repeat split|]. split; [discriminate|].
    intros k ty. discriminate. }
  assert (forall a, In a [] ->
            ~ Stitch.resolved Base64.b64decode Examples.str_scalar a "img1")
    as Hf by (intros a []).
  assert (Py.contains (Stitch.bare_ref "img1") "See ![](img1)" = true \/
          Py.contains (Stitch.titled_ref "img1") "See ![](img1)" = true) as Hm
    by (left; reflexivity).
  split;
    [exact (conj eq_refl (conj eq_refl (conj Ht (conj eq_refl
              (conj Hr (conj Hids (conj Hf Hm)))))))|].
  exact (StitchCasesFacts.resolved_image_is_linked Base64.b64decode
           Examples.str_scalar "../images/" "a.json" Examples.page_A
           "See ![](img1)" [] (Examples.image "img1" "data:image/png;base64,aGk=")
           [] Examples.start
           (snd (Examples.stitch_page Examples.page_A Examples.start))
           "img1" eq_refl eq_refl Ht eq_refl Hr Hids Hf Hm).
Defined.
